(** * upload.js: a scripted client of the cPanel file-manager API

    A shallow embedding of [upload.js].  The script is a straight-line
    sequence of effects (console output, local file operations, HTTP
    requests, [process.exit]), so it is modelled as state-passing code in a
    small monad whose outcomes are the three ways a JavaScript computation
    of this script can end: normally, by a thrown exception (a rejected
    promise), or by [process.exit]. *)

From Stdlib Require Import String Ascii List ZArith Bool Lia Floats DecimalString.
From Stdlib Require Import DecimalNat DecimalZ FunInd.
Import ListNotations.
Open Scope list_scope.
Open Scope string_scope.

(** ** Strings *)

Module Str.

(** [String(n)] for an integer-valued Number (below 1e21 in magnitude,
    where JavaScript prints plain decimal digits). *)
Definition of_Z (z : Z) : string := NilEmpty.string_of_int (Z.to_int z).

Definition of_nat (n : nat) : string := NilEmpty.string_of_uint (Nat.to_uint n).

(** [c.repeat(n)] for a one-character string. *)
Fixpoint repeat (c : ascii) (n : nat) : string :=
  match n with
  | O => ""
  | S k => String c (repeat c k)
  end.

(** [s.padStart(target, c)] with a one-character pad string. *)
Definition padStart (s : string) (target : nat) (c : ascii) : string :=
  repeat c (target - String.length s) ++ s.

(** [s.includes(pat)]: [pat] occurs somewhere in [s]. *)
Fixpoint includes (s pat : string) : bool :=
  if prefix pat s then true
  else match s with
       | "" => false
       | String _ rest => includes rest pat
       end.

(** The characters of [s] split at every ["/"]. *)
Fixpoint segments (s : string) : list string :=
  match s with
  | "" => [""]
  | String c rest =>
      if Ascii.eqb c "/" then "" :: segments rest
      else match segments rest with
           | seg :: more => String c seg :: more
           | [] => [String c ""]
           end
  end.

(** [path.basename(p)] (POSIX, no extension argument): trailing slashes
    are ignored and what follows the last remaining slash is returned;
    a path made of slashes only, or the empty path, gives [""]. *)
Definition basename (p : string) : string :=
  fold_left (fun acc seg => if String.eqb seg "" then acc else seg)
            (segments p) "".

(** One segment of a path against the segments kept so far, the last of
    them first: the body of the loop of [normalizeString] in Node's [path]
    module.  Empty segments and [.] are dropped, [..] removes the segment
    before it, or is kept when there is none to remove and the path is
    relative. *)
Definition resolve (allowAboveRoot : bool) (kept : list string) (segment : string)
    : list string :=
  if String.eqb segment "" || String.eqb segment "." then kept
  else if String.eqb segment ".." then
    match kept with
    | last :: before =>
        if String.eqb last ".." then (if allowAboveRoot then segment :: kept else kept)
        else before
    | [] => if allowAboveRoot then [segment] else []
    end
  else segment :: kept.

Fixpoint ends_with_slash (s : string) : bool :=
  match s with
  | "" => false
  | String c rest =>
      match rest with
      | "" => Ascii.eqb c "/"
      | _ => ends_with_slash rest
      end
  end.

(** [path.normalize(p)] (POSIX) *)
Definition normalize (p : string) : string :=
  if String.eqb p "" then "."
  else
    let isAbsolute := prefix "/" p in
    let trailingSeparator := ends_with_slash p in
    let kept := fold_left (resolve (negb isAbsolute)) (segments p) [] in
    let path := String.concat "/" (rev kept) in
    if String.eqb path "" then
      if isAbsolute then "/" else if trailingSeparator then "./" else "."
    else
      (if isAbsolute then "/" else "") ++ path ++ (if trailingSeparator then "/" else "").

(** [path.join(dir, name)] (POSIX): the arguments that are not empty,
    joined by a slash, then normalized. *)
Definition join (dir name : string) : string :=
  let joined :=
    if String.eqb dir "" then name
    else if String.eqb name "" then dir
    else dir ++ "/" ++ name in
  if String.eqb joined "" then "." else normalize joined.

End Str.

(** ** JavaScript values decoded from JSON *)

(** What [response.json()] resolves to.  Numbers are IEEE doubles; the
    fields of an object are its own properties in insertion order. *)
#[warnings="-register-all"]
Inductive json : Type :=
| JNull
| JBool (b : bool)
| JNum (x : float)
| JStr (s : string)
| JArr (items : list json)
| JObj (fields : list (string * json)).

(** A value read during probing: a JSON value or [undefined]. *)
Inductive value : Type :=
| VUndefined
| VJson (j : json).

Inductive exn : Type :=
| Error (message : string)
| TypeError (message : string)
| SyntaxError (message : string).

Definition message (e : exn) : string :=
  match e with
  | Error m | TypeError m | SyntaxError m => m
  end.

(** Evaluation of an expression: a value, or a raised exception. *)
Inductive completion (A : Type) : Type :=
| Done (a : A)
| Raised (e : exn).
Arguments Done {A} a.
Arguments Raised {A} e.

Module Js.

Definition nullish (v : value) : bool :=
  match v with
  | VUndefined | VJson JNull => true
  | _ => false
  end.

Fixpoint own_property (fields : list (string * json)) (name : string) : value :=
  match fields with
  | [] => VUndefined
  | (k, j) :: rest => if String.eqb k name then VJson j else own_property rest name
  end.

(** [v.name] for the property names the script reads ([cpanelresult],
    [event], [result], [data], [reason], [status]).  None of them is an
    index, [length], or a property of a built-in prototype, so only an
    object can have one; reading from [null] or [undefined] raises (the
    message is V8's). *)
Definition member (v : value) (name : string) : completion value :=
  match v with
  | VUndefined =>
      Raised (TypeError ("Cannot read properties of undefined (reading '" ++ name ++ "')"))
  | VJson JNull =>
      Raised (TypeError ("Cannot read properties of null (reading '" ++ name ++ "')"))
  | VJson (JObj fields) => Done (own_property fields name)
  | VJson _ => Done VUndefined
  end.

(** [v?.name] *)
Definition opt_member (v : value) (name : string) : completion value :=
  if nullish v then Done VUndefined else member v name.

(** [v?.[0]]: the first element of an array, the first character of a
    string, the own property ["0"] of an object. *)
Definition opt_index0 (v : value) : completion value :=
  match v with
  | VUndefined | VJson JNull => Done VUndefined
  | VJson (JArr (first :: _)) => Done (VJson first)
  | VJson (JStr (String c _)) => Done (VJson (JStr (String c "")))
  | VJson (JObj fields) => Done (own_property fields "0")
  | VJson _ => Done VUndefined
  end.

(** [x === 'text'] for an array element [x]. *)
Definition is_string (text : string) (j : json) : bool :=
  match j with
  | JStr s => String.eqb s text
  | _ => false
  end.

(** [v?.includes(text)]: short-circuits on a nullish [v]; a string
    searches for a substring and an array for an element; every other
    value has no callable [includes], and calling it raises.  [callee] is
    the source text of the callee, which V8 prints in the message. *)
Definition opt_includes (callee : string) (v : value) (text : string) : completion value :=
  match v with
  | VUndefined | VJson JNull => Done VUndefined
  | VJson (JStr s) => Done (VJson (JBool (Str.includes s text)))
  | VJson (JArr items) => Done (VJson (JBool (existsb (is_string text) items)))
  | VJson _ => Raised (TypeError (callee ++ " is not a function"))
  end.

(** [v === 1] *)
Definition strict_equals_1 (v : value) : bool :=
  match v with
  | VJson (JNum x) => PrimFloat.eqb x 1%float
  | _ => false
  end.

(** ToBoolean, as applied to the condition of an [if]. *)
Definition truthy (v : value) : bool :=
  match v with
  | VUndefined | VJson JNull => false
  | VJson (JBool b) => b
  | VJson (JNum x) => negb (PrimFloat.eqb x 0%float || PrimFloat.is_nan x)
  | VJson (JStr s) => negb (String.eqb s "")
  | VJson (JArr _) | VJson (JObj _) => true
  end.

Definition bind {A B} (c : completion A) (k : A -> completion B) : completion B :=
  match c with
  | Done a => k a
  | Raised e => Raised e
  end.

End Js.

(** ** The process and its surroundings *)

(** The local-time fields of a [Date]. *)
Record Date : Type := {
  getFullYear : Z;
  getMonth : Z;
  getDate : Z;
  getHours : Z;
  getMinutes : Z;
  getSeconds : Z
}.

Inductive form_value : Type :=
| Field (text : string)
| File (bytes : string) (name : string) (type : string).

(** A [FormData]: its entries in order. *)
Definition FormData : Type := list (string * form_value).

(** A call of [fetch].  The query of a GET is kept as the entries of its
    [URLSearchParams], in order. *)
Inductive request : Type :=
| GET (url : string) (params : list (string * string)) (headers : list (string * string))
| POST (url : string) (headers : list (string * string)) (body : FormData).

Record Response : Type := {
  status : Z;
  statusText : string;
  (** what [response.text()] resolves to; [None] when it rejects *)
  text : option string;
  (** what [response.json()] settles to *)
  json_body : completion json
}.

(** [response.ok] *)
Definition ok (r : Response) : bool := (200 <=? status r)%Z && (status r <=? 299)%Z.

(** How a call of [fetch] settles. *)
Inductive fetch_result : Type :=
| Rejects (message : string)
| Resolves (response : Response).

Inductive fs_op : Type :=
| Mkdir (path : string)
| WriteFile (path : string)
| ReadFile (path : string)
| Rm (path : string)
(** The removal of one entry in the course of an [fs.rm] that fails. *)
| Unlink (entry : string).

(** What the process does not control: its environment variables (after
    [loadEnv]), the directory of the script, the clock (the n-th reading of
    it), the provider (its answer to a request, given the requests it has
    received before) and the faults of the local file system (the message
    of the error an operation fails with, if it fails). *)
Record environment : Type := {
  process_env : string -> option string;
  __dirname : string;
  clock : nat -> Date;
  provider : list request -> request -> fetch_result;
  fs_fault : fs_op -> option string
}.

Inductive console_line : Type :=
| log (line : string)
| error (line : string)
| warn (line : string)
(** [console.error(JSON.stringify(payload, null, 2))] *)
| error_json (payload : json).

Record state : Type := {
  console : list console_line;
  sent : list request;
  ticks : nat;
  files : list (string * string);
  dirs : list string
}.

Definition initial (files0 : list (string * string)) (dirs0 : list string) : state :=
  {| console := []; sent := []; ticks := 0; files := files0; dirs := dirs0 |}.

(** ** The monad of the script *)

Inductive outcome (A : Type) : Type :=
| Normal (a : A)
| Throw (e : exn)
(** [process.exit(code)]: the process ends on the spot. *)
| Exit (code : Z).
Arguments Normal {A} a.
Arguments Throw {A} e.
Arguments Exit {A} code.

Definition M (A : Type) : Type := environment -> state -> outcome A * state.

Definition ret {A} (a : A) : M A := fun _ st => (Normal a, st).

Definition bind {A B} (m : M A) (k : A -> M B) : M B :=
  fun E st =>
    match m E st with
    | (Normal a, st') => k a E st'
    | (Throw e, st') => (Throw e, st')
    | (Exit c, st') => (Exit c, st')
    end.

Definition throw {A} (e : exn) : M A := fun _ st => (Throw e, st).

Definition process_exit {A} (code : Z) : M A := fun _ st => (Exit code, st).

Definition eval {A} (c : completion A) : M A :=
  fun _ st =>
    match c with
    | Done a => (Normal a, st)
    | Raised e => (Throw e, st)
    end.

Declare Scope js_scope.
Delimit Scope js_scope with js.
Notation "x <- m ;; k" := (bind m (fun x => k))
  (at level 100, m at next level, right associativity) : js_scope.
Notation "m ;; k" := (bind m (fun _ => k))
  (at level 100, right associativity) : js_scope.
Open Scope js_scope.

(** [try { body } catch (e) { handler e }] *)
Definition try_catch {A} (body : M A) (handler : exn -> M A) : M A :=
  fun E st =>
    match body E st with
    | (Throw e, st') => handler e E st'
    | other => other
    end.

(** [try { body } catch (e) { handler e } finally { cleanup }].  The
    [finally] block runs when control leaves the statement; a
    [process.exit] inside it ends the process before control leaves. *)
Definition try_catch_finally {A} (body : M A) (handler : exn -> M A)
    (cleanup : M unit) : M A :=
  fun E st =>
    match try_catch body handler E st with
    | (Exit c, st') => (Exit c, st')
    | (o, st') =>
        match cleanup E st' with
        | (Normal _, st'') => (o, st'')
        | (Throw e, st'') => (Throw e, st'')
        | (Exit c, st'') => (Exit c, st'')
        end
    end.

(** *** Console *)

Definition print (l : console_line) : M unit :=
  fun _ st =>
    (Normal tt,
     {| console := console st ++ [l]; sent := sent st; ticks := ticks st;
        files := files st; dirs := dirs st |}).

Definition console_log (s : string) : M unit := print (log s).
Definition console_error (s : string) : M unit := print (error s).
Definition console_warn (s : string) : M unit := print (warn s).

(** *** Clock *)

(** [new Date()] *)
Definition new_Date : M Date :=
  fun E st =>
    (Normal (clock E (ticks st)),
     {| console := console st; sent := sent st; ticks := S (ticks st);
        files := files st; dirs := dirs st |}).

(** *** Network *)

(** [await fetch(...)] *)
Definition fetch (r : request) : M Response :=
  fun E st =>
    let st' := {| console := console st; sent := sent st ++ [r]; ticks := ticks st;
                  files := files st; dirs := dirs st |} in
    match provider E (sent st) r with
    | Rejects m => (Throw (TypeError m), st')
    | Resolves response => (Normal response, st')
    end.

(** [await response.json()] *)
Definition response_json (r : Response) : M json := eval (json_body r).

(** [await response.text().catch(() => 'Unable to read response')] *)
Definition response_text_or_default (r : Response) : M string :=
  ret (match text r with
       | Some t => t
       | None => "Unable to read response"
       end).

(** *** Local files *)

Fixpoint lookup (path : string) (fs : list (string * string)) : option string :=
  match fs with
  | [] => None
  | (p, content) :: rest => if String.eqb p path then Some content else lookup path rest
  end.

Definition with_fs (st : state) (files' : list (string * string)) (dirs' : list string) : state :=
  {| console := console st; sent := sent st; ticks := ticks st;
     files := files'; dirs := dirs' |}.

Definition failing {A} (E : environment) (op : fs_op) (run : state -> outcome A * state) : state -> outcome A * state :=
  fun st =>
    match fs_fault E op with
    | Some m => (Throw (Error m), st)
    | None => run st
    end.

(** [await fs.mkdir(path, { recursive: true })] *)
Definition fs_mkdir_recursive (path : string) : M unit :=
  fun E => failing E (Mkdir path) (fun st =>
    (Normal tt,
     with_fs st (files st)
       (if existsb (String.eqb path) (dirs st) then dirs st else dirs st ++ [path]))).

(** [await fs.writeFile(path, content)] *)
Definition fs_writeFile (path content : string) : M unit :=
  fun E => failing E (WriteFile path) (fun st =>
    (Normal tt,
     with_fs st
       ((path, content) :: filter (fun f => negb (String.eqb (fst f) path)) (files st))
       (dirs st))).

(** [await fs.readFile(path)] *)
Definition fs_readFile (path : string) : M string :=
  fun E => failing E (ReadFile path) (fun st =>
    match lookup path (files st) with
    | Some content => (Normal content, st)
    | None =>
        (Throw (Error ("ENOENT: no such file or directory, open '" ++ path ++ "'")), st)
    end).

Definition inside (dir path : string) : bool :=
  String.eqb path dir || prefix (dir ++ "/") path.

(** An entry that an [fs.rm] which fails had removed before it failed. *)
Definition removed (E : environment) (entry : string) : bool :=
  match fs_fault E (Unlink entry) with
  | None => true
  | Some _ => false
  end.

(** [await fs.rm(path, { recursive: true, force: true })].  It removes the
    tree entry by entry: when it fails, the entries it had removed until
    then are gone and the others are left. *)
Definition fs_rm_recursive_force (path : string) : M unit :=
  fun E st =>
    match fs_fault E (Rm path) with
    | None =>
        (Normal tt,
         with_fs st
           (filter (fun f => negb (inside path (fst f))) (files st))
           (filter (fun d => negb (inside path d)) (dirs st)))
    | Some m =>
        (Throw (Error m),
         with_fs st
           (filter (fun f => negb (inside path (fst f) && removed E (fst f))) (files st))
           (filter (fun d => negb (inside path d && removed E d)) (dirs st)))
    end.

(** ** The script *)

(** *** Configuration from environment variables *)

(** A template literal prints an absent variable as [undefined]. *)
Definition template (v : option string) : string :=
  match v with
  | Some s => s
  | None => "undefined"
  end.

(** [!v] for a variable that is absent or a string. *)
Definition falsy (v : option string) : bool :=
  match v with
  | Some s => String.eqb s ""
  | None => true
  end.

Definition CPANEL_USER (E : environment) : option string := process_env E "USERNAME".

Definition CPANEL_HOST (E : environment) : string :=
  "https://" ++ template (process_env E "SUBDOMAINNAME") ++ ".mybluehost.me:2083".

Definition AUTH_TOKEN (E : environment) : option string := process_env E "BLUEHOSTAPI".

Definition HOME_BASE (E : environment) : string :=
  if falsy (process_env E "HOME_BASE") then "/home2"
  else template (process_env E "HOME_BASE").

Definition PUBLIC_HTML_PATH (E : environment) : string :=
  HOME_BASE E ++ "/" ++ template (CPANEL_USER E) ++ "/public_html".

Definition headers (E : environment) : list (string * string) :=
  [("Authorization", "cpanel " ++ template (CPANEL_USER E) ++ ":" ++ template (AUTH_TOKEN E))].

(** *** getTimestamp *)

Definition two_digits (n : Z) : string := Str.padStart (Str.of_Z n) 2 "0".

Definition timestamp_of (now : Date) : string :=
  let year := getFullYear now in
  let month := two_digits (getMonth now + 1) in
  let day := two_digits (getDate now) in
  let hours := two_digits (getHours now) in
  let minutes := two_digits (getMinutes now) in
  let seconds := two_digits (getSeconds now) in
  Str.of_Z year ++ month ++ day ++ hours ++ minutes ++ seconds.

Definition getTimestamp : M string :=
  now <- new_Date ;;
  ret (timestamp_of now).

(** *** ensureRemoteDirectory *)

Definition mkdir_url (E : environment) : string := CPANEL_HOST E ++ "/json-api/cpanel".

Definition mkdir_params (E : environment) (parentAbsolutePath dirName : string)
    : list (string * string) :=
  [("cpanel_jsonapi_user", template (CPANEL_USER E));
   ("cpanel_jsonapi_apiversion", "2");
   ("cpanel_jsonapi_module", "Fileman");
   ("cpanel_jsonapi_func", "mkdir");
   ("path", parentAbsolutePath);
   ("name", dirName);
   ("permissions", "0755")].

(** [payload.cpanelresult?.event?.result === 1] *)
Definition reports_created (payload : json) : completion bool :=
  Js.bind (Js.member (VJson payload) "cpanelresult") (fun cpanelresult =>
  Js.bind (Js.opt_member cpanelresult "event") (fun event =>
  Js.bind (Js.opt_member event "result") (fun result =>
  Done (Js.strict_equals_1 result)))).

Definition includes_callee : string :=
  "payload.cpanelresult?.data?.[0]?.reason?.includes".

(** [payload.cpanelresult?.data?.[0]?.reason?.includes('exists')] *)
Definition reports_exists (payload : json) : completion value :=
  Js.bind (Js.member (VJson payload) "cpanelresult") (fun cpanelresult =>
  Js.bind (Js.opt_member cpanelresult "data") (fun data =>
  Js.bind (Js.opt_index0 data) (fun first =>
  Js.bind (Js.opt_member first "reason") (fun reason =>
  Js.opt_includes includes_callee reason "exists")))).

Definition on_fetch_error {A} (url : string) (fetchError : exn) : M A :=
  console_error "✗ Network error during fetch:" ;;
  console_error ("  URL: " ++ url) ;;
  console_error ("  Error: " ++ message fetchError) ;;
  throw (Error ("Fetch failed: " ++ message fetchError)).

Definition http_reason (response : Response) : string :=
  "HTTP " ++ Str.of_Z (status response) ++ ": " ++ statusText response.

Definition ensureRemoteDirectory (parentAbsolutePath dirName : string) : M bool :=
  fun E =>
  (console_log ("Creating directory: " ++ dirName ++ " in " ++ parentAbsolutePath) ;;
   let params := mkdir_params E parentAbsolutePath dirName in
   response <- try_catch (fetch (GET (mkdir_url E) params (headers E)))
                         (on_fetch_error (mkdir_url E)) ;;
   if negb (ok response) then
     (console_error ("✗ HTTP error: " ++ Str.of_Z (status response) ++ " "
                       ++ statusText response) ;;
      throw (Error (http_reason response)))
   else
     (payload <- response_json response ;;
      created <- eval (reports_created payload) ;;
      if created then
        (console_log ("✓ Directory created successfully: " ++ dirName) ;;
         ret true)
      else
        (already <- eval (reports_exists payload) ;;
         if Js.truthy already then
           (console_log ("✓ Directory already exists: " ++ dirName) ;;
            ret true)
         else
           (console_error ("✗ Failed to create directory: " ++ dirName) ;;
            print (error_json payload) ;;
            throw (Error "Directory creation failed"))))) E.

(** *** uploadFiles *)

(** [form.set(name, v)] *)
Definition form_set (form : FormData) (name : string) (v : form_value) : FormData :=
  if existsb (fun entry => String.eqb (fst entry) name) form then
    (fix replace (entries : FormData) (placed : bool) : FormData :=
       match entries with
       | [] => []
       | (k, old) :: rest =>
           if String.eqb k name then
             if placed then replace rest true else (k, v) :: replace rest true
           else (k, old) :: replace rest placed
       end) form false
  else (form ++ [(name, v)])%list.

(** [form.append(name, v)] *)
Definition form_append (form : FormData) (name : string) (v : form_value) : FormData :=
  (form ++ [(name, v)])%list.

Definition upload_url (E : environment) : string :=
  CPANEL_HOST E ++ "/execute/Fileman/upload_files".

(** The [for ... of] loop of [uploadFiles], from the file at [index] on. *)
Fixpoint attach (localFiles : list string) (index : nat) (form : FormData) : M FormData :=
  match localFiles with
  | [] => ret form
  | filePath :: rest =>
      buffer <- fs_readFile filePath ;;
      let fileName := Str.basename filePath in
      let file := File buffer fileName "text/plain" in
      let form := form_append form ("file-" ++ Str.of_nat index) file in
      console_log ("  - Adding file: " ++ fileName) ;;
      attach rest (index + 1) form
  end.

(** [payload.status === 1] *)
Definition reports_uploaded (payload : json) : completion bool :=
  Js.bind (Js.member (VJson payload) "status") (fun status =>
  Done (Js.strict_equals_1 status)).

Definition uploadFiles (remoteDir : string) (localFiles : list string) : M bool :=
  fun E =>
  (console_log ("Uploading " ++ Str.of_nat (List.length localFiles) ++ " file(s) to "
                  ++ remoteDir) ;;
   let form := form_set [] "dir" (Field remoteDir) in
   form <- attach localFiles 1 form ;;
   response <- try_catch (fetch (POST (upload_url E) (headers E) form))
                         (on_fetch_error (upload_url E)) ;;
   if negb (ok response) then
     (console_error ("✗ HTTP error: " ++ Str.of_Z (status response) ++ " "
                       ++ statusText response) ;;
      text <- response_text_or_default response ;;
      console_error ("  Response: " ++ text) ;;
      throw (Error (http_reason response)))
   else
     (payload <- response_json response ;;
      uploaded <- eval (reports_uploaded payload) ;;
      if uploaded then
        (console_log "✓ Files uploaded successfully" ;;
         ret true)
      else
        (console_error "✗ Upload failed" ;;
         print (error_json payload) ;;
         throw (Error "File upload failed")))) E.

(** *** main *)

Definition rule : string := Str.repeat "=" 60.

Definition tempDir (E : environment) : string := Str.join (__dirname E) "temp_upload".

Definition main_try (timestamp : string) : M unit :=
  fun E =>
  (let file1Name := timestamp ++ ".txt" in
   let file1Path := Str.join (tempDir E) file1Name in
   fs_writeFile file1Path "hello world" ;;
   console_log ("[1/4] Created local file: " ++ file1Name) ;;

   uploadFiles "public_html" [file1Path] ;;
   console_log ("[2/4] Uploaded " ++ file1Name ++ " to public_html") ;;
   console_log "" ;;

   let dirName := timestamp ++ "_test_dir" in
   ensureRemoteDirectory (PUBLIC_HTML_PATH E) dirName ;;
   console_log ("[3/4] Created directory: " ++ dirName) ;;
   console_log "" ;;

   let file2Name := timestamp ++ "_file2.txt" in
   let file2Path := Str.join (tempDir E) file2Name in
   fs_writeFile file2Path "hello world" ;;
   console_log ("Created local file: " ++ file2Name) ;;

   uploadFiles ("public_html/" ++ dirName) [file2Path] ;;
   console_log ("[4/4] Uploaded " ++ file2Name ++ " to " ++ dirName) ;;
   console_log "" ;;

   console_log rule ;;
   console_log "✓ All operations completed successfully!" ;;
   console_log rule ;;
   console_log "" ;;
   console_log "Files created:" ;;
   console_log ("  - public_html/" ++ file1Name) ;;
   console_log ("  - public_html/" ++ dirName ++ "/") ;;
   console_log ("  - public_html/" ++ dirName ++ "/" ++ file2Name) ;;
   console_log "") E.

Definition main_catch (e : exn) : M unit :=
  console_error rule ;;
  console_error "✗ Error during upload process:" ;;
  console_error (message e) ;;
  console_error rule ;;
  process_exit 1.

Definition main_finally : M unit :=
  fun E =>
  try_catch
    (fs_rm_recursive_force (tempDir E) ;;
     console_log "Cleaned up temporary files")
    (fun cleanupError => console_warn "Warning: Could not clean up temporary files") E.

Definition main : M unit :=
  fun E =>
  (console_log rule ;;
   console_log "BlueHost cPanel File Upload Script" ;;
   console_log rule ;;
   console_log ("Target host: " ++ CPANEL_HOST E) ;;
   console_log ("User: " ++ template (CPANEL_USER E)) ;;
   console_log "" ;;

   timestamp <- getTimestamp ;;
   console_log ("Timestamp: " ++ timestamp) ;;
   console_log "" ;;

   fs_mkdir_recursive (tempDir E) ;;

   try_catch_finally (main_try timestamp) main_catch main_finally) E.

(** *** The module, top to bottom *)

Definition missing_configuration (E : environment) : bool :=
  falsy (CPANEL_USER E) || falsy (process_env E "SUBDOMAINNAME") || falsy (AUTH_TOKEN E).

Definition script : M unit :=
  fun E =>
  (if missing_configuration E then
     (console_error "ERROR: Missing required environment variables" ;;
      console_error "Please set USERNAME, SUBDOMAINNAME, and BLUEHOSTAPI" ;;
      process_exit 1)
   else main) E.

(** The exit code of the process: the argument of [process.exit], 1 for
    the unhandled rejection of [main()], 0 when [main()] is fulfilled. *)
Definition exit_code {A} (o : outcome A) : Z :=
  match o with
  | Normal _ => 0
  | Throw _ => 1
  | Exit code => code
  end.

Definition run (E : environment) (st : state) : Z * state :=
  let (o, st') := script E st in (exit_code o, st').

(** *** loadEnv *)

(** The string methods [loadEnv] uses.  A string is the bytes of its UTF-8
    encoding, so the white space of [trim] that is not ASCII is two or
    three bytes long. *)
Module Text.

Definition code (c : ascii) : nat := nat_of_ascii c.

(** TAB, LF, VT, FF, CR and the space. *)
Definition is_space_byte (c : ascii) : bool :=
  (Nat.leb 9 (code c) && Nat.leb (code c) 13) || Nat.eqb (code c) 32.

(** U+00A0. *)
Definition is_space_2 (c1 c2 : ascii) : bool :=
  Nat.eqb (code c1) 194 && Nat.eqb (code c2) 160.

(** U+1680, U+2000 to U+200A, U+2028, U+2029, U+202F, U+205F, U+3000 and
    U+FEFF. *)
Definition is_space_3 (c1 c2 c3 : ascii) : bool :=
  (Nat.eqb (code c1) 225 && Nat.eqb (code c2) 154 && Nat.eqb (code c3) 128)
  || (Nat.eqb (code c1) 226 && Nat.eqb (code c2) 128
      && ((Nat.leb 128 (code c3) && Nat.leb (code c3) 138)
          || Nat.eqb (code c3) 168 || Nat.eqb (code c3) 169 || Nat.eqb (code c3) 175))
  || (Nat.eqb (code c1) 226 && Nat.eqb (code c2) 129 && Nat.eqb (code c3) 159)
  || (Nat.eqb (code c1) 227 && Nat.eqb (code c2) 128 && Nat.eqb (code c3) 128)
  || (Nat.eqb (code c1) 239 && Nat.eqb (code c2) 187 && Nat.eqb (code c3) 191).

(** [s.trimStart()] *)
Fixpoint trimStart (s : string) : string :=
  match s with
  | "" => ""
  | String c1 rest1 =>
      if is_space_byte c1 then trimStart rest1
      else match rest1 with
           | "" => s
           | String c2 rest2 =>
               if is_space_2 c1 c2 then trimStart rest2
               else match rest2 with
                    | "" => s
                    | String c3 rest3 =>
                        if is_space_3 c1 c2 c3 then trimStart rest3 else s
                    end
           end
  end.

(** [s.trimEnd()]: the characters from the last one on that is not white
    space are dropped. *)
Fixpoint trimEnd (s : string) : string :=
  match s with
  | "" => ""
  | String c rest =>
      if String.eqb (trimStart s) "" then "" else String c (trimEnd rest)
  end.

(** [s.trim()] *)
Definition trim (s : string) : string := trimEnd (trimStart s).

(** [s.split(sep)] for a one-character separator. *)
Fixpoint split (sep : ascii) (s : string) : list string :=
  match s with
  | "" => [""]
  | String c rest =>
      if Ascii.eqb c sep then "" :: split sep rest
      else match split sep rest with
           | piece :: more => String c piece :: more
           | [] => [String c ""]
           end
  end.

(** [parts.join(sep)] *)
Fixpoint join (sep : string) (parts : list string) : string :=
  match parts with
  | [] => ""
  | [piece] => piece
  | piece :: more => piece ++ sep ++ join sep more
  end.

(** U+FFFD, the replacement character. *)
Definition replacement : string := String "239" (String "191" (String "189" "")).

(** The bytes that may follow a byte that starts a character: for each
    byte still to come, the range it has to lie in.  No byte follows an
    ASCII character; [None] for a byte that starts no character. *)
Definition continuation (lead : ascii) : option (list (nat * nat)) :=
  let n := code lead in
  if Nat.leb n 127 then Some []
  else if Nat.leb 194 n && Nat.leb n 223 then Some [(128, 191)]
  else if Nat.eqb n 224 then Some [(160, 191); (128, 191)]
  else if Nat.eqb n 237 then Some [(128, 159); (128, 191)]
  else if Nat.leb 225 n && Nat.leb n 239 then Some [(128, 191); (128, 191)]
  else if Nat.eqb n 240 then Some [(144, 191); (128, 191); (128, 191)]
  else if Nat.leb 241 n && Nat.leb n 243 then Some [(128, 191); (128, 191); (128, 191)]
  else if Nat.eqb n 244 then Some [(128, 143); (128, 191); (128, 191)]
  else None.

(** The decoder of UTF-8, in the middle of a character: [pending] holds
    the bytes of the character read so far and [expected] the ranges of
    the bytes it still needs.  A byte that cannot continue the character
    ends it: the bytes read so far become one U+FFFD and the byte is read
    again as the start of a character. *)
Fixpoint decode_from (pending : string) (expected : list (nat * nat)) (s : string)
    : string :=
  match s with
  | "" =>
      match expected with
      | [] => ""
      | _ :: _ => replacement
      end
  | String c rest =>
      let start :=
        match continuation c with
        | Some [] => String c (decode_from "" [] rest)
        | Some more => decode_from (String c "") more rest
        | None => replacement ++ decode_from "" [] rest
        end in
      match expected with
      | [] => start
      | (low, high) :: more =>
          if Nat.leb low (code c) && Nat.leb (code c) high then
            match more with
            | [] => pending ++ String c (decode_from "" [] rest)
            | _ :: _ => decode_from (pending ++ String c "") more rest
            end
          else replacement ++ start
      end
  end.

(** [buffer.toString('utf-8')]: the text a buffer decodes to, as the bytes
    of its UTF-8 encoding.  Well-formed input is left as it is, and every
    maximal ill-formed part becomes U+FFFD. *)
Definition decode (s : string) : string := decode_from "" [] s.

End Text.

(** [process.env]: a variable is absent or a string. *)
Definition variables : Type := string -> option string.

(** The C string of a text: what [setenv] reads of it, the bytes before
    the first NUL. *)
Fixpoint c_string (s : string) : string :=
  match s with
  | "" => ""
  | String c rest => if Ascii.eqb c "000" then "" else String c (c_string rest)
  end.

(** [process.env[name] = text]: the name and the value are handed to
    [setenv] as C strings, and [setenv] refuses an empty name, so that
    nothing is assigned then.  (It refuses a name with [=] in it as well;
    the names [loadEnv] assigns are pieces of a split at [=].) *)
Definition assign (vars : variables) (name text : string) : variables :=
  if String.eqb (c_string name) "" then vars
  else fun n => if String.eqb n (c_string name) then Some (c_string text) else vars n.

(** The body of the [forEach] of [loadEnv]: what one line of the file does
    to [process.env]. *)
Definition loadEnv_line (vars : variables) (line : string) : variables :=
  let trimmed := Text.trim line in
  if negb (String.eqb trimmed "") && negb (prefix "#" trimmed) then
    match Text.split "=" trimmed with
    | key :: valueParts =>
        if negb (String.eqb key "") && negb (Nat.eqb (List.length valueParts) 0) then
          assign vars (Text.trim key) (Text.trim (Text.join "=" valueParts))
        else vars
    | [] => vars
    end
  else vars.

Definition dotenv_path (E : environment) : string := Str.join (__dirname E) ".env".

(** [await loadEnv()], started with the variables the process inherited
    ([process_env E]): the variables after it, and the state.  The file is
    read as UTF-8 text.  Whatever goes wrong in reading the file is
    caught. *)
Definition loadEnv (E : environment) (st : state) : variables * state :=
  match fs_readFile (dotenv_path E) E st with
  | (Normal buffer, st') =>
      let envContent := Text.decode buffer in
      (fold_left loadEnv_line (Text.split "010" envContent) (process_env E), st')
  | (_, st') =>
      (process_env E,
       snd (console_log "No .env file found, using environment variables" E st'))
  end.

(** The environment of the rest of the module once [loadEnv] has run. *)
Definition loaded (E : environment) (vars : variables) : environment :=
  {| process_env := vars; __dirname := __dirname E; clock := clock E;
     provider := provider E; fs_fault := fs_fault E |}.

(** The whole module, [loadEnv] included, for a process that inherited
    [process_env E]: its exit code and final state. *)
Definition program (E : environment) (st : state) : Z * state :=
  let (vars, st') := loadEnv E st in
  run (loaded E vars) st'.

(** ** A concrete environment

    An account, a clock and a provider that behaves like the file manager:
    it creates a directory the first time it is asked to and reports that
    it exists from then on, and it accepts every upload. *)

Module Demo.

Definition env_vars (name : string) : option string :=
  if String.eqb name "USERNAME" then Some "acct"
  else if String.eqb name "SUBDOMAINNAME" then Some "box123"
  else if String.eqb name "BLUEHOSTAPI" then Some "TOKEN"
  else None.

Definition now : Date :=
  {| getFullYear := 2024; getMonth := 0; getDate := 5;
     getHours := 9; getMinutes := 30; getSeconds := 7 |}.

Definition answer (payload : json) : fetch_result :=
  Resolves {| status := 200; statusText := "OK"; text := None;
              json_body := Done payload |}.

Definition created : json :=
  JObj [("cpanelresult",
         JObj [("event", JObj [("result", JNum 1)]);
               ("data", JArr [JObj [("result", JNum 1)]])])].

Definition already_exists : json :=
  JObj [("cpanelresult",
         JObj [("event", JObj [("result", JNum 0)]);
               ("data", JArr [JObj [("result", JNum 0);
                                    ("reason", JStr "mkdir: File exists")]])])].

Definition uploaded : json := JObj [("status", JNum 1)].

Definition same_param (a b : string * string) : bool :=
  String.eqb (fst a) (fst b) && String.eqb (snd a) (snd b).

Fixpoint same_params (a b : list (string * string)) : bool :=
  match a, b with
  | [], [] => true
  | x :: a', y :: b' => same_param x y && same_params a' b'
  | _, _ => false
  end.

Definition same_mkdir (r : request) (earlier : request) : bool :=
  match r, earlier with
  | GET u p _, GET u' p' _ => String.eqb u u' && same_params p p'
  | _, _ => false
  end.

Definition fileman (received : list request) (r : request) : fetch_result :=
  match r with
  | GET _ _ _ =>
      if existsb (same_mkdir r) received then answer already_exists
      else answer created
  | POST _ _ _ => answer uploaded
  end.

Definition env (p : list request -> request -> fetch_result) : environment :=
  {| process_env := env_vars;
     __dirname := "/home/runner/work/repo";
     clock := fun _ => now;
     provider := p;
     fs_fault := fun _ => None |}.

(** A provider that is down: every request is answered 503. *)
Definition unavailable (_ : list request) (_ : request) : fetch_result :=
  Resolves {| status := 503; statusText := "Service Unavailable";
              text := Some "upstream down"; json_body := Raised (SyntaxError "Unexpected token") |}.

(** A provider whose mkdir answers an unexpected payload. *)
Definition answering (payload : json) (_ : list request) (r : request) : fetch_result :=
  match r with
  | GET _ _ _ => answer payload
  | POST _ _ _ => answer uploaded
  end.

End Demo.

(** * The vocabulary of the properties

    Everything below this line is about the embedding above: the words the
    theorems are stated in first, then the lemmas, then the theorems of the
    claims. *)

(** ** Payloads *)

(** The fields of a payload the way the claims name them: what one reaches
    by following property names and first items from the payload, a missing
    step giving [undefined]. *)
Inductive selector : Type :=
| prop (name : string)
| first_item.

Definition select (v : value) (sel : selector) : value :=
  match sel, v with
  | prop name, VJson (JObj fields) => Js.own_property fields name
  | first_item, VJson (JArr (first :: _)) => VJson first
  | first_item, VJson (JStr (String c _)) => VJson (JStr (String c ""))
  | first_item, VJson (JObj fields) => Js.own_property fields "0"
  | _, _ => VUndefined
  end.

Definition at_path (payload : json) (path : list selector) : value :=
  fold_left select path (VJson payload).

(** [cpanelresult.event.result] *)
Definition event_result (payload : json) : value :=
  at_path payload [prop "cpanelresult"; prop "event"; prop "result"].

(** [cpanelresult.data[0].reason] *)
Definition failure_reason (payload : json) : value :=
  at_path payload [prop "cpanelresult"; prop "data"; first_item; prop "reason"].

(** [status] *)
Definition status_flag (payload : json) : value := at_path payload [prop "status"].

(** The value is the number 1. *)
Definition equals_1 (v : value) : bool := Js.strict_equals_1 v.

(** The value is a text that contains [exists]. *)
Definition mentions_exists (v : value) : bool :=
  match v with
  | VJson (JStr s) => Str.includes s "exists"
  | _ => false
  end.

(** The value is a text that contains [exists], or a list that has the
    text [exists] among its items: the two cases in which calling
    [includes('exists')] on it gives [true]. *)
Definition names_exists (v : value) : bool :=
  match v with
  | VJson (JStr s) => Str.includes s "exists"
  | VJson (JArr items) => existsb (Js.is_string "exists") items
  | _ => false
  end.

(** The values on which [?.includes] can be called: it is skipped on
    [undefined] and [null], and texts and lists have the method. *)
Definition text_list_or_absent (v : value) : bool :=
  match v with
  | VUndefined | VJson JNull | VJson (JStr _) | VJson (JArr _) => true
  | _ => false
  end.

(** ** Requests and answers *)

(** The request [ensureRemoteDirectory] issues. *)
Definition mkdir_request (E : environment) (parentAbsolutePath dirName : string) : request :=
  GET (mkdir_url E) (mkdir_params E parentAbsolutePath dirName) (headers E).

(** The request [uploadFiles] issues for a form. *)
Definition upload_request (E : environment) (form : FormData) : request :=
  POST (upload_url E) (headers E) form.

(** The answer to a mkdir request carries the success indicator. *)
Definition answers_created (answer : fetch_result) : bool :=
  match answer with
  | Resolves r =>
      ok r && match json_body r with
              | Done payload => equals_1 (event_result payload)
              | Raised _ => false
              end
  | Rejects _ => false
  end.

(** The answer to a mkdir request reports a failure whose reason text
    contains [exists]. *)
Definition answers_exists (answer : fetch_result) : bool :=
  match answer with
  | Resolves r =>
      ok r && match json_body r with
              | Done payload =>
                  negb (equals_1 (event_result payload))
                  && mentions_exists (failure_reason payload)
              | Raised _ => false
              end
  | Rejects _ => false
  end.

(** The answer to an upload carries the success flag. *)
Definition answers_uploaded (answer : fetch_result) : bool :=
  match answer with
  | Resolves r =>
      ok r && match json_body r with
              | Done payload => equals_1 (status_flag payload)
              | Raised _ => false
              end
  | Rejects _ => false
  end.

(** What [ensureRemoteDirectory] makes of the way its request settles
    ([Client.ensureRemoteDirectory_run]). *)
Definition mkdir_outcome (answer : fetch_result) : outcome bool :=
  match answer with
  | Rejects m => Throw (Error ("Fetch failed: " ++ m))
  | Resolves r =>
      if ok r then
        match json_body r with
        | Raised e => Throw e
        | Done payload =>
            match reports_created payload with
            | Raised e => Throw e
            | Done true => Normal true
            | Done false =>
                match reports_exists payload with
                | Raised e => Throw e
                | Done already =>
                    if Js.truthy already then Normal true
                    else Throw (Error "Directory creation failed")
                end
            end
        end
      else Throw (Error (http_reason r))
  end.

(** What [uploadFiles] makes of the way its request settles
    ([Client.uploadFiles_run]). *)
Definition upload_outcome (answer : fetch_result) : outcome bool :=
  match answer with
  | Rejects m => Throw (Error ("Fetch failed: " ++ m))
  | Resolves r =>
      if ok r then
        match json_body r with
        | Raised e => Throw e
        | Done payload =>
            match reports_uploaded payload with
            | Raised e => Throw e
            | Done true => Normal true
            | Done false => Throw (Error "File upload failed")
            end
        end
      else Throw (Error (http_reason r))
  end.

Definition is_normal {A} (o : outcome A) : bool :=
  match o with
  | Normal _ => true
  | _ => false
  end.

(** ** Kinds of failure *)

Inductive failure_kind : Type :=
| Transport
| HttpStatus
| Application.

(** The kind of failure a reason string tells: by its prefix. *)
Definition kind_of_reason (reason : string) : failure_kind :=
  if prefix "Fetch failed:" reason then Transport
  else if prefix "HTTP" reason then HttpStatus
  else Application.

(** What a call returns or throws, against the way its request settled:
    a rejected [fetch] is a transport failure with the message of the
    rejection, a status outside 200-299 an HTTP failure with the status and
    its phrase, and a decoded payload of a 2xx answer either a success or an
    application failure. *)
Definition told_apart (answer : fetch_result) (result : outcome bool) : Prop :=
  match answer with
  | Rejects m =>
      result = Throw (Error ("Fetch failed: " ++ m))
      /\ kind_of_reason ("Fetch failed: " ++ m) = Transport
  | Resolves r =>
      if ok r then
        forall payload, json_body r = Done payload ->
          result = Normal true
          \/ exists e, result = Throw e /\ kind_of_reason (message e) = Application
      else
        result = Throw (Error ("HTTP " ++ Str.of_Z (status r) ++ ": " ++ statusText r))
        /\ kind_of_reason ("HTTP " ++ Str.of_Z (status r) ++ ": " ++ statusText r)
           = HttpStatus
  end.

(** ** States *)

(** The state after some lines were printed and some requests issued. *)
Definition after (st : state) (lines : list console_line) (requests : list request) : state :=
  {| console := console st ++ lines; sent := sent st ++ requests;
     ticks := ticks st; files := files st; dirs := dirs st |}.

(** A file the process can read. *)
Definition readable (E : environment) (fs : list (string * string)) (path : string) : bool :=
  match fs_fault E (ReadFile path), lookup path fs with
  | None, Some _ => true
  | _, _ => false
  end.

(** A file the process can write and read back. *)
Definition usable (E : environment) (path : string) : bool :=
  match fs_fault E (WriteFile path), fs_fault E (ReadFile path) with
  | None, None => true
  | _, _ => false
  end.

(** The bytes of a local file. *)
Definition content (fs : list (string * string)) (path : string) : string :=
  match lookup path fs with
  | Some c => c
  | None => ""
  end.

(** A name without a slash: a single path segment. *)
Fixpoint slash_free (s : string) : bool :=
  match s with
  | "" => true
  | String c rest => negb (Ascii.eqb c "/") && slash_free rest
  end.

(** A name that is one segment of a path and stands for itself: not empty,
    without a slash, and neither [.] nor [..]. *)
Definition plain_name (s : string) : bool :=
  negb (String.eqb s "") && negb (String.eqb s ".") && negb (String.eqb s "..")
  && slash_free s.

(** Segments, the last one first, that [Str.resolve] leaves as they are
    when it meets them again. *)
Definition settled (allowAboveRoot : bool) (kept : list string) : Prop :=
  fold_left (Str.resolve allowAboveRoot) (rev kept) [] = kept
  /\ Forall (fun s => s <> "" /\ s <> "." /\ slash_free s = true) kept.

(** The start of a normalized path. *)
Definition root (isAbsolute : bool) : string := if isAbsolute then "/" else "".

(** ** Forms *)

(** The file parts of the form, the first one numbered [index]. *)
Fixpoint file_parts (fs : list (string * string)) (index : nat) (localFiles : list string)
    : FormData :=
  match localFiles with
  | [] => []
  | filePath :: rest =>
      ("file-" ++ Str.of_nat index,
       File (content fs filePath) (Str.basename filePath) "text/plain")
      :: file_parts fs (index + 1) rest
  end.

Definition upload_form (fs : list (string * string)) (remoteDir : string)
    (localFiles : list string) : FormData :=
  ("dir", Field remoteDir) :: file_parts fs 1 localFiles.

Definition text_file (name body : string) : form_value := File body name "text/plain".

(** ** The plan of a run *)

(** The three requests of a run with timestamp [ts], in order. *)
Definition first_upload (E : environment) (ts : string) : request :=
  upload_request E
    [("dir", Field "public_html");
     ("file-1", text_file (ts ++ ".txt") "hello world")].

Definition directory_creation (E : environment) (ts : string) : request :=
  mkdir_request E (PUBLIC_HTML_PATH E) (ts ++ "_test_dir").

Definition second_upload (E : environment) (ts : string) : request :=
  upload_request E
    [("dir", Field ("public_html/" ++ ts ++ "_test_dir"));
     ("file-1", text_file (ts ++ "_file2.txt") "hello world")].

Definition plan (E : environment) (ts : string) : list request :=
  [first_upload E ts; directory_creation E ts; second_upload E ts].

(** How far the [try] block of [main] gets: the number of requests it
    issues and whether it completes, given the requests issued before
    ([Run.main_try_run]). *)
Definition progress (E : environment) (before : list request) (ts : string) : nat * bool :=
  if negb (usable E (Str.join (tempDir E) (ts ++ ".txt"))) then (0, false)
  else if negb (is_normal (upload_outcome (provider E before (first_upload E ts))))
  then (1, false)
  else if negb (is_normal (mkdir_outcome
                  (provider E (before ++ [first_upload E ts]) (directory_creation E ts))))
  then (2, false)
  else if negb (usable E (Str.join (tempDir E) (ts ++ "_file2.txt"))) then (2, false)
  else if negb (is_normal (upload_outcome
                  (provider E (before ++ [first_upload E ts; directory_creation E ts])
                     (second_upload E ts))))
  then (3, false)
  else (3, true).

(** The local directories once [main] has made its working directory. *)
Definition with_tempDir (E : environment) (st : state) : list string :=
  if existsb (String.eqb (tempDir E)) (dirs st) then dirs st
  else (dirs st ++ [tempDir E])%list.

(** What the [finally] block of [main] prints. *)
Definition cleanup_line (E : environment) : console_line :=
  match fs_fault E (Rm (tempDir E)) with
  | None => log "Cleaned up temporary files"
  | Some _ => warn "Warning: Could not clean up temporary files"
  end.

(** The client operation a request belongs to, with the directory of an
    upload. *)
Inductive operation : Type :=
| createDirectory
| uploadFilesTo (remoteDir : option string).

Definition operation_of (r : request) : operation :=
  match r with
  | GET _ _ _ => createDirectory
  | POST _ _ form =>
      uploadFilesTo match form with
                    | (_, Field remoteDir) :: _ => Some remoteDir
                    | _ => None
                    end
  end.

(** ** The [.env] file *)

(** No character of [s] is [c]. *)
Fixpoint free_of (c : ascii) (s : string) : bool :=
  match s with
  | "" => true
  | String a rest => negb (Ascii.eqb a c) && free_of c rest
  end.

(** [vars] with [name] set to [text]. *)
Definition update (vars : variables) (name text : string) : variables :=
  fun n => if String.eqb n name then Some text else vars n.

(** What a line of the file assigns, if it assigns anything: the name and
    the value as [process.env] holds them afterwards
    ([Dotenv.loadEnv_line_assignment]). *)
Definition assignment (line : string) : option (string * string) :=
  let trimmed := Text.trim line in
  if String.eqb trimmed "" || prefix "#" trimmed then None
  else match Text.split "=" trimmed with
       | key :: valueParts =>
           if String.eqb key "" || Nat.eqb (List.length valueParts) 0 then None
           else if String.eqb (c_string (Text.trim key)) "" then None
           else Some (c_string (Text.trim key),
                      c_string (Text.trim (Text.join "=" valueParts)))
       | [] => None
       end.

(** The line leaves the variable [name] alone. *)
Definition leaves (name : string) (line : string) : Prop :=
  forall text, assignment line <> Some (name, text).

(** The lines of the file with the bytes [buffer]. *)
Definition lines_of (buffer : string) : list string :=
  Text.split "010" (Text.decode buffer).

(** ** Timestamps *)

(** The fields of a [Date] are in their ranges (the month counts from 0). *)
Definition valid_Date (d : Date) : Prop :=
  (0 <= getMonth d <= 11 /\ 1 <= getDate d <= 31 /\ 0 <= getHours d <= 23
   /\ 0 <= getMinutes d <= 59 /\ 0 <= getSeconds d <= 59)%Z.

(** The numbers from 0 below a bound. *)
Definition below (bound : Z) : list Z := map Z.of_nat (seq 0 (Z.to_nat bound)).

Definition is_digit (c : ascii) : bool :=
  Nat.leb 48 (nat_of_ascii c) && Nat.leb (nat_of_ascii c) 57.

(** Every character of [s] is a decimal digit. *)
Fixpoint digits_only (s : string) : bool :=
  match s with
  | "" => true
  | String c rest => is_digit c && digits_only rest
  end.

(** ** Reading local files *)

(** The message of the error [fs.readFile] fails with on a file that is
    not [readable]. *)
Definition read_error (E : environment) (path : string) : string :=
  match fs_fault E (ReadFile path) with
  | Some m => m
  | None => "ENOENT: no such file or directory, open '" ++ path ++ "'"
  end.

(** ** What a call prints *)

Definition upload_greeting (remoteDir : string) (localFiles : list string) : console_line :=
  log ("Uploading " ++ Str.of_nat (List.length localFiles) ++ " file(s) to " ++ remoteDir).

Definition adding (filePath : string) : console_line :=
  log ("  - Adding file: " ++ Str.basename filePath).

Definition mkdir_greeting (parentAbsolutePath dirName : string) : console_line :=
  log ("Creating directory: " ++ dirName ++ " in " ++ parentAbsolutePath).

(** The lines of a rejected [fetch]. *)
Definition network_diagnostics (url reason : string) : list console_line :=
  [error "✗ Network error during fetch:";
   error ("  URL: " ++ url);
   error ("  Error: " ++ reason)].

Definition http_line (r : Response) : console_line :=
  error ("✗ HTTP error: " ++ Str.of_Z (status r) ++ " " ++ statusText r).

(** ** Local files outside a directory *)


(** ** Requests to the configured host *)

(** A request addressed to the configured host that carries the
    credentials of the configuration. *)
Definition authorised (E : environment) (r : request) : Prop :=
  match r with
  | GET url _ h | POST url h _ =>
      h = [("Authorization",
            "cpanel " ++ template (process_env E "USERNAME") ++ ":"
              ++ template (process_env E "BLUEHOSTAPI"))]
      /\ prefix ("https://" ++ template (process_env E "SUBDOMAINNAME")
                   ++ ".mybluehost.me:2083/") url = true
  end.

(** From [st] to [st'] only such requests were issued. *)
Definition issues_authorised (E : environment) (st st' : state) : Prop :=
  exists requests,
    sent st' = (sent st ++ requests)%list /\ Forall (authorised E) requests.

(** ** What a run prints *)

(** The lines of [main] before its [try] block. *)
Definition header (E : environment) (timestamp : string) : list console_line :=
  [log rule; log "BlueHost cPanel File Upload Script"; log rule;
   log ("Target host: " ++ CPANEL_HOST E);
   log ("User: " ++ template (CPANEL_USER E));
   log "";
   log ("Timestamp: " ++ timestamp);
   log ""].

(** The lines of the [catch] block of [main]. *)
Definition banner (reason : string) : list console_line :=
  [error rule; error "✗ Error during upload process:"; error reason; error rule].

(** The state in which the [try] block of [main] starts. *)
Definition prepared (E : environment) (st : state) : state :=
  {| console := console st ++ header E (timestamp_of (clock E (ticks st)));
     sent := sent st; ticks := S (ticks st); files := files st;
     dirs := with_tempDir E st |}.

(** * Lemmas *)

(** ** Strings *)

Module StrFacts.
Import Str.

Lemma prefix_nil (s : string) : prefix "" s = true.
Proof. destruct s; reflexivity. Qed.

Lemma prefix_append (p s : string) :
  prefix p s = true <-> exists rest, s = p ++ rest.
Proof.
  revert s; induction p as [|a p IH]; intros s.
  - rewrite prefix_nil. split; [intros _; exists s; reflexivity | reflexivity].
  - destruct s as [|b s]; simpl.
    + split; [discriminate | intros [rest H]; discriminate].
    + destruct (ascii_dec a b) as [->|Hne].
      * rewrite IH. split; intros [rest H]; exists rest.
        -- now rewrite H.
        -- now injection H.
      * split; [discriminate|]. intros [rest H]. injection H as Hab _.
        now elim Hne.
Qed.

Lemma includes_unfold (s pat : string) :
  includes s pat =
  prefix pat s || match s with "" => false | String _ rest => includes rest pat end.
Proof.
  destruct s; cbn [includes];
    match goal with |- context [if ?b then _ else _] => destruct b end;
    reflexivity.
Qed.

(** [includes] is the substring test. *)
Lemma includes_spec (s pat : string) :
  includes s pat = true <-> exists before after, s = before ++ pat ++ after.
Proof.
  induction s as [|c s IH]; rewrite includes_unfold, orb_true_iff, prefix_append.
  - split.
    + intros [[rest H]|H]; [|discriminate]. exists "", rest. exact H.
    + intros [before [after H]]. left. destruct before; simpl in H.
      * now exists after.
      * discriminate.
  - rewrite IH. split.
    + intros [[rest H]|[before [after H]]].
      * exists "", rest. exact H.
      * exists (String c before), after. simpl. now rewrite H.
    + intros [before [after H]]. destruct before as [|b before]; simpl in H.
      * left. now exists after.
      * right. injection H as _ H. now exists before, after.
Qed.

Lemma slash_free_app (a b : string) :
  slash_free (a ++ b) = slash_free a && slash_free b.
Proof.
  induction a as [|c a IH]; simpl; [reflexivity|].
  now rewrite IH, andb_assoc.
Qed.

Lemma slash_free_repeat (c : ascii) (n : nat) :
  Ascii.eqb c "/" = false -> slash_free (repeat c n) = true.
Proof. intros H. induction n; simpl; [reflexivity|]. now rewrite H, IHn. Qed.

Lemma slash_free_uint (d : Decimal.uint) :
  slash_free (NilEmpty.string_of_uint d) = true.
Proof. induction d; simpl; auto. Qed.

Lemma slash_free_of_Z (z : Z) : slash_free (of_Z z) = true.
Proof.
  unfold of_Z. destruct (Z.to_int z); simpl; apply slash_free_uint.
Qed.

Lemma slash_free_padStart (s : string) (n : nat) (c : ascii) :
  Ascii.eqb c "/" = false -> slash_free s = true ->
  slash_free (padStart s n c) = true.
Proof.
  intros Hc Hs. unfold padStart.
  now rewrite slash_free_app, slash_free_repeat, Hs.
Qed.

Lemma segments_slash_free (n : string) :
  slash_free n = true -> segments n = [n].
Proof.
  induction n as [|c n IH]; simpl; [reflexivity|].
  intros H. apply andb_true_iff in H as [Hc Hn].
  apply negb_true_iff in Hc. rewrite Hc, (IH Hn). reflexivity.
Qed.

Lemma segments_nonempty (s : string) : segments s <> [].
Proof.
  destruct s as [|c s]; simpl; [discriminate|].
  destruct (Ascii.eqb c "/"); [discriminate|].
  destruct (segments s); discriminate.
Qed.

Lemma segments_append (a b : string) :
  segments (a ++ String "/" b) = (segments a ++ segments b)%list.
Proof.
  induction a as [|c a IH]; simpl; [reflexivity|].
  destruct (Ascii.eqb c "/").
  - now rewrite IH.
  - rewrite IH. destruct (segments a) eqn:Hd.
    + now elim (segments_nonempty a).
    + reflexivity.
Qed.

(** The base name of a path that ends in a slash and a name is the name. *)
Lemma basename_append (dir name : string) :
  slash_free name = true -> name <> "" ->
  basename (dir ++ String "/" name) = name.
Proof.
  intros Hn Hne. unfold basename.
  rewrite segments_append, (segments_slash_free name Hn), fold_left_app. simpl.
  destruct (String.eqb_spec name ""); [contradiction|reflexivity].
Qed.

Lemma basename_name (name : string) :
  slash_free name = true -> basename name = name.
Proof.
  intros Hn. unfold basename. rewrite (segments_slash_free name Hn). simpl.
  now destruct (String.eqb_spec name "").
Qed.

End StrFacts.

(** ** The string methods of [loadEnv] *)

Module TextFacts.
Import Text.

Lemma length_append (a b : string) :
  String.length (a ++ b) = String.length a + String.length b.
Proof. induction a as [|c a IH]; simpl; [reflexivity|now rewrite IH]. Qed.

Lemma append_nil_r (a : string) : a ++ "" = a.
Proof. induction a as [|c a IH]; simpl; [reflexivity|now rewrite IH]. Qed.

Lemma append_assoc (a b c : string) : (a ++ b) ++ c = a ++ b ++ c.
Proof. induction a as [|x a IH]; simpl; [reflexivity|now rewrite IH]. Qed.

(** Two concatenations whose first parts have the same length agree part
    by part. *)
Lemma append_inj (a1 a2 b1 b2 : string) :
  String.length a1 = String.length a2 ->
  a1 ++ b1 = a2 ++ b2 -> a1 = a2 /\ b1 = b2.
Proof.
  revert a2. induction a1 as [|c a1 IH]; intros [|c2 a2] Hlen H;
    try discriminate Hlen; simpl in *.
  - now split.
  - injection H as -> H. injection Hlen as Hlen.
    destruct (IH a2 Hlen H) as [-> ->]. now split.
Qed.

Lemma split_nonempty sep s : split sep s <> [].
Proof.
  destruct s as [|c s]; simpl; [discriminate|].
  destruct (Ascii.eqb c sep); [discriminate|].
  destruct (split sep s); discriminate.
Qed.

Lemma join_cons sep piece more :
  more <> [] -> join sep (piece :: more) = piece ++ sep ++ join sep more.
Proof. destruct more; [intros H; now elim H|reflexivity]. Qed.

Lemma join_head sep c piece more :
  join sep (String c piece :: more) = String c (join sep (piece :: more)).
Proof. destruct more; reflexivity. Qed.

(** Joining the pieces of a split gives the string back. *)
Lemma join_split sep s : join (String sep "") (split sep s) = s.
Proof.
  induction s as [|c s IH]; simpl; [reflexivity|].
  destruct (Ascii.eqb_spec c sep) as [->|Hne].
  - rewrite join_cons by apply split_nonempty. now rewrite IH.
  - destruct (split sep s) as [|p more] eqn:Hs; [now elim (split_nonempty sep s)|].
    now rewrite join_head, IH.
Qed.

(** A string without the separator is its only piece. *)
Lemma split_free sep s : free_of sep s = true -> split sep s = [s].
Proof.
  induction s as [|c s IH]; simpl; [reflexivity|].
  intros H. apply andb_true_iff in H as [Hc Hs].
  apply negb_true_iff in Hc. now rewrite Hc, (IH Hs).
Qed.

(** The first piece ends at the first separator. *)
Lemma split_first sep key rest :
  free_of sep key = true ->
  split sep (key ++ String sep rest) = key :: split sep rest.
Proof.
  induction key as [|c key IH]; simpl.
  - intros _. now rewrite Ascii.eqb_refl.
  - intros H. apply andb_true_iff in H as [Hc Hk].
    apply negb_true_iff in Hc. now rewrite Hc, (IH Hk).
Qed.

(** A string is free of the separator, or breaks at its first one. *)
Lemma split_cases sep s :
  free_of sep s = true
  \/ exists key rest, s = key ++ String sep rest /\ free_of sep key = true.
Proof.
  induction s as [|c s IH]; [now left|].
  simpl. destruct (Ascii.eqb_spec c sep) as [->|Hne].
  - right. exists "", s. now split.
  - destruct IH as [H|[key [rest [-> H]]]]; [now left|].
    right. exists (String c key), rest. split; [reflexivity|].
    simpl. destruct (Ascii.eqb_spec c sep); [contradiction|exact H].
Qed.

Lemma free_of_append sep a b :
  free_of sep (a ++ b) = free_of sep a && free_of sep b.
Proof.
  induction a as [|c a IH]; simpl; [reflexivity|]. now rewrite IH, andb_assoc.
Qed.

Lemma trimStart_cons c1 rest1 :
  trimStart (String c1 rest1) =
  if is_space_byte c1 then trimStart rest1
  else match rest1 with
       | "" => String c1 rest1
       | String c2 rest2 =>
           if is_space_2 c1 c2 then trimStart rest2
           else match rest2 with
                | "" => String c1 rest1
                | String c3 rest3 =>
                    if is_space_3 c1 c2 c3 then trimStart rest3 else String c1 rest1
                end
       end.
Proof. reflexivity. Qed.

Functional Scheme trimStart_ind := Induction for trimStart Sort Prop.

(** White space in front of a string that is all white space, or that
    ends in an ASCII white space character. *)
Lemma trimStart_snoc s c :
  is_space_byte c = true ->
  trimStart (s ++ String c "") =
  if String.eqb (trimStart s) "" then "" else trimStart s ++ String c "".
Proof.
  intros Hc.
  assert (H3 : forall a b, is_space_3 a b c = false).
  { intros a b. unfold is_space_3, is_space_byte in *.
    destruct (Nat.eqb_spec (code c) 32) as [E|E].
    - rewrite E. cbn. now rewrite !andb_false_r.
    - rewrite orb_false_r in Hc. apply andb_true_iff in Hc as [_ Hle].
      apply Nat.leb_le in Hle.
      repeat match goal with
             | |- context [Nat.eqb (code c) ?n] =>
                 destruct (Nat.eqb_spec (code c) n); [lia|]
             | |- context [Nat.leb 128 (code c)] =>
                 destruct (Nat.leb_spec 128 (code c)); [lia|]
             end.
      cbn. now rewrite !andb_false_r. }
  assert (H2 : forall a, is_space_2 a c = false).
  { intros a. unfold is_space_2, is_space_byte in *.
    destruct (Nat.eqb_spec (code c) 160) as [E|E]; [|now rewrite andb_false_r].
    rewrite E in Hc. discriminate Hc. }
  functional induction (trimStart s); cbn [String.append];
    rewrite ?trimStart_cons;
    repeat match goal with
           | H : is_space_byte _ = _ |- _ => rewrite H
           | H : is_space_2 _ _ = _ |- _ => rewrite H
           | H : is_space_3 _ _ _ = _ |- _ => rewrite H
           end;
    rewrite ?H2, ?H3; auto.
Qed.

(** A trailing ASCII white space character is trimmed away. *)
Lemma trimEnd_snoc s c :
  is_space_byte c = true -> trimEnd (s ++ String c "") = trimEnd s.
Proof.
  intros Hc. induction s as [|a s IH].
  - cbn [String.append trimEnd]. rewrite trimStart_cons, Hc. reflexivity.
  - cbn [String.append trimEnd].
    change (String a (s ++ String c "")) with (String a s ++ String c "").
    rewrite (trimStart_snoc (String a s) c Hc), IH.
    destruct (String.eqb_spec (trimStart (String a s)) "") as [E|E]; [reflexivity|].
    destruct (String.eqb_spec (trimStart (String a s) ++ String c "") "") as [E'|E'];
      [|reflexivity].
    destruct (trimStart (String a s)); [now elim E|discriminate E'].
Qed.

Lemma trim_snoc s c :
  is_space_byte c = true -> trim (s ++ String c "") = trim s.
Proof.
  intros Hc. unfold trim. rewrite (trimStart_snoc s c Hc).
  destruct (String.eqb_spec (trimStart s) "") as [E|E].
  - now rewrite E.
  - apply trimEnd_snoc, Hc.
Qed.

Lemma trimStart_length s : String.length (trimStart s) <= String.length s.
Proof. functional induction (trimStart s); simpl in *; lia. Qed.

(** What [trimStart] returns has no white space in front. *)
Lemma trimStart_idem s : trimStart (trimStart s) = trimStart s.
Proof.
  functional induction (trimStart s); auto;
    rewrite trimStart_cons;
    repeat match goal with
           | H : is_space_byte _ = _ |- _ => rewrite H
           | H : is_space_2 _ _ = _ |- _ => rewrite H
           | H : is_space_3 _ _ _ = _ |- _ => rewrite H
           end; reflexivity.
Qed.

(** White space in front is dropped whatever follows it. *)
Lemma trimStart_blank_append p q :
  trimStart p = "" -> trimStart (p ++ q) = trimStart q.
Proof.
  functional induction (trimStart p); intros H; try discriminate H;
    cbn [String.append]; auto;
    rewrite trimStart_cons;
    repeat match goal with
           | H : is_space_byte _ = _ |- _ => rewrite H
           | H : is_space_2 _ _ = _ |- _ => rewrite H
           | H : is_space_3 _ _ _ = _ |- _ => rewrite H
           end; auto.
Qed.

(** A string without white space in front has no blank prefix. *)
Lemma tight_prefix p q :
  trimStart (p ++ q) = p ++ q -> p <> "" -> trimStart p <> "".
Proof.
  intros Ht Hp Hblank.
  pose proof (trimStart_length q) as Hl.
  rewrite <- (trimStart_blank_append p q Hblank), Ht, length_append in Hl.
  destruct p; [now elim Hp|simpl in Hl; lia].
Qed.

(** [trimEnd] returns a prefix. *)
Lemma trimEnd_prefix s : exists q, s = trimEnd s ++ q.
Proof.
  induction s as [|c s [q IH]]; [now exists ""|].
  cbn [trimEnd]. destruct (String.eqb (trimStart (String c s)) "").
  - now exists (String c s).
  - exists q. cbn [String.append]. now rewrite <- IH.
Qed.

(** A string that is not all white space is not trimmed to nothing. *)
Lemma trim_nonempty s : trimStart s <> "" -> trim s <> "".
Proof.
  intros H. unfold trim. destruct (trimStart s) as [|c r] eqn:E; [now elim H|].
  cbn [trimEnd]. rewrite <- E, trimStart_idem, E. discriminate.
Qed.

(** A non-empty prefix of a trimmed line is not all white space. *)
Lemma prefix_of_trimmed line key more :
  trim line = key ++ more -> key <> "" -> trimStart key <> "".
Proof.
  intros H Hk. unfold trim in H.
  destruct (trimEnd_prefix (trimStart line)) as [q Hq].
  rewrite H, append_assoc in Hq.
  apply (tight_prefix key (more ++ q)); [|exact Hk].
  now rewrite <- Hq, trimStart_idem.
Qed.

(** What [trimStart] returns is the end of the string. *)
Lemma trimStart_suffix s : exists p, s = p ++ trimStart s.
Proof.
  functional induction (trimStart s);
    try (destruct IHs0 as [p Hp]);
    try (now exists "").
  - exists (String c1 p). cbn [String.append]. now rewrite <- Hp.
  - exists (String c1 (String c2 p)). cbn [String.append]. now rewrite <- Hp.
  - exists (String c1 (String c2 (String c3 p))). cbn [String.append]. now rewrite <- Hp.
Qed.

Lemma free_of_trim c s : free_of c s = true -> free_of c (trim s) = true.
Proof.
  intros H. destruct (trimStart_suffix s) as [p Hp].
  destruct (trimEnd_prefix (trimStart s)) as [q Hq].
  rewrite Hp, free_of_append in H. apply andb_true_iff in H as [_ H].
  rewrite Hq, free_of_append in H. apply andb_true_iff in H as [H _].
  exact H.
Qed.

(** The start of a string without white space in front has none
    either. *)
Lemma trimStart_fixed p q : trimStart (p ++ q) = p ++ q -> trimStart p = p.
Proof.
  assert (Hshort : forall a b, trimStart a = b -> String.length b <= String.length a)
    by (intros a b <-; apply trimStart_length).
  destruct p as [|c1 [|c2 [|c3 r3]]]; try reflexivity; intros H.
  - cbn [String.append] in H. rewrite trimStart_cons in H. rewrite trimStart_cons.
    destruct (is_space_byte c1); [|reflexivity].
    apply Hshort in H. simpl in H. lia.
  - cbn [String.append] in H. rewrite trimStart_cons in H. rewrite trimStart_cons.
    destruct (is_space_byte c1); [apply Hshort in H; simpl in H; lia|].
    destruct (is_space_2 c1 c2); [|reflexivity].
    apply Hshort in H. simpl in H. lia.
  - cbn [String.append] in H. rewrite trimStart_cons in H. rewrite trimStart_cons.
    destruct (is_space_byte c1); [apply Hshort in H; simpl in H; lia|].
    destruct (is_space_2 c1 c2); [apply Hshort in H; simpl in H; lia|].
    destruct (is_space_3 c1 c2 c3); [|reflexivity].
    apply Hshort in H. simpl in H. lia.
Qed.

(** A non-empty start of a trimmed line keeps its first character when it
    is trimmed itself. *)
Lemma trim_first line key more :
  trim line = key ++ more -> key <> "" ->
  exists c rest tail, key = String c rest /\ trim key = String c tail.
Proof.
  intros H Hk.
  destruct (trimEnd_prefix (trimStart line)) as [q Hq].
  fold (trim line) in Hq. rewrite H, append_assoc in Hq.
  assert (Hfix : trimStart (key ++ more ++ q) = key ++ more ++ q)
    by (rewrite <- Hq; apply trimStart_idem).
  apply trimStart_fixed in Hfix.
  destruct key as [|c rest]; [now elim Hk|].
  exists c, rest. unfold trim. rewrite Hfix. cbn [trimEnd]. rewrite Hfix.
  cbn [String.eqb]. now eexists.
Qed.

End TextFacts.

(** ** path.join *)

Module PathFacts.
Import Str StrFacts.

Lemma concat_snoc sep (parts : list string) (x : string) :
  parts <> [] ->
  String.concat sep (parts ++ [x]) = String.concat sep parts ++ sep ++ x.
Proof.
  induction parts as [|p parts IH]; [congruence|]. intros _.
  destruct parts as [|q parts]; [reflexivity|].
  change (String.concat sep ((p :: q :: parts) ++ [x]))
    with (p ++ sep ++ String.concat sep ((q :: parts) ++ [x])).
  rewrite IH by discriminate.
  change (String.concat sep (p :: q :: parts))
    with (p ++ sep ++ String.concat sep (q :: parts)).
  now rewrite !TextFacts.append_assoc.
Qed.

(** A list of names joined by slashes, after what stands before it. *)
Lemma concat_last (before : string) (parts : list string) (x : string) :
  before ++ String.concat "/" (parts ++ [x]) = before ++ x
  \/ exists dir, before ++ String.concat "/" (parts ++ [x]) = dir ++ String "/" x.
Proof.
  destruct parts as [|p parts]; [now left|]. right.
  rewrite concat_snoc by discriminate.
  exists (before ++ String.concat "/" (p :: parts)).
  now rewrite TextFacts.append_assoc.
Qed.

Lemma segments_all_slash_free (s : string) :
  Forall (fun seg => slash_free seg = true) (segments s).
Proof.
  induction s as [|c s IH]; simpl; [now repeat constructor|].
  destruct (Ascii.eqb c "/") eqn:Hc; [now constructor|].
  destruct (segments s) as [|seg more].
  - constructor; [simpl; now rewrite Hc|constructor].
  - inversion IH; subst. constructor; [|assumption].
    simpl. now rewrite Hc.
Qed.


Lemma ends_with_slash_append (a b : string) :
  b <> "" -> ends_with_slash (a ++ b) = ends_with_slash b.
Proof.
  intros Hb. induction a as [|c a IH]; [reflexivity|].
  change (String c a ++ b) with (String c (a ++ b)). cbn [ends_with_slash].
  destruct (a ++ b) eqn:Hab; [|exact IH].
  destruct a; [now elim Hb|discriminate].
Qed.

Lemma ends_with_slash_free (s : string) :
  slash_free s = true -> ends_with_slash s = false.
Proof.
  induction s as [|c s IH]; [reflexivity|]. simpl. intros H.
  apply andb_true_iff in H as [Hc Hs]. apply negb_true_iff in Hc.
  destruct s; [exact Hc|now apply IH].
Qed.

Lemma prefix_slash_free (s rest : string) :
  s <> "" -> slash_free s = true -> prefix "/" (s ++ rest) = false.
Proof.
  destruct s as [|c s]; [congruence|]. intros _ H. simpl in H.
  apply andb_true_iff in H as [Hc _]. apply negb_true_iff in Hc.
  change (String c s ++ rest) with (String c (s ++ rest)). cbn [prefix].
  destruct (ascii_dec "/" c) as [<-|]; [now rewrite Ascii.eqb_refl in Hc|reflexivity].
Qed.

Lemma plain_name_spec (s : string) :
  plain_name s = true <->
  s <> "" /\ s <> "." /\ s <> ".." /\ slash_free s = true.
Proof.
  unfold plain_name. rewrite !andb_true_iff, !negb_true_iff, !String.eqb_neq. tauto.
Qed.

Lemma resolve_plain allow kept name :
  plain_name name = true -> resolve allow kept name = name :: kept.
Proof.
  intros H. apply plain_name_spec in H as (H1 & H2 & H3 & _).
  unfold resolve.
  apply String.eqb_neq in H1, H2, H3. now rewrite H1, H2, H3.
Qed.

Lemma settled_nil allow : settled allow [].
Proof. split; [reflexivity|constructor]. Qed.

Lemma settled_resolve allow kept segment :
  slash_free segment = true ->
  settled allow kept -> settled allow (resolve allow kept segment).
Proof.
  intros Hs [Hfix Hall]. unfold resolve.
  destruct (String.eqb_spec segment ""); [now split|].
  destruct (String.eqb_spec segment "."); [now split|]. cbn [orb].
  destruct (String.eqb_spec segment "..") as [->|Hup].
  - destruct kept as [|last before].
    + destruct allow; [|now split]. split; [reflexivity|].
      constructor; [|constructor]. repeat split; discriminate.
    + destruct (String.eqb_spec last "..") as [->|Hlast].
      * destruct allow; [|now split]. split.
        -- change (rev (".." :: ".." :: before)) with (rev (".." :: before) ++ [".."])%list.
           rewrite fold_left_app, Hfix. reflexivity.
        -- constructor; [|assumption]. repeat split; discriminate.
      * inversion Hall as [|? ? (L1 & L2 & L3) Hrest]; subst. split; [|assumption].
        cbn [rev] in Hfix. rewrite fold_left_app in Hfix. cbn [fold_left] in Hfix.
        unfold resolve in Hfix.
        apply String.eqb_neq in L1, L2, Hlast.
        rewrite L1, L2, Hlast in Hfix. cbn [orb] in Hfix.
        injection Hfix as Hfix. exact Hfix.
  - split.
    + cbn [rev]. rewrite fold_left_app, Hfix. cbn [fold_left]. unfold resolve.
      apply String.eqb_neq in n, n0, Hup. now rewrite n, n0, Hup.
    + constructor; [|assumption]. auto.
Qed.

Lemma settled_fold allow segs : forall kept,
  Forall (fun seg => slash_free seg = true) segs ->
  settled allow kept -> settled allow (fold_left (resolve allow) segs kept).
Proof.
  induction segs as [|seg segs IH]; intros kept Hall Hk; [exact Hk|].
  inversion Hall; subst. cbn [fold_left]. apply IH; [assumption|].
  now apply settled_resolve.
Qed.

Lemma settled_plain allow kept name :
  plain_name name = true -> settled allow kept -> settled allow (name :: kept).
Proof.
  intros Hn Hk. rewrite <- (resolve_plain allow kept name Hn).
  apply settled_resolve; [|exact Hk]. now apply plain_name_spec in Hn.
Qed.

Lemma concat_nonempty (parts : list string) (x : string) :
  x <> "" -> String.concat "/" (parts ++ [x]) <> "".
Proof.
  intros Hx. destruct parts as [|p parts]; [exact Hx|].
  rewrite concat_snoc by discriminate. intros H.
  apply (f_equal String.length) in H. rewrite !TextFacts.length_append in H.
  simpl in H. lia.
Qed.


(** What [path.join] gives for a plain name: a normalized path that ends
    in the name. *)
Lemma join_plain dir name :
  plain_name name = true ->
  exists isAbsolute kept,
    settled (negb isAbsolute) (name :: kept)
    /\ join dir name = root isAbsolute ++ String.concat "/" (rev (name :: kept)).
Proof.
  intros Hn. pose proof Hn as Hspec.
  apply plain_name_spec in Hspec as (Hne & _ & _ & Hsf).
  unfold join.
  destruct (String.eqb_spec dir "") as [->|Hdir].
  - destruct (String.eqb_spec name ""); [contradiction|].
    exists false, []. split; [apply settled_plain; [exact Hn|apply settled_nil]|].
    unfold normalize. destruct (String.eqb_spec name ""); [contradiction|].
    assert (Hp : prefix "/" name = false).
    { rewrite <- (TextFacts.append_nil_r name). now apply prefix_slash_free. }
    rewrite Hp, (ends_with_slash_free name Hsf), (segments_slash_free name Hsf).
    cbn [fold_left negb]. rewrite (resolve_plain true [] name Hn).
    cbn [rev app String.concat root]. destruct (String.eqb_spec name ""); [contradiction|].
    simpl. now rewrite TextFacts.append_nil_r.
  - destruct (String.eqb_spec name ""); [contradiction|].
    set (joined := dir ++ "/" ++ name).
    assert (Hjoined : joined <> "").
    { subst joined. intros H. apply (f_equal String.length) in H.
      rewrite !TextFacts.length_append in H. simpl in H. lia. }
    destruct (String.eqb_spec joined ""); [contradiction|].
    exists (prefix "/" joined),
           (fold_left (resolve (negb (prefix "/" joined))) (segments dir) []).
    set (isAbsolute := prefix "/" joined).
    set (kept := fold_left (resolve (negb isAbsolute)) (segments dir) []).
    assert (Hkept : settled (negb isAbsolute) kept).
    { apply settled_fold; [apply segments_all_slash_free|apply settled_nil]. }
    split; [now apply settled_plain|].
    unfold normalize. destruct (String.eqb_spec joined ""); [contradiction|].
    fold isAbsolute.
    assert (Hseg : segments joined = (segments dir ++ [name])%list).
    { subst joined. change (dir ++ "/" ++ name) with (dir ++ String "/" name).
      now rewrite segments_append, (segments_slash_free name Hsf). }
    rewrite Hseg, fold_left_app. fold kept. cbn [fold_left].
    rewrite (resolve_plain _ kept name Hn).
    assert (Htrail : ends_with_slash joined = false).
    { subst joined. rewrite <- TextFacts.append_assoc.
      rewrite ends_with_slash_append by exact Hne. now apply ends_with_slash_free. }
    rewrite Htrail.
    destruct (String.eqb_spec (String.concat "/" (rev (name :: kept))) "") as [He|_].
    { now elim (concat_nonempty (rev kept) name Hne). }
    unfold root. destruct isAbsolute; now rewrite TextFacts.append_nil_r.
Qed.

(** The base name of a file placed in a directory is its name. *)
Lemma basename_join (dir name : string) :
  plain_name name = true -> basename (join dir name) = name.
Proof.
  intros Hn. destruct (join_plain dir name Hn) as (isAbsolute & kept & _ & ->).
  apply plain_name_spec in Hn as (Hne & _ & _ & Hsf). cbn [rev].
  destruct (concat_last (root isAbsolute) (rev kept) name) as [->|[d ->]].
  - destruct isAbsolute; cbn [root].
    + change ("/" ++ name) with ("" ++ String "/" name). now apply basename_append.
    + now apply basename_name.
  - now apply basename_append.
Qed.


End PathFacts.

(** ** loadEnv *)

Module Dotenv.
Import Text TextFacts.

(** A line changes [process.env] by what it assigns. *)
Lemma loadEnv_line_assignment vars line :
  loadEnv_line vars line =
  match assignment line with
  | Some (name, text) => update vars name text
  | None => vars
  end.
Proof.
  unfold loadEnv_line, assignment, assign.
  destruct (String.eqb (trim line) ""); [reflexivity|].
  destruct (prefix "#" (trim line)); [reflexivity|]. cbn [negb andb orb].
  destruct (split "=" (trim line)) as [|key valueParts]; [reflexivity|].
  destruct (String.eqb key ""); [reflexivity|].
  destruct (Nat.eqb (List.length valueParts) 0); [reflexivity|]. cbn [negb andb orb].
  destruct (String.eqb (c_string (trim key)) ""); reflexivity.
Qed.

Lemma update_same vars name text : update vars name text name = Some text.
Proof. unfold update. now rewrite String.eqb_refl. Qed.

Lemma update_other vars name text other :
  other <> name -> update vars name text other = vars other.
Proof.
  intros H. unfold update. now destruct (String.eqb_spec other name).
Qed.

Lemma c_string_free (s : string) : free_of "000" s = true -> c_string s = s.
Proof.
  induction s as [|c s IH]; [reflexivity|]. simpl. intros H.
  apply andb_true_iff in H as [Hc Hs]. apply negb_true_iff in Hc.
  now rewrite Hc, (IH Hs).
Qed.

Lemma c_string_first (c : ascii) (s : string) :
  Ascii.eqb c "000" = false -> c_string (String c s) <> "".
Proof. intros H. simpl. now rewrite H. Qed.

(** What [assign] does with a name that is not empty as a C string. *)
Lemma assign_update vars name text :
  c_string name <> "" ->
  assign vars name text = update vars (c_string name) (c_string text).
Proof.
  intros H. unfold assign. now destruct (String.eqb_spec (c_string name) "").
Qed.

Lemma line_leaves vars name line :
  leaves name line -> loadEnv_line vars line name = vars name.
Proof.
  intros H. rewrite loadEnv_line_assignment.
  destruct (assignment line) as [[k v]|] eqn:Ha; [|reflexivity].
  apply update_other. intros ->. now apply (H v).
Qed.

Lemma lines_leave name lines : forall vars,
  Forall (leaves name) lines ->
  fold_left loadEnv_line lines vars name = vars name.
Proof.
  induction lines as [|line lines IH]; intros vars H; [reflexivity|].
  inversion H as [|? ? Hl Hrest]; subst. cbn [fold_left].
  now rewrite (IH _ Hrest), (line_leaves _ _ _ Hl).
Qed.

Lemma last_line_wins name text line before later vars :
  assignment line = Some (name, text) ->
  Forall (leaves name) later ->
  fold_left loadEnv_line (before ++ line :: later) vars name = Some text.
Proof.
  intros Ha Hl. rewrite fold_left_app. cbn [fold_left].
  rewrite (lines_leave _ _ _ Hl), loadEnv_line_assignment, Ha.
  apply update_same.
Qed.

Lemma prefix_first c key more :
  key <> "" -> prefix (String c "") (key ++ more) = prefix (String c "") key.
Proof.
  destruct key as [|a key]; [intros H; now elim H|intros _].
  simpl. destruct (ascii_dec c a); [|reflexivity].
  now rewrite !StrFacts.prefix_nil.
Qed.

Lemma free_not_prefixed c s :
  free_of c s = true -> s <> "" -> prefix (String c "") s = false.
Proof.
  destruct s as [|a s]; [intros _ H; now elim H|]. simpl.
  intros H _. apply andb_true_iff in H as [H _]. apply negb_true_iff in H.
  destruct (ascii_dec c a) as [->|]; [|reflexivity].
  now rewrite Ascii.eqb_refl in H.
Qed.

Lemma line_assigns vars line key rest :
  trim line = key ++ "=" ++ rest ->
  free_of "=" key = true ->
  key <> "" ->
  prefix "#" key = false ->
  loadEnv_line vars line = assign vars (trim key) (trim rest).
Proof.
  intros Ht Hfree Hkey Hcomment. unfold loadEnv_line. rewrite Ht.
  destruct (String.eqb_spec (key ++ "=" ++ rest) "") as [E|_].
  { destruct key; [now elim Hkey|discriminate E]. }
  rewrite (prefix_first "#" key _ Hkey), Hcomment. cbn [negb andb].
  change (key ++ "=" ++ rest) with (key ++ String "=" rest).
  rewrite (split_first "=" key rest Hfree).
  destruct (String.eqb_spec key "") as [E|_]; [contradiction|].
  destruct (split "=" rest) as [|p more] eqn:Hs;
    [now elim (split_nonempty "=" rest)|].
  cbn [List.length Nat.eqb negb andb].
  now rewrite <- Hs, (join_split "=" rest).
Qed.

(** The name a line assigns is not empty when the line, trimmed, does not
    start with NUL. *)
Lemma key_c_string line key more :
  trim line = key ++ more -> key <> "" ->
  prefix (String "000" "") (trim line) = false ->
  c_string (trim key) <> "".
Proof.
  intros Ht Hk Hnul.
  destruct (trim_first line key more Ht Hk) as (c & rest & tail & -> & ->).
  apply c_string_first. rewrite Ht in Hnul.
  cbn [String.append] in Hnul. simpl in Hnul.
  destruct (Ascii.eqb_spec c "000") as [->|]; [|reflexivity].
  simpl in Hnul. now rewrite StrFacts.prefix_nil in Hnul.
Qed.

Lemma loadEnv_read E st envContent :
  fs_fault E (ReadFile (dotenv_path E)) = None ->
  lookup (dotenv_path E) (files st) = Some envContent ->
  loadEnv E st = (fold_left loadEnv_line (lines_of envContent) (process_env E), st).
Proof.
  intros Hf Hl. unfold loadEnv, fs_readFile, failing. now rewrite Hf, Hl.
Qed.

Lemma loaded_same E : loaded E (process_env E) = E.
Proof. now destruct E. Qed.

End Dotenv.

(** ** Tactics *)

#[local] Arguments String.append : simpl never.
#[local] Arguments Str.of_Z : simpl never.
#[local] Arguments Str.of_nat : simpl never.
#[local] Arguments Str.basename : simpl never.
#[local] Arguments Str.join : simpl never.
#[local] Arguments reports_created : simpl never.
#[local] Arguments reports_exists : simpl never.
#[local] Arguments reports_uploaded : simpl never.
#[local] Arguments http_reason : simpl never.
#[local] Arguments ok : simpl never.
#[local] Arguments timestamp_of : simpl never.
#[local] Arguments rule : simpl never.
#[local] Arguments missing_configuration : simpl never.
#[local] Arguments lookup : simpl never.
#[local] Arguments inside : simpl never.
#[local] Arguments event_result : simpl never.
#[local] Arguments failure_reason : simpl never.
#[local] Arguments status_flag : simpl never.

Ltac unfold_M :=
  unfold on_fetch_error, response_json, response_text_or_default,
    fs_readFile, fs_writeFile, fs_mkdir_recursive, fs_rm_recursive_force, failing,
    console_log, console_error, console_warn, print, throw, ret, eval,
    process_exit, new_Date, try_catch, fetch, bind in *.

(** Closes [~ In l lines] for concrete [lines] none of which is [l]. *)
Ltac not_printed :=
  let H := fresh "H" in
  vm_compute; intro H; repeat (destruct H as [H|H]; [discriminate H|]); exact H.

Ltac settle_state :=
  unfold after; cbn; rewrite <- ?app_assoc; reflexivity.

(** ** Reading a payload *)

Module Probe.

Lemma opt_member_select (v : value) (name : string) :
  Js.opt_member v name = Done (select v (prop name)).
Proof. destruct v as [|[]]; reflexivity. Qed.

Lemma opt_index0_select (v : value) :
  Js.opt_index0 v = Done (select v first_item).
Proof. destruct v as [|[| | |[]|[]|]]; reflexivity. Qed.

Lemma member_select (payload : json) (name : string) :
  payload <> JNull ->
  Js.member (VJson payload) name = Done (select (VJson payload) (prop name)).
Proof. destruct payload; intros H; try reflexivity. now elim H. Qed.

Lemma created (payload : json) :
  payload <> JNull ->
  reports_created payload = Done (equals_1 (event_result payload)).
Proof.
  intros H. unfold reports_created.
  rewrite (member_select _ _ H). cbn [Js.bind].
  rewrite opt_member_select. cbn [Js.bind].
  rewrite opt_member_select. reflexivity.
Qed.

Lemma exists_call (payload : json) :
  payload <> JNull ->
  reports_exists payload =
  Js.opt_includes includes_callee (failure_reason payload) "exists".
Proof.
  intros H. unfold reports_exists.
  rewrite (member_select _ _ H). cbn [Js.bind].
  rewrite opt_member_select. cbn [Js.bind].
  rewrite opt_index0_select. cbn [Js.bind].
  rewrite opt_member_select. reflexivity.
Qed.

Lemma uploaded (payload : json) :
  payload <> JNull ->
  reports_uploaded payload = Done (equals_1 (status_flag payload)).
Proof.
  intros H. unfold reports_uploaded.
  rewrite (member_select _ _ H). reflexivity.
Qed.

End Probe.

(** ** One call of the client *)

Module Client.

Lemma ensureRemoteDirectory_run E st parent name :
  exists lines,
    ensureRemoteDirectory parent name E st =
    (mkdir_outcome (provider E (sent st) (mkdir_request E parent name)),
     after st lines [mkdir_request E parent name]).
Proof.
  unfold ensureRemoteDirectory, mkdir_request, mkdir_outcome. unfold_M. cbn.
  destruct (provider E (sent st) _) as [m|r]; cbn.
  - eexists. settle_state.
  - destruct (ok r); cbn; [|eexists; settle_state].
    destruct (json_body r) as [payload|e]; cbn; [|eexists; settle_state].
    destruct (reports_created payload) as [[]|e]; cbn;
      [eexists; settle_state| |eexists; settle_state].
    destruct (reports_exists payload) as [v|e]; cbn; [|eexists; settle_state].
    destruct (Js.truthy v); cbn; eexists; settle_state.
Qed.

Lemma attach_run E localFiles : forall st index form,
  forallb (readable E (files st)) localFiles = true ->
  exists lines,
    attach localFiles index form E st =
    (Normal (form ++ file_parts (files st) index localFiles)%list, after st lines []).
Proof.
  induction localFiles as [|p rest IH]; intros st index form Hr.
  - exists []. cbn. unfold after. rewrite !app_nil_r. now destruct st.
  - cbn in Hr. apply andb_true_iff in Hr as [Hp Hrest].
    unfold readable in Hp. cbn [attach file_parts]. unfold_M.
    unfold content at 1.
    destruct (fs_fault E (ReadFile p)); [discriminate|].
    destruct (lookup p (files st)) as [c|] eqn:Hl; [|discriminate].
    match goal with |- context [attach rest ?i ?f E ?s] =>
      destruct (IH s i f) as [lines Hrun]; [exact Hrest|]; rewrite Hrun
    end.
    eexists. f_equal.
    + unfold form_append. now rewrite <- app_assoc.
    + settle_state.
Qed.

Lemma attach_stops E localFiles : forall st index form,
  forallb (readable E (files st)) localFiles = false ->
  exists e lines,
    attach localFiles index form E st = (Throw e, after st lines []).
Proof.
  induction localFiles as [|p rest IH]; intros st index form Hr; [discriminate|].
  cbn in Hr. cbn [attach]. unfold_M. unfold readable in Hr.
  destruct (fs_fault E (ReadFile p)) as [m|].
  - exists (Error m), []. unfold after. rewrite !app_nil_r. now destruct st.
  - destruct (lookup p (files st)) as [c|].
    + cbn in Hr.
      match goal with |- context [attach rest ?i ?f E ?s] =>
        destruct (IH s i f) as [e [lines Hrun]]; [exact Hr|]; rewrite Hrun
      end.
      eexists _, _. f_equal. settle_state.
    + eexists _, []. unfold after. rewrite !app_nil_r. now destruct st.
Qed.

Lemma uploadFiles_run E st remoteDir localFiles :
  forallb (readable E (files st)) localFiles = true ->
  let request := upload_request E (upload_form (files st) remoteDir localFiles) in
  exists lines,
    uploadFiles remoteDir localFiles E st =
    (upload_outcome (provider E (sent st) request), after st lines [request]).
Proof.
  intros Hr request. subst request.
  unfold uploadFiles, upload_request, upload_form, upload_outcome. unfold_M. cbn.
  match goal with |- context [attach localFiles ?i ?f E ?s] =>
    destruct (attach_run E localFiles s i f) as [lines Hrun]; [exact Hr|];
    rewrite Hrun
  end.
  unfold after. cbn. rewrite app_nil_r.
  destruct (provider E (sent st) _) as [m|r]; cbn.
  - eexists. settle_state.
  - destruct (ok r); cbn; [|eexists; settle_state].
    destruct (json_body r) as [payload|e]; cbn; [|eexists; settle_state].
    destruct (reports_uploaded payload) as [[]|e]; cbn; eexists; settle_state.
Qed.

Lemma uploadFiles_unreadable E st remoteDir localFiles :
  forallb (readable E (files st)) localFiles = false ->
  exists e lines,
    uploadFiles remoteDir localFiles E st = (Throw e, after st lines []).
Proof.
  intros Hr. unfold uploadFiles. unfold_M. cbn.
  match goal with |- context [attach localFiles ?i ?f E ?s] =>
    destruct (attach_stops E localFiles s i f) as [e [lines Hrun]]; [exact Hr|];
    rewrite Hrun
  end.
  eexists _, _. f_equal. settle_state.
Qed.

End Client.

(** ** The whole run *)

Module Run.
Import StrFacts Client.

(** The steps of a sequence, one at a time. *)

Lemma step_log {A} s (k : unit -> M A) E st :
  bind (console_log s) k E st =
  k tt E {| console := console st ++ [log s]; sent := sent st; ticks := ticks st;
            files := files st; dirs := dirs st |}.
Proof. reflexivity. Qed.

Lemma step_error {A} s (k : unit -> M A) E st :
  bind (console_error s) k E st =
  k tt E {| console := console st ++ [error s]; sent := sent st; ticks := ticks st;
            files := files st; dirs := dirs st |}.
Proof. reflexivity. Qed.

Lemma step_write {A} path body (k : unit -> M A) E st :
  bind (fs_writeFile path body) k E st =
  match fs_fault E (WriteFile path) with
  | Some m => (Throw (Error m), st)
  | None =>
      k tt E {| console := console st; sent := sent st; ticks := ticks st;
                files := (path, body)
                         :: filter (fun f => negb (String.eqb (fst f) path)) (files st);
                dirs := dirs st |}
  end.
Proof.
  unfold bind, fs_writeFile, failing. now destruct (fs_fault E _).
Qed.

Lemma step_outcome {A B} (m : M A) (k : A -> M B) E st o st' :
  m E st = (o, st') ->
  bind m k E st =
  match o with
  | Normal a => k a E st'
  | Throw e => (Throw e, st')
  | Exit c => (Exit c, st')
  end.
Proof. intros H. unfold bind. now rewrite H. Qed.

Lemma state_eta st :
  st = {| console := console st; sent := sent st; ticks := ticks st;
          files := files st; dirs := dirs st |}.
Proof. now destruct st. Qed.

Lemma last_log s E st :
  console_log s E st =
  (Normal tt, {| console := console st ++ [log s]; sent := sent st; ticks := ticks st;
                 files := files st; dirs := dirs st |}).
Proof. reflexivity. Qed.

Lemma lookup_written path body rest : lookup path ((path, body) :: rest) = Some body.
Proof. unfold lookup. now rewrite String.eqb_refl. Qed.

Lemma append_nonempty (a b : string) : b <> "" -> a ++ b <> "".
Proof. destruct a; [auto|discriminate]. Qed.

Lemma form_written dir name body rest remoteDir :
  plain_name name = true ->
  upload_form ((Str.join dir name, body) :: rest) remoteDir [Str.join dir name] =
  [("dir", Field remoteDir); ("file-1", text_file name body)].
Proof.
  intros Hn. unfold upload_form, file_parts, content, text_file.
  now rewrite lookup_written, (PathFacts.basename_join dir name Hn).
Qed.

(** The names [main] gives its files are plain names. *)
Lemma plain_suffixed (ts suffix : string) :
  slash_free ts = true -> slash_free suffix = true -> 3 <= String.length suffix ->
  plain_name (ts ++ suffix) = true.
Proof.
  intros Hts Hs Hlen. apply PathFacts.plain_name_spec.
  assert (Hl : 3 <= String.length (ts ++ suffix))
    by (rewrite TextFacts.length_append; lia).
  repeat split.
  - intros H. rewrite H in Hl. simpl in Hl. lia.
  - intros H. rewrite H in Hl. simpl in Hl. lia.
  - intros H. rewrite H in Hl. simpl in Hl. lia.
  - now rewrite slash_free_app, Hts, Hs.
Qed.

Lemma readable_written E path body rest :
  readable E ((path, body) :: rest) path =
  match fs_fault E (ReadFile path) with None => true | Some _ => false end.
Proof. unfold readable. rewrite lookup_written. now destruct (fs_fault E _). Qed.

Lemma slash_free_timestamp (now : Date) : slash_free (timestamp_of now) = true.
Proof.
  unfold timestamp_of, two_digits.
  rewrite !slash_free_app, slash_free_of_Z.
  now rewrite !slash_free_padStart by (reflexivity || apply slash_free_of_Z).
Qed.

Lemma upload_never_exits answer code : upload_outcome answer <> Exit code.
Proof.
  unfold upload_outcome. destruct answer as [m|r]; [discriminate|].
  destruct (ok r); [|discriminate].
  destruct (json_body r) as [p|e]; [|discriminate].
  destruct (reports_uploaded p) as [[]|e]; discriminate.
Qed.

Lemma mkdir_never_exits answer code : mkdir_outcome answer <> Exit code.
Proof.
  unfold mkdir_outcome. destruct answer as [m|r]; [discriminate|].
  destruct (ok r); [|discriminate].
  destruct (json_body r) as [p|e]; [|discriminate].
  destruct (reports_created p) as [[]|e]; try discriminate.
  destruct (reports_exists p) as [v|e]; [|discriminate].
  destruct (Js.truthy v); discriminate.
Qed.

Ltac tidy :=
  unfold after;
  cbn [console sent ticks files dirs is_normal negb fst snd firstn];
  rewrite <- ?app_assoc; cbn [app].

Ltac logs := repeat (rewrite step_log; tidy).

Ltac stopped :=
  eexists _, _, _; split; [tidy; reflexivity|eexists; reflexivity].

Lemma main_try_run E st ts :
  slash_free ts = true ->
  exists o lines fs',
    main_try ts E st =
    (o, {| console := console st ++ lines;
           sent := sent st ++ firstn (fst (progress E (sent st) ts)) (plan E ts);
           ticks := ticks st; files := fs'; dirs := dirs st |})
    /\ if snd (progress E (sent st) ts) then o = Normal tt
       else exists e, o = Throw e.
Proof.
  intros Hts.
  assert (H1 : plain_name (ts ++ ".txt") = true)
    by (apply plain_suffixed; [exact Hts|reflexivity|simpl; lia]).
  assert (H2 : plain_name (ts ++ "_file2.txt") = true)
    by (apply plain_suffixed; [exact Hts|reflexivity|simpl; lia]).
  pose proof (app_nil_r (sent st)) as Hnil.
  unfold main_try, progress, usable, plan, first_upload, directory_creation,
    second_upload.
  rewrite step_write.
  destruct (fs_fault E (WriteFile (Str.join (tempDir E) (ts ++ ".txt")))) as [m|] eqn:W1.
  { eexists _, [], _. split; [|eexists; reflexivity].
    tidy. rewrite Hnil, app_nil_r. f_equal. apply state_eta. }
  rewrite step_log. tidy.
  destruct (fs_fault E (ReadFile (Str.join (tempDir E) (ts ++ ".txt")))) as [m|] eqn:R1.
  { match goal with |- context [bind (uploadFiles ?d ?l) _ E ?s] =>
      destruct (uploadFiles_unreadable E s d l) as [e [lines Hrun]]
    end.
    { cbn. rewrite readable_written, R1. reflexivity. }
    rewrite (step_outcome _ _ _ _ _ _ Hrun).
    eexists _, _, _. split; [|eexists; reflexivity].
    tidy. rewrite !Hnil. reflexivity. }
  match goal with |- context [bind (uploadFiles ?d ?l) _ E ?s] =>
    destruct (uploadFiles_run E s d l) as [lines1 Hrun1]
  end.
  { cbn. rewrite readable_written, R1. reflexivity. }
  cbn [files sent] in Hrun1. rewrite (form_written _ _ _ _ _ H1) in Hrun1.
  rewrite (step_outcome _ _ _ _ _ _ Hrun1). clear Hrun1.
  destruct (upload_outcome (provider E (sent st) _)) as [b1|e|c] eqn:U1;
    [|stopped|now elim (upload_never_exits _ _ U1)].
  tidy. logs.
  match goal with |- context [bind (ensureRemoteDirectory ?p ?n) _ E ?s] =>
    destruct (ensureRemoteDirectory_run E s p n) as [lines2 Hrun2]
  end.
  cbn [sent] in Hrun2.
  rewrite (step_outcome _ _ _ _ _ _ Hrun2). clear Hrun2.
  destruct (mkdir_outcome (provider E (sent st ++ _) _)) as [b2|e|c] eqn:D;
    [|stopped|now elim (mkdir_never_exits _ _ D)].
  tidy. logs. rewrite step_write. tidy.
  destruct (fs_fault E (WriteFile (Str.join (tempDir E) (ts ++ "_file2.txt"))))
    as [m|] eqn:W2.
  { stopped. }
  rewrite step_log. tidy.
  destruct (fs_fault E (ReadFile (Str.join (tempDir E) (ts ++ "_file2.txt"))))
    as [m|] eqn:R2.
  { match goal with |- context [bind (uploadFiles ?d ?l) _ E ?s] =>
      destruct (uploadFiles_unreadable E s d l) as [e [lines Hrun]]
    end.
    { cbn. rewrite readable_written, R2. reflexivity. }
    rewrite (step_outcome _ _ _ _ _ _ Hrun).
    eexists _, _, _. split; [|eexists; reflexivity].
    tidy. reflexivity. }
  match goal with |- context [bind (uploadFiles ?d ?l) _ E ?s] =>
    destruct (uploadFiles_run E s d l) as [lines3 Hrun3]
  end.
  { cbn. rewrite readable_written, R2. reflexivity. }
  cbn [files sent] in Hrun3. rewrite (form_written _ _ _ _ _ H2) in Hrun3.
  rewrite (step_outcome _ _ _ _ _ _ Hrun3). clear Hrun3.
  destruct (upload_outcome (provider E (sent st ++ _) _)) as [b3|e|c] eqn:U2;
    [|stopped|now elim (upload_never_exits _ _ U2)].
  tidy. logs. rewrite last_log. tidy.
  eexists _, _, _. split; [tidy; reflexivity|reflexivity].
Qed.

Lemma step_timestamp {A} (k : string -> M A) E st :
  bind getTimestamp k E st =
  k (timestamp_of (clock E (ticks st))) E
    {| console := console st; sent := sent st; ticks := S (ticks st);
       files := files st; dirs := dirs st |}.
Proof. reflexivity. Qed.

Lemma step_mkdir {A} path (k : unit -> M A) E st :
  bind (fs_mkdir_recursive path) k E st =
  match fs_fault E (Mkdir path) with
  | Some m => (Throw (Error m), st)
  | None =>
      k tt E {| console := console st; sent := sent st; ticks := ticks st;
                files := files st;
                dirs := if existsb (String.eqb path) (dirs st) then dirs st
                        else (dirs st ++ [path])%list |}
  end.
Proof.
  unfold bind, fs_mkdir_recursive, failing. now destruct (fs_fault E _).
Qed.

Lemma progress_complete E before ts :
  snd (progress E before ts) = true -> fst (progress E before ts) = 3.
Proof.
  unfold progress.
  repeat match goal with
         | |- context [if ?b then _ else _] => destruct b; cbn [fst snd]
         end; congruence.
Qed.

Lemma main_catch_run e E st :
  main_catch e E st =
  (Exit 1, after st [error rule; error "✗ Error during upload process:";
                     error (message e); error rule] []).
Proof.
  unfold main_catch. repeat (rewrite step_error; tidy).
  unfold process_exit. tidy. now rewrite app_nil_r.
Qed.

Lemma main_finally_run E st :
  main_finally E st =
  (Normal tt,
   {| console := console st ++ [cleanup_line E]; sent := sent st; ticks := ticks st;
      files := match fs_fault E (Rm (tempDir E)) with
               | None => filter (fun f => negb (inside (tempDir E) (fst f))) (files st)
               | Some _ =>
                   filter (fun f => negb (inside (tempDir E) (fst f) && removed E (fst f)))
                          (files st)
               end;
      dirs := match fs_fault E (Rm (tempDir E)) with
              | None => filter (fun d => negb (inside (tempDir E) d)) (dirs st)
              | Some _ =>
                  filter (fun d => negb (inside (tempDir E) d && removed E d)) (dirs st)
              end |}).
Proof.
  unfold main_finally, cleanup_line, try_catch, bind, fs_rm_recursive_force.
  destruct (fs_fault E (Rm (tempDir E))); reflexivity.
Qed.

(** A run whose [try] block completes: the exit code is 0 and the
    [finally] block has run. *)
Lemma main_completes E st :
  fs_fault E (Mkdir (tempDir E)) = None ->
  let ts := timestamp_of (clock E (ticks st)) in
  snd (progress E (sent st) ts) = true ->
  exists lines fs',
    main E st =
    (Normal tt,
     {| console := console st ++ lines ++ [cleanup_line E];
        sent := sent st ++ plan E ts;
        ticks := S (ticks st);
        files := match fs_fault E (Rm (tempDir E)) with
                 | None => filter (fun f => negb (inside (tempDir E) (fst f))) fs'
                 | Some _ =>
                     filter (fun f => negb (inside (tempDir E) (fst f) && removed E (fst f)))
                            fs'
                 end;
        dirs := match fs_fault E (Rm (tempDir E)) with
                | None => filter (fun d => negb (inside (tempDir E) d)) (with_tempDir E st)
                | Some _ =>
                    filter (fun d => negb (inside (tempDir E) d && removed E d))
                           (with_tempDir E st)
                end |}).
Proof.
  intros Hmk ts Hok. unfold main.
  logs. rewrite step_timestamp. tidy. logs. rewrite step_mkdir, Hmk. tidy.
  fold ts. unfold try_catch_finally, try_catch.
  match goal with |- context [main_try ts E ?s] =>
    destruct (main_try_run E s ts (slash_free_timestamp _))
      as [o [lines [fs' [Hrun Ho]]]]
  end.
  cbn [sent] in Hrun, Ho. rewrite Hok in Ho. subst o.
  rewrite (progress_complete _ _ _ Hok) in Hrun.
  rewrite Hrun, main_finally_run. tidy.
  exists (log rule :: log "BlueHost cPanel File Upload Script" :: log rule
          :: log ("Target host: " ++ CPANEL_HOST E)
          :: log ("User: " ++ template (CPANEL_USER E))
          :: log "" :: log ("Timestamp: " ++ ts) :: log "" :: lines), fs'.
  unfold with_tempDir. reflexivity.
Qed.

(** A run whose [try] block throws: the [catch] block ends the process
    with code 1, and the [finally] block does not run. *)
Lemma main_aborts E st :
  fs_fault E (Mkdir (tempDir E)) = None ->
  let ts := timestamp_of (clock E (ticks st)) in
  snd (progress E (sent st) ts) = false ->
  exists lines fs',
    main E st =
    (Exit 1,
     {| console := console st ++ lines;
        sent := sent st ++ firstn (fst (progress E (sent st) ts)) (plan E ts);
        ticks := S (ticks st);
        files := fs';
        dirs := with_tempDir E st |}).
Proof.
  intros Hmk ts Hok. unfold main.
  logs. rewrite step_timestamp. tidy. logs. rewrite step_mkdir, Hmk. tidy.
  fold ts. unfold try_catch_finally, try_catch.
  match goal with |- context [main_try ts E ?s] =>
    destruct (main_try_run E s ts (slash_free_timestamp _))
      as [o [lines [fs' [Hrun Ho]]]]
  end.
  cbn [sent] in Hrun, Ho. rewrite Hok in Ho. destruct Ho as [e ->].
  rewrite Hrun, main_catch_run. tidy.
  eexists _, fs'. unfold with_tempDir. rewrite app_nil_r. reflexivity.
Qed.

End Run.

(** ** The payload of an answer *)

Module Classification.
Import Client.

Lemma exists_truthy (payload : json) :
  payload <> JNull ->
  text_list_or_absent (failure_reason payload) = true ->
  exists v, reports_exists payload = Done v
            /\ Js.truthy v = names_exists (failure_reason payload).
Proof.
  intros H Ht. rewrite (Probe.exists_call _ H).
  destruct (failure_reason payload) as [|[]]; try discriminate;
    eexists; split; reflexivity.
Qed.

(** [ensureRemoteDirectory] on a decoded payload it can probe. *)
Lemma mkdir_answered E st parent dirName r payload :
  let request := mkdir_request E parent dirName in
  let greeting := log ("Creating directory: " ++ dirName ++ " in " ++ parent) in
  provider E (sent st) request = Resolves r ->
  ok r = true ->
  json_body r = Done payload ->
  payload <> JNull ->
  text_list_or_absent (failure_reason payload) = true ->
  ensureRemoteDirectory parent dirName E st =
  if equals_1 (event_result payload) then
    (Normal true,
     after st [greeting; log ("✓ Directory created successfully: " ++ dirName)] [request])
  else if names_exists (failure_reason payload) then
    (Normal true,
     after st [greeting; log ("✓ Directory already exists: " ++ dirName)] [request])
  else
    (Throw (Error "Directory creation failed"),
     after st [greeting; error ("✗ Failed to create directory: " ++ dirName);
               error_json payload] [request]).
Proof.
  intros request greeting Hp Hok Hbody Hnull Hreason.
  destruct (exists_truthy payload Hnull Hreason) as [v [Hv Ht]].
  subst request greeting.
  unfold ensureRemoteDirectory, mkdir_request in *. unfold_M. cbn.
  rewrite Hp. cbn. rewrite Hok. cbn. rewrite Hbody. cbn.
  rewrite (Probe.created payload Hnull).
  destruct (equals_1 (event_result payload)); cbn; [settle_state|].
  rewrite Hv, Ht.
  destruct (names_exists (failure_reason payload)); cbn; settle_state.
Qed.

(** [ensureRemoteDirectory] on a payload with the success indicator. *)
Lemma mkdir_created E st parent dirName r payload :
  let request := mkdir_request E parent dirName in
  let greeting := log ("Creating directory: " ++ dirName ++ " in " ++ parent) in
  provider E (sent st) request = Resolves r ->
  ok r = true ->
  json_body r = Done payload ->
  equals_1 (event_result payload) = true ->
  ensureRemoteDirectory parent dirName E st =
  (Normal true,
   after st [greeting; log ("✓ Directory created successfully: " ++ dirName)] [request]).
Proof.
  intros request greeting Hp Hok Hbody Hc.
  assert (Hnull : payload <> JNull) by (intros ->; discriminate Hc).
  subst request greeting.
  unfold ensureRemoteDirectory, mkdir_request in *. unfold_M. cbn.
  rewrite Hp. cbn. rewrite Hok. cbn. rewrite Hbody. cbn.
  rewrite (Probe.created payload Hnull), Hc. cbn. settle_state.
Qed.

(** [ensureRemoteDirectory] does not return [true] on a payload without
    the success indicator whose reason does not name [exists], whatever
    else the payload is. *)
Lemma mkdir_refused E st parent dirName r payload :
  provider E (sent st) (mkdir_request E parent dirName) = Resolves r ->
  ok r = true ->
  json_body r = Done payload ->
  equals_1 (event_result payload) = false ->
  names_exists (failure_reason payload) = false ->
  fst (ensureRemoteDirectory parent dirName E st) <> Normal true.
Proof.
  intros Hp Hok Hbody Hc Hx.
  destruct (ensureRemoteDirectory_run E st parent dirName) as [lines ->].
  cbn [fst]. rewrite Hp. unfold mkdir_outcome. rewrite Hok, Hbody.
  assert (Hcases : payload = JNull \/ payload <> JNull)
    by (destruct payload; (now left) || (right; discriminate)).
  destruct Hcases as [->|Hnull]; [vm_compute; discriminate|].
  rewrite (Probe.created payload Hnull), Hc, (Probe.exists_call payload Hnull).
  unfold names_exists in Hx.
  destruct (failure_reason payload) as [|[]]; cbn; rewrite ?Hx; discriminate.
Qed.

(** Without the success indicator, [ensureRemoteDirectory] raises a
    [TypeError] on a [null] payload and on a reason that is neither absent
    nor a text nor a list. *)
Lemma mkdir_raises E st parent dirName r payload :
  provider E (sent st) (mkdir_request E parent dirName) = Resolves r ->
  ok r = true ->
  json_body r = Done payload ->
  equals_1 (event_result payload) = false ->
  payload = JNull \/ text_list_or_absent (failure_reason payload) = false ->
  exists m, fst (ensureRemoteDirectory parent dirName E st) = Throw (TypeError m).
Proof.
  intros Hp Hok Hbody Hc Hbad.
  destruct (ensureRemoteDirectory_run E st parent dirName) as [lines ->].
  cbn [fst]. rewrite Hp. unfold mkdir_outcome. rewrite Hok, Hbody.
  assert (Hcases : payload = JNull \/ payload <> JNull)
    by (destruct payload; (now left) || (right; discriminate)).
  destruct Hcases as [->|Hnull]; [vm_compute; now eexists|].
  destruct Hbad as [Hbad|Hbad]; [contradiction|].
  rewrite (Probe.created payload Hnull), Hc, (Probe.exists_call payload Hnull).
  unfold text_list_or_absent in Hbad.
  destruct (failure_reason payload) as [|[]]; try discriminate Hbad; cbn; now eexists.
Qed.

(** A reason that names [exists] is a text or a list, in a payload that is
    not [null]. *)
Lemma names_exists_probed payload :
  names_exists (failure_reason payload) = true ->
  payload <> JNull /\ text_list_or_absent (failure_reason payload) = true.
Proof.
  intros H. split.
  - intros ->. discriminate H.
  - unfold names_exists in H.
    destruct (failure_reason payload) as [|[]]; (discriminate H) || reflexivity.
Qed.

(** [uploadFiles] on a decoded payload it can probe. *)
Lemma upload_answered E st remoteDir localFiles r payload :
  let request := upload_request E (upload_form (files st) remoteDir localFiles) in
  forallb (readable E (files st)) localFiles = true ->
  provider E (sent st) request = Resolves r ->
  ok r = true ->
  json_body r = Done payload ->
  payload <> JNull ->
  exists lines,
    uploadFiles remoteDir localFiles E st =
    if equals_1 (status_flag payload) then
      (Normal true,
       after st (lines ++ [log "✓ Files uploaded successfully"]) [request])
    else
      (Throw (Error "File upload failed"),
       after st (lines ++ [error "✗ Upload failed"; error_json payload]) [request]).
Proof.
  intros request Hr Hp Hok Hbody Hnull. subst request.
  unfold uploadFiles, upload_request, upload_form in *. unfold_M. cbn.
  match goal with |- context [attach localFiles ?i ?f E ?s] =>
    destruct (attach_run E localFiles s i f) as [lines Hrun]; [exact Hr|];
    rewrite Hrun
  end.
  unfold after. cbn. rewrite app_nil_r, Hp. cbn. rewrite Hok. cbn.
  rewrite Hbody. cbn. rewrite (Probe.uploaded payload Hnull).
  eexists (_ :: lines).
  destruct (equals_1 (status_flag payload)); cbn; rewrite <- !app_assoc; reflexivity.
Qed.

(** Among texts, [names_exists] is the substring test of the claims. *)
Lemma names_exists_text (s : string) :
  names_exists (VJson (JStr s)) = true <->
  exists before after, s = before ++ "exists" ++ after.
Proof. apply StrFacts.includes_spec. Qed.

End Classification.

(** ** Forms *)

Module Form.

Lemma file_parts_length fs localFiles : forall index,
  List.length (file_parts fs index localFiles) = List.length localFiles.
Proof.
  induction localFiles as [|p rest IH]; intros index; cbn; [reflexivity|].
  now rewrite IH.
Qed.

Lemma file_parts_nth fs localFiles : forall index i path,
  nth_error localFiles i = Some path ->
  nth_error (file_parts fs index localFiles) i =
  Some ("file-" ++ Str.of_nat (index + i),
        File (content fs path) (Str.basename path) "text/plain").
Proof.
  induction localFiles as [|p rest IH]; intros index [|i] path H;
    try discriminate H; cbn in *.
  - injection H as ->. now rewrite Nat.add_0_r.
  - rewrite (IH (index + 1) i path H).
    now replace (index + 1 + i) with (index + S i) by lia.
Qed.

Lemma file_parts_not_dir fs localFiles : forall index,
  filter (fun entry => String.eqb (fst entry) "dir") (file_parts fs index localFiles) = [].
Proof.
  induction localFiles as [|p rest IH]; intros index; [reflexivity|].
  cbn [file_parts filter fst]. rewrite IH. reflexivity.
Qed.

End Form.

(** ** Answers that mean success *)

Module Idempotence.

Lemma created_not_null payload :
  equals_1 (event_result payload) = true -> payload <> JNull.
Proof. intros H ->. discriminate H. Qed.

Lemma exists_not_null payload :
  mentions_exists (failure_reason payload) = true -> payload <> JNull.
Proof. intros H ->. discriminate H. Qed.

Lemma mkdir_outcome_created answer :
  answers_created answer = true -> mkdir_outcome answer = Normal true.
Proof.
  unfold answers_created, mkdir_outcome. destruct answer as [m|r]; [discriminate|].
  destruct (ok r); [|discriminate]. cbn [andb].
  destruct (json_body r) as [payload|e]; [|discriminate].
  intros H. rewrite (Probe.created payload (created_not_null _ H)). now rewrite H.
Qed.

Lemma mkdir_outcome_exists answer :
  answers_exists answer = true -> mkdir_outcome answer = Normal true.
Proof.
  unfold answers_exists, mkdir_outcome. destruct answer as [m|r]; [discriminate|].
  destruct (ok r); [|discriminate]. cbn [andb].
  destruct (json_body r) as [payload|e]; [|discriminate].
  intros H. apply andb_true_iff in H as [Hc Hx].
  pose proof (exists_not_null _ Hx) as Hnull.
  rewrite (Probe.created payload Hnull), (Probe.exists_call payload Hnull).
  apply negb_true_iff in Hc. rewrite Hc.
  unfold mentions_exists in Hx.
  destruct (failure_reason payload) as [|[]]; try discriminate Hx.
  cbn. now rewrite Hx.
Qed.

End Idempotence.

(** ** Kinds of failure *)

Module Kinds.

Lemma created_raises payload e :
  reports_created payload = Raised e -> kind_of_reason (message e) = Application.
Proof.
  destruct payload; try (rewrite Probe.created by discriminate; discriminate).
  intros H. injection H as <-. reflexivity.
Qed.

Lemma exists_raises payload e :
  reports_exists payload = Raised e -> kind_of_reason (message e) = Application.
Proof.
  destruct payload;
    try (rewrite Probe.exists_call by discriminate;
         match goal with |- context [failure_reason ?p] =>
           destruct (failure_reason p) as [|[]]
         end; cbn; intros H; try discriminate H; injection H as <-; reflexivity).
  intros H. injection H as <-. reflexivity.
Qed.

Lemma uploaded_raises payload e :
  reports_uploaded payload = Raised e -> kind_of_reason (message e) = Application.
Proof.
  destruct payload; try (rewrite Probe.uploaded by discriminate; discriminate).
  intros H. injection H as <-. reflexivity.
Qed.

Lemma mkdir answer : told_apart answer (mkdir_outcome answer).
Proof.
  unfold told_apart, mkdir_outcome. destruct answer as [m|r]; [now split|].
  destruct (ok r); [|now split].
  intros payload ->.
  destruct (reports_created payload) as [[]|e] eqn:Hc; [now left| |].
  - destruct (reports_exists payload) as [v|e] eqn:Hx.
    + destruct (Js.truthy v); [now left|]. right. eexists. split; reflexivity.
    + right. exists e. split; [reflexivity|]. exact (exists_raises _ _ Hx).
  - right. exists e. split; [reflexivity|]. exact (created_raises _ _ Hc).
Qed.

Lemma upload answer : told_apart answer (upload_outcome answer).
Proof.
  unfold told_apart, upload_outcome. destruct answer as [m|r]; [now split|].
  destruct (ok r); [|now split].
  intros payload ->.
  destruct (reports_uploaded payload) as [[]|e] eqn:Hu; [now left| |].
  - right. eexists. split; reflexivity.
  - right. exists e. split; [reflexivity|]. exact (uploaded_raises _ _ Hu).
Qed.

End Kinds.

(** ** The process *)

Module Whole.
Import Run.

Lemma upload_outcome_accepted answer :
  answers_uploaded answer = true -> upload_outcome answer = Normal true.
Proof.
  unfold answers_uploaded, upload_outcome. destruct answer as [m|r]; [discriminate|].
  destruct (ok r); [|discriminate]. cbn [andb].
  destruct (json_body r) as [payload|e]; [|discriminate].
  intros H.
  assert (Hnull : payload <> JNull) by (intros ->; discriminate H).
  rewrite (Probe.uploaded payload Hnull). now rewrite H.
Qed.

Lemma run_main E st :
  missing_configuration E = false ->
  run E st = (exit_code (fst (main E st)), snd (main E st)).
Proof.
  intros H. unfold run, script. rewrite H. now destruct (main E st).
Qed.

Lemma tempDir_made E st : In (tempDir E) (with_tempDir E st).
Proof.
  unfold with_tempDir.
  destruct (existsb (String.eqb (tempDir E)) (dirs st)) eqn:H.
  - apply existsb_exists in H as [d [Hin Heq]].
    apply String.eqb_eq in Heq. now subst d.
  - apply in_or_app. right. now left.
Qed.

(** A run that cannot make its working directory issues no request. *)
Lemma main_without_tempDir E st m :
  fs_fault E (Mkdir (tempDir E)) = Some m ->
  exists lines,
    main E st =
    (Throw (Error m),
     {| console := console st ++ lines; sent := sent st; ticks := S (ticks st);
        files := files st; dirs := dirs st |}).
Proof.
  intros Hmk. unfold main.
  logs. rewrite step_timestamp. tidy. logs. rewrite step_mkdir, Hmk.
  eexists. reflexivity.
Qed.

(** On a run whose [try] block throws, the working directory stays. *)
Lemma aborted_run_keeps_tempDir E files0 dirs0 :
  missing_configuration E = false ->
  fs_fault E (Mkdir (tempDir E)) = None ->
  snd (progress E [] (timestamp_of (clock E 0))) = false ->
  exists st',
    run E (initial files0 dirs0) = (1%Z, st') /\ In (tempDir E) (dirs st').
Proof.
  intros Hcfg Hmk Hok.
  destruct (main_aborts E (initial files0 dirs0) Hmk Hok) as [lines [fs' Hmain]].
  rewrite (run_main _ _ Hcfg), Hmain.
  eexists. split; [reflexivity|]. apply tempDir_made.
Qed.

(** On a run whose [try] block completes, the [finally] block removes the
    working directory, or prints a warning when it cannot; the exit code is
    0 either way. *)
Lemma completed_run_cleans_up E files0 dirs0 :
  missing_configuration E = false ->
  fs_fault E (Mkdir (tempDir E)) = None ->
  snd (progress E [] (timestamp_of (clock E 0))) = true ->
  exists st',
    run E (initial files0 dirs0) = (0%Z, st')
    /\ In (cleanup_line E) (console st')
    /\ (fs_fault E (Rm (tempDir E)) = None -> ~ In (tempDir E) (dirs st')).
Proof.
  intros Hcfg Hmk Hok.
  destruct (main_completes E (initial files0 dirs0) Hmk Hok) as [lines [fs' Hmain]].
  rewrite (run_main _ _ Hcfg), Hmain.
  eexists. split; [reflexivity|]. cbn [snd console dirs]. split.
  - apply in_or_app. right. apply in_or_app. right. now left.
  - intros Hrm. rewrite Hrm. intros Hin. apply filter_In in Hin as [_ Hin].
    unfold inside in Hin. now rewrite String.eqb_refl in Hin.
Qed.

(** Without its configuration the module stops before [main]. *)
Lemma run_unconfigured E st :
  missing_configuration E = true ->
  run E st =
  (1%Z, after st [error "ERROR: Missing required environment variables";
                  error "Please set USERNAME, SUBDOMAINNAME, and BLUEHOSTAPI"] []).
Proof.
  intros H. unfold run, script. rewrite H.
  repeat (rewrite step_error; tidy). unfold process_exit, exit_code.
  now rewrite app_nil_r.
Qed.

(** The three ways a run ends, by what fails first. *)
Lemma run_cases E st :
  let ts := timestamp_of (clock E (ticks st)) in
  (missing_configuration E = true
   /\ run E st =
      (1%Z, after st [error "ERROR: Missing required environment variables";
                      error "Please set USERNAME, SUBDOMAINNAME, and BLUEHOSTAPI"] []))
  \/ (missing_configuration E = false
      /\ exists m lines,
           fs_fault E (Mkdir (tempDir E)) = Some m
           /\ run E st =
              (1%Z,
               {| console := console st ++ lines; sent := sent st; ticks := S (ticks st);
                  files := files st; dirs := dirs st |}))
  \/ (missing_configuration E = false
      /\ fs_fault E (Mkdir (tempDir E)) = None
      /\ snd (progress E (sent st) ts) = false
      /\ exists lines fs',
           run E st =
           (1%Z,
            {| console := console st ++ lines;
               sent := sent st ++ firstn (fst (progress E (sent st) ts)) (plan E ts);
               ticks := S (ticks st);
               files := fs';
               dirs := with_tempDir E st |}))
  \/ (missing_configuration E = false
      /\ fs_fault E (Mkdir (tempDir E)) = None
      /\ snd (progress E (sent st) ts) = true
      /\ exists lines fs',
           run E st =
           (0%Z,
            {| console := console st ++ lines ++ [cleanup_line E];
               sent := sent st ++ plan E ts;
               ticks := S (ticks st);
               files := match fs_fault E (Rm (tempDir E)) with
                        | None => filter (fun f => negb (inside (tempDir E) (fst f))) fs'
                        | Some _ =>
                            filter (fun f => negb (inside (tempDir E) (fst f)
                                                   && removed E (fst f))) fs'
                        end;
               dirs := match fs_fault E (Rm (tempDir E)) with
                       | None =>
                           filter (fun d => negb (inside (tempDir E) d)) (with_tempDir E st)
                       | Some _ =>
                           filter (fun d => negb (inside (tempDir E) d && removed E d))
                                  (with_tempDir E st)
                       end |})).
Proof.
  intros ts.
  destruct (missing_configuration E) eqn:Hcfg.
  { left. split; [reflexivity|]. now apply run_unconfigured. }
  right. destruct (fs_fault E (Mkdir (tempDir E))) as [m|] eqn:Hmk.
  { left. split; [reflexivity|].
    destruct (main_without_tempDir E st m Hmk) as [lines Hmain].
    exists m, lines. split; [reflexivity|].
    now rewrite (run_main _ _ Hcfg), Hmain. }
  right. destruct (snd (progress E (sent st) ts)) eqn:Hok.
  - right. repeat split.
    destruct (main_completes E st Hmk Hok) as [lines [fs' Hmain]].
    exists lines, fs'. now rewrite (run_main _ _ Hcfg), Hmain.
  - left. repeat split.
    destruct (main_aborts E st Hmk Hok) as [lines [fs' Hmain]].
    exists lines, fs'. now rewrite (run_main _ _ Hcfg), Hmain.
Qed.

(** The requests of a run are an initial part of the plan, and the clock
    is read once at most. *)
Lemma run_prefix E st :
  exists n,
    sent (snd (run E st))
    = (sent st ++ firstn n (plan E (timestamp_of (clock E (ticks st)))))%list
    /\ ticks (snd (run E st)) <= S (ticks st).
Proof.
  destruct (run_cases E st)
    as [[_ Hrun]|[(_ & m & lines & _ & Hrun)|[(_ & _ & _ & lines & fs' & Hrun)
         |(_ & _ & _ & lines & fs' & Hrun)]]];
    rewrite Hrun; cbn [snd sent ticks after].
  - exists 0. split; [reflexivity|lia].
  - exists 0. split; [now rewrite app_nil_r|lia].
  - eexists. split; [reflexivity|lia].
  - exists 3. split; [reflexivity|lia].
Qed.

(** A run with its configuration and its working directory. *)
Lemma run_working E st :
  missing_configuration E = false ->
  fs_fault E (Mkdir (tempDir E)) = None ->
  let ts := timestamp_of (clock E (ticks st)) in
  exists st',
    run E st = ((if snd (progress E (sent st) ts) then 0 else 1)%Z, st')
    /\ sent st' = (sent st ++ firstn (fst (progress E (sent st) ts)) (plan E ts))%list.
Proof.
  intros Hcfg Hmk ts.
  destruct (run_cases E st)
    as [[H _]|[(_ & m & lines & H & _)|[(_ & _ & Hok & lines & fs' & Hrun)
         |(_ & _ & Hok & lines & fs' & Hrun)]]];
    [congruence|congruence| |]; fold ts in Hok; rewrite Hok, Hrun.
  - eexists. split; reflexivity.
  - eexists. split; [reflexivity|]. cbn [sent].
    now rewrite (progress_complete _ _ _ Hok).
Qed.

(** A run that exits with code 0 has completed. *)
Lemma run_zero E st :
  fst (run E st) = 0%Z ->
  exists lines fs',
    run E st =
    (0%Z,
     {| console := console st ++ lines ++ [cleanup_line E];
        sent := sent st ++ plan E (timestamp_of (clock E (ticks st)));
        ticks := S (ticks st);
        files := match fs_fault E (Rm (tempDir E)) with
                 | None => filter (fun f => negb (inside (tempDir E) (fst f))) fs'
                 | Some _ =>
                     filter (fun f => negb (inside (tempDir E) (fst f)
                                            && removed E (fst f))) fs'
                 end;
        dirs := match fs_fault E (Rm (tempDir E)) with
                | None =>
                    filter (fun d => negb (inside (tempDir E) d)) (with_tempDir E st)
                | Some _ =>
                    filter (fun d => negb (inside (tempDir E) d && removed E d))
                           (with_tempDir E st)
                end |}).
Proof.
  intros Hzero.
  destruct (run_cases E st)
    as [[_ Hrun]|[(_ & m & lines & _ & Hrun)|[(_ & _ & _ & lines & fs' & Hrun)
         |(_ & _ & _ & lines & fs' & Hrun)]]];
    try (rewrite Hrun in Hzero; discriminate Hzero).
  now exists lines, fs'.
Qed.

(** [uploadFiles] returns normally on the answers that carry the flag. *)
Lemma upload_outcome_normal answer :
  is_normal (upload_outcome answer) = answers_uploaded answer.
Proof.
  unfold answers_uploaded, upload_outcome. destruct answer as [m|r]; [reflexivity|].
  destruct (ok r); [|reflexivity]. cbn [andb].
  destruct (json_body r) as [payload|e]; [|reflexivity].
  assert (Hcases : payload = JNull \/ payload <> JNull)
    by (destruct payload; (now left) || (right; discriminate)).
  destruct Hcases as [->|Hnull]; [reflexivity|].
  rewrite (Probe.uploaded payload Hnull).
  now destruct (equals_1 (status_flag payload)).
Qed.

Lemma mkdir_outcome_true answer :
  is_normal (mkdir_outcome answer) = true <-> mkdir_outcome answer = Normal true.
Proof.
  split; [|now intros ->].
  unfold mkdir_outcome. destruct answer as [m|r]; [discriminate|].
  destruct (ok r); [|discriminate].
  destruct (json_body r) as [payload|e]; [|discriminate].
  destruct (reports_created payload) as [[]|e]; try discriminate; [reflexivity|].
  destruct (reports_exists payload) as [v|e]; [|discriminate].
  now destruct (Js.truthy v).
Qed.

(** [ensureRemoteDirectory] returns [true] in every state with the same
    requests behind it, or in none. *)
Lemma mkdir_returns E requests parent dirName :
  (forall st, sent st = requests ->
     fst (ensureRemoteDirectory parent dirName E st) = Normal true)
  <-> mkdir_outcome (provider E requests (mkdir_request E parent dirName)) = Normal true.
Proof.
  split.
  - intros H.
    specialize (H {| console := []; sent := requests; ticks := 0; files := [];
                     dirs := [] |} eq_refl).
    match type of H with fst (ensureRemoteDirectory _ _ _ ?s) = _ =>
      destruct (Client.ensureRemoteDirectory_run E s parent dirName) as [lines Hrun]
    end.
    now rewrite Hrun in H.
  - intros H st Hs.
    destruct (Client.ensureRemoteDirectory_run E st parent dirName) as [lines ->].
    cbn [fst]. now rewrite Hs.
Qed.

(** How far a run gets when the local file system works. *)
Lemma progress_working E before ts :
  (forall op, fs_fault E op = None) ->
  progress E before ts =
  if negb (answers_uploaded (provider E before (first_upload E ts))) then (1, false)
  else if negb (is_normal (mkdir_outcome
                  (provider E (before ++ [first_upload E ts]) (directory_creation E ts))))
  then (2, false)
  else if negb (answers_uploaded
                  (provider E (before ++ [first_upload E ts; directory_creation E ts])
                     (second_upload E ts)))
  then (3, false)
  else (3, true).
Proof.
  intros Hfs. unfold progress, usable. rewrite !Hfs. cbn [negb].
  now rewrite !upload_outcome_normal.
Qed.

End Whole.

(** * The claims *)

(** ** C1: createDirectory classifies the payload *)

(** C1 (as amended).  For every decoded payload of a 2xx answer,
    [ensureRemoteDirectory] returns [true] exactly when
    [cpanelresult.event.result] equals 1 (checked first: the directory is
    then reported as created) or else the reason names [exists] (it is then
    reported as already there).  With neither, a payload that is not [null]
    and whose [cpanelresult.data[0].reason] is absent, [null], a text or a
    list makes it throw [Directory creation failed] after printing the
    payload; without the success indicator, every other payload makes it
    raise a [TypeError]. *)
Theorem ensureRemoteDirectory_classification E st parent dirName r payload :
  let request := mkdir_request E parent dirName in
  let result := ensureRemoteDirectory parent dirName E st in
  let created := equals_1 (event_result payload) in
  let already := names_exists (failure_reason payload) in
  let greeting := log ("Creating directory: " ++ dirName ++ " in " ++ parent) in
  provider E (sent st) request = Resolves r ->
  ok r = true ->
  json_body r = Done payload ->
  (fst result = Normal true <-> created = true \/ already = true)
  /\ (created = true ->
      console (snd result) =
      (console st ++ [greeting; log ("✓ Directory created successfully: " ++ dirName)])%list)
  /\ (created = false -> already = true ->
      console (snd result) =
      (console st ++ [greeting; log ("✓ Directory already exists: " ++ dirName)])%list)
  /\ (created = false -> already = false ->
      payload <> JNull ->
      text_list_or_absent (failure_reason payload) = true ->
      fst result = Throw (Error "Directory creation failed")
      /\ console (snd result) =
         (console st ++ [greeting; error ("✗ Failed to create directory: " ++ dirName);
                         error_json payload])%list)
  /\ (created = false ->
      payload = JNull \/ text_list_or_absent (failure_reason payload) = false ->
      exists m, fst result = Throw (TypeError m)).
Proof.
  intros request result created already greeting Hp Hok Hbody.
  subst result created already greeting request.
  assert (Hcreated : equals_1 (event_result payload) = true ->
                     ensureRemoteDirectory parent dirName E st =
                     (Normal true,
                      after st [log ("Creating directory: " ++ dirName ++ " in " ++ parent);
                                log ("✓ Directory created successfully: " ++ dirName)]
                               [mkdir_request E parent dirName]))
    by exact (Classification.mkdir_created E st parent dirName r payload Hp Hok Hbody).
  assert (Hprobed : payload <> JNull ->
                    text_list_or_absent (failure_reason payload) = true ->
                    equals_1 (event_result payload) = false ->
                    ensureRemoteDirectory parent dirName E st =
                    if names_exists (failure_reason payload) then
                      (Normal true,
                       after st [log ("Creating directory: " ++ dirName ++ " in " ++ parent);
                                 log ("✓ Directory already exists: " ++ dirName)]
                                [mkdir_request E parent dirName])
                    else
                      (Throw (Error "Directory creation failed"),
                       after st [log ("Creating directory: " ++ dirName ++ " in " ++ parent);
                                 error ("✗ Failed to create directory: " ++ dirName);
                                 error_json payload]
                                [mkdir_request E parent dirName])).
  { intros Hnull Hreason Hc.
    rewrite (Classification.mkdir_answered E st parent dirName r payload
               Hp Hok Hbody Hnull Hreason).
    now rewrite Hc. }
  split; [|split; [|split; [|split]]].
  - split.
    + intros Htrue.
      destruct (equals_1 (event_result payload)) eqn:Hc; [now left|].
      destruct (names_exists (failure_reason payload)) eqn:Hx; [now right|].
      now elim (Classification.mkdir_refused E st parent dirName r payload
                  Hp Hok Hbody Hc Hx).
    + intros [Hc|Hx].
      * now rewrite (Hcreated Hc).
      * destruct (equals_1 (event_result payload)) eqn:Hc;
          [now rewrite (Hcreated eq_refl)|].
        destruct (Classification.names_exists_probed payload Hx) as [Hnull Hreason].
        now rewrite (Hprobed Hnull Hreason eq_refl), Hx.
  - intros Hc. now rewrite (Hcreated Hc).
  - intros Hc Hx.
    destruct (Classification.names_exists_probed payload Hx) as [Hnull Hreason].
    now rewrite (Hprobed Hnull Hreason Hc), Hx.
  - intros Hc Hx Hnull Hreason.
    rewrite (Hprobed Hnull Hreason Hc), Hx. now split.
  - intros Hc Hbad.
    exact (Classification.mkdir_raises E st parent dirName r payload
             Hp Hok Hbody Hc Hbad).
Qed.

Lemma ensureRemoteDirectory_classification_witness :
  let E := Demo.env Demo.fileman in
  let st := initial [] [] in
  let payload :=
    JObj [("cpanelresult",
           JObj [("event", JObj [("result", JNum 1)]);
                 ("data", JArr [JObj [("reason", JNum 0)]])])] in
  let r := {| status := 200; statusText := "OK"; text := None;
              json_body := Done payload |} in
  let E' := Demo.env (fun _ _ => Resolves r) in
  provider E' (sent st) (mkdir_request E' "/home2/acct/public_html" "site") = Resolves r
  /\ text_list_or_absent (failure_reason payload) = false
  /\ (fst (ensureRemoteDirectory "/home2/acct/public_html" "site" E' st) = Normal true
      <-> equals_1 (event_result payload) = true
          \/ names_exists (failure_reason payload) = true).
Proof.
  intros E st payload r E'. split; [reflexivity|]. split; [reflexivity|].
  apply (ensureRemoteDirectory_classification E' st "/home2/acct/public_html" "site"
           r payload);
    reflexivity.
Defined.

(** C1 (as stated) fails.  A [null] payload and a payload whose reason is a
    number satisfy neither condition, yet the call raises a [TypeError]
    instead of printing the payload and throwing
    [Directory creation failed]; and a reason that is the list
    [["exists"]], not a text, is a success. *)
Lemma ensureRemoteDirectory_unexpected_payloads :
  let run_with payload :=
    ensureRemoteDirectory "/home2/acct/public_html" "site"
      (Demo.env (Demo.answering payload)) (initial [] []) in
  let numeric :=
    JObj [("cpanelresult", JObj [("data", JArr [JObj [("reason", JNum 404)]])])] in
  let listed :=
    JObj [("cpanelresult", JObj [("data", JArr [JObj [("reason", JArr [JStr "exists"])]])])] in
  (equals_1 (event_result JNull) = false
   /\ mentions_exists (failure_reason JNull) = false
   /\ fst (run_with JNull)
      = Throw (TypeError "Cannot read properties of null (reading 'cpanelresult')")
   /\ ~ In (error_json JNull) (console (snd (run_with JNull))))
  /\ (equals_1 (event_result numeric) = false
      /\ mentions_exists (failure_reason numeric) = false
      /\ fst (run_with numeric) = Throw (TypeError (includes_callee ++ " is not a function"))
      /\ ~ In (error_json numeric) (console (snd (run_with numeric))))
  /\ (equals_1 (event_result listed) = false
      /\ mentions_exists (failure_reason listed) = false
      /\ fst (run_with listed) = Normal true).
Proof.
  cbv zeta.
  repeat split; try reflexivity; not_printed.
Qed.

(** ** C2: The form of an upload *)

(** C2.  For every ordered sequence of local files (readable ones; the
    empty sequence included) and every relative directory, the request
    [uploadFiles] issues carries a form with exactly one [dir] field, whose
    value is the directory as given, followed by one file part per file, in
    input order, the i-th keyed [file-i] and carrying the base name and the
    bytes of the i-th file and the type [text/plain]. *)
Theorem uploadFiles_form E st remoteDir localFiles :
  forallb (readable E (files st)) localFiles = true ->
  exists form,
    sent (snd (uploadFiles remoteDir localFiles E st)) =
    (sent st ++ [POST (upload_url E) (headers E) form])%list
    /\ nth_error form 0 = Some ("dir", Field remoteDir)
    /\ filter (fun entry => String.eqb (fst entry) "dir") form = [("dir", Field remoteDir)]
    /\ List.length form = S (List.length localFiles)
    /\ forall i path,
         nth_error localFiles i = Some path ->
         nth_error form (S i) =
         Some ("file-" ++ Str.of_nat (S i),
               File (content (files st) path) (Str.basename path) "text/plain").
Proof.
  intros Hr.
  destruct (Client.uploadFiles_run E st remoteDir localFiles Hr) as [lines ->].
  exists (upload_form (files st) remoteDir localFiles).
  split; [reflexivity|]. split; [reflexivity|].
  unfold upload_form. split; [|split].
  - cbn [filter fst]. cbn. now rewrite Form.file_parts_not_dir.
  - cbn [List.length]. now rewrite Form.file_parts_length.
  - intros i path H. cbn [nth_error].
    now rewrite (Form.file_parts_nth _ _ 1 i path H).
Qed.

Lemma uploadFiles_form_witness :
  let E := Demo.env Demo.unavailable in
  let st := initial [("/srv/site/index.html", "<p>hi</p>"); ("/srv/notes.txt", "n")] [] in
  let localFiles := ["/srv/notes.txt"; "/srv/site/index.html"] in
  forallb (readable E (files st)) localFiles = true
  /\ exists form,
       sent (snd (uploadFiles "public_html/docs" localFiles E st)) =
       (sent st ++ [POST (upload_url E) (headers E) form])%list
       /\ nth_error form 0 = Some ("dir", Field "public_html/docs")
       /\ filter (fun entry => String.eqb (fst entry) "dir") form
          = [("dir", Field "public_html/docs")]
       /\ List.length form = S (List.length localFiles)
       /\ forall i path,
            nth_error localFiles i = Some path ->
            nth_error form (S i) =
            Some ("file-" ++ Str.of_nat (S i),
                  File (content (files st) path) (Str.basename path) "text/plain").
Proof.
  intros E st localFiles. split; [reflexivity|].
  apply (uploadFiles_form E st "public_html/docs" localFiles). reflexivity.
Defined.

(** ** C3: Creating a directory twice *)

(** C3.  When the provider answers the first mkdir request for a directory
    with the success indicator and the identical second request with a
    failure whose reason text contains [exists], [ensureRemoteDirectory]
    called twice in a row with the same arguments returns [true] both
    times. *)
Theorem ensureRemoteDirectory_twice E st parentAbsolutePath dirName :
  let request := mkdir_request E parentAbsolutePath dirName in
  answers_created (provider E (sent st) request) = true ->
  answers_exists (provider E (sent st ++ [request]) request) = true ->
  exists st1 st2,
    ensureRemoteDirectory parentAbsolutePath dirName E st = (Normal true, st1)
    /\ ensureRemoteDirectory parentAbsolutePath dirName E st1 = (Normal true, st2)
    /\ sent st2 = (sent st ++ [request; request])%list.
Proof.
  intros request Hfirst Hsecond. subst request.
  destruct (Client.ensureRemoteDirectory_run E st parentAbsolutePath dirName)
    as [lines1 H1].
  rewrite (Idempotence.mkdir_outcome_created _ Hfirst) in H1.
  destruct (Client.ensureRemoteDirectory_run E
              (after st lines1 [mkdir_request E parentAbsolutePath dirName])
              parentAbsolutePath dirName) as [lines2 H2].
  cbn [after sent] in H2.
  rewrite (Idempotence.mkdir_outcome_exists _ Hsecond) in H2.
  eexists _, _. split; [exact H1|]. split; [exact H2|].
  cbn. now rewrite <- app_assoc.
Qed.

Lemma ensureRemoteDirectory_twice_witness :
  let E := Demo.env Demo.fileman in
  let st := initial [] [] in
  let request := mkdir_request E "/home2/acct/public_html" "site" in
  answers_created (provider E (sent st) request) = true
  /\ answers_exists (provider E (sent st ++ [request]) request) = true
  /\ exists st1 st2,
       ensureRemoteDirectory "/home2/acct/public_html" "site" E st = (Normal true, st1)
       /\ ensureRemoteDirectory "/home2/acct/public_html" "site" E st1 = (Normal true, st2)
       /\ sent st2 = (sent st ++ [request; request])%list.
Proof.
  intros E st request. split; [reflexivity|]. split; [reflexivity|].
  apply (ensureRemoteDirectory_twice E st "/home2/acct/public_html" "site");
    reflexivity.
Defined.

(** ** C4: A failed directory creation stops the run *)

(** C4.  In every run in which the first upload succeeds and the
    directory-creation step fails ([ensureRemoteDirectory] throws, so the
    reason is not one that names [exists]), the upload into the new
    directory is never attempted and the process exits with code 1. *)
Theorem main_stops_after_failed_directory_creation E files0 dirs0 :
  let ts := timestamp_of (clock E 0) in
  missing_configuration E = false ->
  fs_fault E (Mkdir (tempDir E)) = None ->
  usable E (Str.join (tempDir E) (ts ++ ".txt")) = true ->
  answers_uploaded (provider E [] (first_upload E ts)) = true ->
  (forall st, sent st = [first_upload E ts] ->
     exists e,
       fst (ensureRemoteDirectory (PUBLIC_HTML_PATH E) (ts ++ "_test_dir") E st) = Throw e) ->
  exists st',
    run E (initial files0 dirs0) = (1%Z, st')
    /\ sent st' = [first_upload E ts; directory_creation E ts]
    /\ ~ In (second_upload E ts) (sent st').
Proof.
  intros ts Hcfg Hmk Hfile Hup Hfails.
  assert (Hdir : is_normal (mkdir_outcome
                   (provider E [first_upload E ts] (directory_creation E ts))) = false).
  { destruct (Hfails (after (initial [] []) [] [first_upload E ts]) eq_refl) as [e He].
    destruct (Client.ensureRemoteDirectory_run E
                (after (initial [] []) [] [first_upload E ts])
                (PUBLIC_HTML_PATH E) (ts ++ "_test_dir")) as [lines Hrun].
    rewrite Hrun in He. cbn [fst] in He. unfold directory_creation.
    cbn [after initial sent app] in He. now rewrite He. }
  assert (Hp : progress E [] ts = (2, false)).
  { unfold progress. fold ts. rewrite Hfile.
    rewrite (Whole.upload_outcome_accepted _ Hup). cbn [negb is_normal app].
    now rewrite Hdir. }
  destruct (Run.main_aborts E (initial files0 dirs0) Hmk) as [lines [fs' Hmain]].
  { cbn [initial ticks sent]. fold ts. now rewrite Hp. }
  cbn [initial ticks sent] in Hmain. fold ts in Hmain. rewrite Hp in Hmain.
  rewrite (Whole.run_main _ _ Hcfg), Hmain.
  eexists. split; [reflexivity|]. split; [reflexivity|].
  cbn. intros [H|[H|[]]]; [|discriminate H].
  apply (f_equal operation_of) in H. cbn in H. injection H as H.
  apply (f_equal String.length) in H. revert H.
  unfold String.append at 1. cbn [String.length]. discriminate.
Qed.

Lemma main_stops_after_failed_directory_creation_witness :
  let denied :=
    JObj [("cpanelresult",
           JObj [("event", JObj [("result", JNum 0)]);
                 ("data", JArr [JObj [("result", JNum 0);
                                      ("reason", JStr "Permission denied")]])])] in
  let E := Demo.env (Demo.answering denied) in
  let ts := timestamp_of (clock E 0) in
  (forall st, sent st = [first_upload E ts] ->
     exists e,
       fst (ensureRemoteDirectory (PUBLIC_HTML_PATH E) (ts ++ "_test_dir") E st) = Throw e)
  /\ exists st',
       run E (initial [] []) = (1%Z, st')
       /\ sent st' = [first_upload E ts; directory_creation E ts]
       /\ ~ In (second_upload E ts) (sent st').
Proof.
  intros denied E ts.
  assert (Hfails : forall st, sent st = [first_upload E ts] ->
            exists e,
              fst (ensureRemoteDirectory (PUBLIC_HTML_PATH E) (ts ++ "_test_dir") E st)
              = Throw e).
  { intros st Hsent.
    destruct (Client.ensureRemoteDirectory_run E st
                (PUBLIC_HTML_PATH E) (ts ++ "_test_dir")) as [lines ->].
    rewrite Hsent. eexists. vm_compute. reflexivity. }
  split; [exact Hfails|].
  apply (main_stops_after_failed_directory_creation E [] []);
    [reflexivity|reflexivity|reflexivity|reflexivity|exact Hfails].
Defined.

(** ** C5: The successful run *)



(** ** C6: Kinds of failure *)



(** ** C7: uploadFiles classifies the payload *)

(** C7 (as amended).  For every decoded payload of a 2xx answer other than
    [null], [uploadFiles] returns [true] exactly when the top-level [status]
    of the payload equals 1; for any other value or shape it throws
    [File upload failed] after printing the payload. *)
Theorem uploadFiles_classification E st remoteDir localFiles r payload :
  let request := upload_request E (upload_form (files st) remoteDir localFiles) in
  let result := uploadFiles remoteDir localFiles E st in
  forallb (readable E (files st)) localFiles = true ->
  provider E (sent st) request = Resolves r ->
  ok r = true ->
  json_body r = Done payload ->
  payload <> JNull ->
  (fst result = Normal true <-> equals_1 (status_flag payload) = true)
  /\ (equals_1 (status_flag payload) = false ->
      fst result = Throw (Error "File upload failed")
      /\ exists lines,
           console (snd result) =
           (console st ++ lines ++ [error "✗ Upload failed"; error_json payload])%list).
Proof.
  intros request result Hr Hp Hok Hbody Hnull. subst request result.
  destruct (Classification.upload_answered E st remoteDir localFiles r payload
              Hr Hp Hok Hbody Hnull) as [lines ->].
  destruct (equals_1 (status_flag payload)); cbn [fst snd after console].
  - repeat split; auto; discriminate.
  - repeat split; try discriminate. now exists lines.
Qed.

Lemma uploadFiles_classification_witness :
  let E := Demo.env Demo.fileman in
  let st := initial [("/tmp/a.txt", "A")] [] in
  forallb (readable E (files st)) ["/tmp/a.txt"] = true
  /\ (fst (uploadFiles "public_html" ["/tmp/a.txt"] E st) = Normal true
      <-> equals_1 (status_flag Demo.uploaded) = true).
Proof.
  intros E st. split; [reflexivity|].
  apply (uploadFiles_classification E st "public_html" ["/tmp/a.txt"]
           {| status := 200; statusText := "OK"; text := None;
              json_body := Done Demo.uploaded |}
           Demo.uploaded);
    [reflexivity|reflexivity|reflexivity|reflexivity|discriminate].
Defined.

(** C7 (as stated) fails: a 2xx answer whose body is the JSON value [null]
    makes [uploadFiles] raise a [TypeError] on reading [status]; the payload
    is not printed and [File upload failed] is not thrown. *)
Lemma uploadFiles_null_payload :
  let E := Demo.env (fun _ _ => Demo.answer JNull) in
  let st := initial [("/tmp/a.txt", "A")] [] in
  let result := uploadFiles "public_html" ["/tmp/a.txt"] E st in
  equals_1 (status_flag JNull) = false
  /\ fst result = Throw (TypeError "Cannot read properties of null (reading 'status')")
  /\ fst result <> Throw (Error "File upload failed")
  /\ ~ In (error_json JNull) (console (snd result)).
Proof.
  cbv zeta. split; [reflexivity|]. split; [reflexivity|]. split; [discriminate|].
  not_printed.
Qed.

(** ** C8: Cleanup of the working directory *)

(** C8: the code leaves the working directory behind on a failed run.  With
    a provider that answers 503, the first upload throws, the [catch] block
    calls [process.exit(1)], and the process ends before the [finally]
    block runs: the directory and the file written into it are still
    there, and neither line of the cleanup is printed. *)
Theorem failed_run_skips_cleanup :
  let E := Demo.env Demo.unavailable in
  let result := run E (initial [] []) in
  fst result = 1%Z
  /\ dirs (snd result) = [tempDir E]
  /\ files (snd result) = [(Str.join (tempDir E) "20240105093007.txt", "hello world")]
  /\ ~ In (log "Cleaned up temporary files") (console (snd result))
  /\ ~ In (warn "Warning: Could not clean up temporary files") (console (snd result)).
Proof.
  cbv zeta. repeat split; try reflexivity; not_printed.
Qed.

(** ** C9: The order of the calls *)

(** C9 (as amended).  In every run the client is called in the order
    [uploadFiles] (into [public_html]), [ensureRemoteDirectory] (for the
    timestamped directory), [uploadFiles] (into that directory).  The
    requests issued are an initial part of this plan, every name in it
    comes from one timestamp, and the clock is read once at most.  With
    the configuration present and the local file system working, the first
    upload is always issued, the directory is created exactly when that
    upload was accepted, and the second upload is issued exactly when the
    directory creation returned [true]: three calls when no step fails,
    and the exit code is 0 exactly when the last one is accepted too. *)
Theorem run_follows_plan E files0 dirs0 :
  let ts := timestamp_of (clock E 0) in
  let result := run E (initial files0 dirs0) in
  let st' := snd result in
  let order :=
    [uploadFilesTo (Some "public_html");
     createDirectory;
     uploadFilesTo (Some ("public_html/" ++ ts ++ "_test_dir"))] in
  let first := answers_uploaded (provider E [] (first_upload E ts)) in
  let created :=
    forall st, sent st = [first_upload E ts] ->
      fst (ensureRemoteDirectory (PUBLIC_HTML_PATH E) (ts ++ "_test_dir") E st)
      = Normal true in
  let second :=
    answers_uploaded
      (provider E [first_upload E ts; directory_creation E ts] (second_upload E ts)) in
  (exists n, sent st' = firstn n (plan E ts)
             /\ map operation_of (sent st') = firstn n order)
  /\ ticks st' <= 1
  /\ (missing_configuration E = false ->
      (forall op, fs_fault E op = None) ->
      (first = false -> sent st' = [first_upload E ts] /\ fst result = 1%Z)
      /\ (first = true -> ~ created ->
          sent st' = [first_upload E ts; directory_creation E ts] /\ fst result = 1%Z)
      /\ (first = true -> created ->
          sent st' = plan E ts
          /\ map operation_of (sent st') = order
          /\ (fst result = 0%Z <-> second = true))).
Proof.
  intros ts result st' order first created second.
  assert (Horder : map operation_of (plan E ts) = order) by reflexivity.
  destruct (Whole.run_prefix E (initial files0 dirs0)) as [n [Hsent Hticks]].
  cbn [initial sent ticks app] in Hsent, Hticks. fold ts result st' in Hsent, Hticks.
  split; [|split; [exact Hticks|]].
  { exists n. split; [exact Hsent|]. now rewrite Hsent, <- firstn_map, Horder. }
  intros Hcfg Hfs.
  destruct (Whole.run_working E (initial files0 dirs0) Hcfg (Hfs _)) as [st1 [Hrun Hs1]].
  cbn [initial sent ticks app] in Hrun, Hs1. fold ts in Hrun, Hs1.
  rewrite (Whole.progress_working E [] ts Hfs) in Hrun, Hs1.
  cbn [app] in Hrun, Hs1. fold first second in Hrun, Hs1. fold result in Hrun.
  assert (Hst : st' = st1) by (subst st'; now rewrite Hrun).
  assert (Hcode : fst result = fst (result)) by reflexivity.
  rewrite Hrun in Hcode at 2. cbn [fst] in Hcode.
  rewrite Hst. clear Hst Hrun Hsent Hticks.
  pose proof (Whole.mkdir_returns E [first_upload E ts] (PUBLIC_HTML_PATH E)
                (ts ++ "_test_dir")) as Hcreated.
  fold created in Hcreated.
  change (mkdir_request E (PUBLIC_HTML_PATH E) (ts ++ "_test_dir"))
    with (directory_creation E ts) in Hcreated.
  rewrite <- Whole.mkdir_outcome_true in Hcreated.
  split; [|split].
  - intros Hfirst. rewrite Hfirst in Hs1, Hcode. cbn [negb fst snd] in Hs1, Hcode.
    now split.
  - intros Hfirst Hnot. rewrite Hfirst in Hs1, Hcode. cbn [negb] in Hs1, Hcode.
    destruct (is_normal (mkdir_outcome _)) eqn:Hd;
      [now elim Hnot; apply Hcreated|].
    cbn [negb fst snd] in Hs1, Hcode. now split.
  - intros Hfirst Hyes. rewrite Hfirst in Hs1, Hcode. cbn [negb] in Hs1, Hcode.
    apply Hcreated in Hyes. rewrite Hyes in Hs1, Hcode. cbn [negb] in Hs1, Hcode.
    destruct second; cbn [negb fst snd] in Hs1, Hcode.
    + split; [exact Hs1|]. split; [now rewrite Hs1|]. now rewrite Hcode.
    + split; [exact Hs1|]. split; [now rewrite Hs1|]. rewrite Hcode.
      split; discriminate.
Qed.

Lemma run_follows_plan_witness :
  let E := Demo.env Demo.fileman in
  let result := run E (initial [] []) in
  sent (snd result) = plan E "20240105093007"
  /\ map operation_of (sent (snd result)) =
     [uploadFilesTo (Some "public_html");
      createDirectory;
      uploadFilesTo (Some "public_html/20240105093007_test_dir")]
  /\ (fst result = 0%Z <->
      answers_uploaded
        (provider E [first_upload E "20240105093007"; directory_creation E "20240105093007"]
           (second_upload E "20240105093007")) = true).
Proof.
  intros E result.
  refine (proj2 (proj2 (proj2 (proj2 (run_follows_plan E [] [])) eq_refl
                          (fun _ => eq_refl))) eq_refl _).
  intros st Hs.
  destruct (Client.ensureRemoteDirectory_run E st (PUBLIC_HTML_PATH E)
              ("20240105093007" ++ "_test_dir")) as [lines Hrun].
  change (timestamp_of (clock E 0)) with "20240105093007".
  rewrite Hrun. cbn [fst]. rewrite Hs. reflexivity.
Defined.

(** C9 (as stated) fails: a fully successful run calls [uploadFiles] first,
    and makes three calls, not four; no directory is created before the
    first upload. *)
Lemma successful_run_operations :
  let E := Demo.env Demo.fileman in
  let calls := map operation_of (sent (snd (run E (initial [] [])))) in
  fst (run E (initial [] [])) = 0%Z
  /\ calls = [uploadFilesTo (Some "public_html");
              createDirectory;
              uploadFilesTo (Some "public_html/20240105093007_test_dir")]
  /\ hd_error calls <> Some createDirectory
  /\ List.length calls <> 4.
Proof. cbv zeta. repeat split; try reflexivity; vm_compute; discriminate. Qed.

(** ** C10: Totality of the classification *)

(** C10 (as amended).  For every decoded payload of a 2xx answer other than
    [null], with fields missing, [null] or of another type at any depth,
    provided, in [ensureRemoteDirectory], that [cpanelresult.event.result]
    equals 1 or the reason it then reaches is absent, [null], a text or a
    list: the classification of both operations is total.  Each returns
    [true] or reaches its failure branch, which prints the payload and
    throws the failure of the operation; probing raises nothing. *)
Theorem classification_total E st r payload :
  ok r = true ->
  json_body r = Done payload ->
  payload <> JNull ->
  (forall parent dirName,
      provider E (sent st) (mkdir_request E parent dirName) = Resolves r ->
      equals_1 (event_result payload) = true
      \/ text_list_or_absent (failure_reason payload) = true ->
      let result := ensureRemoteDirectory parent dirName E st in
      fst result = Normal true
      \/ (fst result = Throw (Error "Directory creation failed")
          /\ In (error_json payload) (console (snd result))))
  /\ (forall remoteDir localFiles,
      forallb (readable E (files st)) localFiles = true ->
      provider E (sent st)
        (upload_request E (upload_form (files st) remoteDir localFiles)) = Resolves r ->
      let result := uploadFiles remoteDir localFiles E st in
      fst result = Normal true
      \/ (fst result = Throw (Error "File upload failed")
          /\ In (error_json payload) (console (snd result)))).
Proof.
  intros Hok Hbody Hnull. split.
  - intros parent dirName Hp [Hc|Hreason] result; subst result.
    { left.
      now rewrite (Classification.mkdir_created E st parent dirName r payload
                     Hp Hok Hbody Hc). }
    rewrite (Classification.mkdir_answered E st parent dirName r payload
               Hp Hok Hbody Hnull Hreason).
    destruct (equals_1 (event_result payload)); [now left|].
    destruct (names_exists (failure_reason payload)); [now left|].
    right. split; [reflexivity|]. cbn. apply in_or_app. right. cbn. auto.
  - intros remoteDir localFiles Hr Hp result. subst result.
    destruct (Classification.upload_answered E st remoteDir localFiles r payload
                Hr Hp Hok Hbody Hnull) as [lines ->].
    destruct (equals_1 (status_flag payload)); [now left|].
    right. split; [reflexivity|]. cbn.
    apply in_or_app. right. apply in_or_app. right. cbn. auto.
Qed.

Lemma classification_total_witness :
  let payload :=
    JObj [("cpanelresult",
           JObj [("event", JObj [("result", JNum 1)]);
                 ("data", JArr [JObj [("reason", JBool false)]])])] in
  let other := JObj [("cpanelresult", JStr "maintenance")] in
  let run_with payload :=
    ensureRemoteDirectory "/home2/acct/public_html" "site"
      (Demo.env (Demo.answering payload)) (initial [] []) in
  text_list_or_absent (failure_reason payload) = false
  /\ fst (run_with payload) = Normal true
  /\ (fst (run_with other) = Normal true
      \/ (fst (run_with other) = Throw (Error "Directory creation failed")
          /\ In (error_json other) (console (snd (run_with other))))).
Proof.
  intros payload other run_with. split; [reflexivity|]. split; [reflexivity|].
  refine (proj1 (classification_total (Demo.env (Demo.answering other)) (initial [] [])
            {| status := 200; statusText := "OK"; text := None;
               json_body := Done other |}
            other _ _ _)
            "/home2/acct/public_html" "site" _ _);
    [reflexivity|reflexivity|discriminate|reflexivity|right; reflexivity].
Defined.

(** C10 (as stated) fails.  Probing raises a [TypeError], and the failure
    branch is not reached, when the reason is a boolean or an object, and,
    in both operations, when the payload itself is [null]. *)
Lemma probing_raises :
  let mkdir payload :=
    fst (ensureRemoteDirectory "/home2/acct/public_html" "site"
           (Demo.env (Demo.answering payload)) (initial [] [])) in
  let upload payload :=
    fst (uploadFiles "public_html" []
           (Demo.env (fun _ _ => Demo.answer payload)) (initial [] [])) in
  let reason_is j := JObj [("cpanelresult", JObj [("data", JArr [JObj [("reason", j)]])])] in
  mkdir (reason_is (JBool false))
  = Throw (TypeError (includes_callee ++ " is not a function"))
  /\ mkdir (reason_is (JObj []))
     = Throw (TypeError (includes_callee ++ " is not a function"))
  /\ mkdir JNull
     = Throw (TypeError "Cannot read properties of null (reading 'cpanelresult')")
  /\ upload JNull
     = Throw (TypeError "Cannot read properties of null (reading 'status')").
Proof. cbv zeta. repeat split; reflexivity. Qed.

(** * Further lemmas *)

(** ** Timestamps *)

Module Stamp.
Import TextFacts.

Lemma of_Z_inj a b : Str.of_Z a = Str.of_Z b -> a = b.
Proof.
  unfold Str.of_Z. intros H.
  apply (f_equal NilEmpty.int_of_string) in H. rewrite !NilEmpty.isi in H.
  injection H as H. now apply DecimalZ.to_int_inj.
Qed.

Lemma of_nat_inj a b : Str.of_nat a = Str.of_nat b -> a = b.
Proof.
  unfold Str.of_nat. intros H.
  apply (f_equal NilEmpty.uint_of_string) in H. rewrite !NilEmpty.usu in H.
  injection H as H. now apply DecimalNat.Unsigned.to_uint_inj.
Qed.

Lemma in_below bound n : (0 <= n < bound)%Z -> In n (below bound).
Proof.
  intros H. unfold below. apply in_map_iff. exists (Z.to_nat n). split; [lia|].
  apply in_seq. lia.
Qed.

Lemma two_digits_shape n :
  (0 <= n <= 99)%Z ->
  String.length (two_digits n) = 2 /\ digits_only (two_digits n) = true.
Proof.
  intros H.
  assert (Hall : forallb (fun k => Nat.eqb (String.length (two_digits k)) 2
                                   && digits_only (two_digits k)) (below 100%Z) = true)
    by (vm_compute; reflexivity).
  rewrite forallb_forall in Hall.
  specialize (Hall n (in_below 100%Z n ltac:(lia))).
  apply andb_true_iff in Hall as [Hl Hd]. apply Nat.eqb_eq in Hl. now split.
Qed.

Lemma two_digits_inj a b :
  (0 <= a <= 99)%Z -> (0 <= b <= 99)%Z -> two_digits a = two_digits b -> a = b.
Proof.
  intros Ha Hb H.
  assert (Hall : forallb (fun x => forallb (fun y =>
                    implb (String.eqb (two_digits x) (two_digits y)) (Z.eqb x y))
                    (below 100%Z)) (below 100%Z) = true)
    by (vm_compute; reflexivity).
  rewrite forallb_forall in Hall.
  specialize (Hall a (in_below 100%Z a ltac:(lia))).
  rewrite forallb_forall in Hall.
  specialize (Hall b (in_below 100%Z b ltac:(lia))).
  rewrite H, String.eqb_refl in Hall. cbn [implb] in Hall. now apply Z.eqb_eq.
Qed.

Lemma four_digit_year y :
  (1000 <= y <= 9999)%Z -> String.length (Str.of_Z y) = 4.
Proof.
  intros H.
  assert (Hall : forallb (fun k => Nat.eqb (String.length (Str.of_Z k)) 4)
                   (map (fun k => (1000 + k)%Z) (below 9000%Z)) = true)
    by (vm_compute; reflexivity).
  rewrite forallb_forall in Hall. apply Nat.eqb_eq, Hall.
  apply in_map_iff. exists (y - 1000)%Z. split; [lia|]. apply in_below. lia.
Qed.

Lemma digits_append a b : digits_only (a ++ b) = digits_only a && digits_only b.
Proof.
  induction a as [|c a IH]; [reflexivity|].
  change (String c a ++ b) with (String c (a ++ b)).
  cbn [digits_only]. now rewrite IH, andb_assoc.
Qed.

Lemma digits_uint d : digits_only (NilEmpty.string_of_uint d) = true.
Proof. induction d; cbn; auto. Qed.

Lemma digits_of_Z y : (0 <= y)%Z -> digits_only (Str.of_Z y) = true.
Proof.
  intros H. unfold Str.of_Z. destruct y as [|p|p]; [reflexivity| |lia].
  cbn. apply digits_uint.
Qed.

End Stamp.

(** ** The loop of [uploadFiles] *)

Module Attach.

Lemma attach_exact E localFiles : forall st index form,
  forallb (readable E (files st)) localFiles = true ->
  attach localFiles index form E st =
  (Normal (form ++ file_parts (files st) index localFiles)%list,
   after st (map adding localFiles) []).
Proof.
  induction localFiles as [|p rest IH]; intros st index form Hr.
  - cbn. unfold after. rewrite !app_nil_r. now destruct st.
  - cbn in Hr. apply andb_true_iff in Hr as [Hp Hrest].
    unfold readable in Hp. cbn [attach file_parts]. unfold_M.
    unfold content at 1.
    destruct (fs_fault E (ReadFile p)); [discriminate|].
    destruct (lookup p (files st)) as [c|] eqn:Hl; [|discriminate].
    match goal with |- context [attach rest ?i ?f E ?s] =>
      rewrite (IH s i f Hrest)
    end.
    f_equal.
    + unfold form_append. now rewrite <- app_assoc.
    + unfold after, adding. cbn. now rewrite <- app_assoc.
Qed.

Lemma attach_first_unreadable E good bad rest : forall st index form,
  forallb (readable E (files st)) good = true ->
  readable E (files st) bad = false ->
  attach (good ++ bad :: rest) index form E st =
  (Throw (Error (read_error E bad)), after st (map adding good) []).
Proof.
  induction good as [|p good IH]; intros st index form Hr Hbad.
  - cbn [app attach map]. unfold_M. unfold readable in Hbad. unfold read_error.
    unfold after. rewrite !app_nil_r.
    destruct (fs_fault E (ReadFile bad)) as [m|]; [now destruct st|].
    destruct (lookup bad (files st)); [discriminate|]. now destruct st.
  - cbn in Hr. apply andb_true_iff in Hr as [Hp Hgood].
    unfold readable in Hp. cbn [app attach map]. unfold_M.
    destruct (fs_fault E (ReadFile p)); [discriminate|].
    destruct (lookup p (files st)) as [c|] eqn:Hl; [|discriminate].
    match goal with |- context [attach _ ?i ?f E ?s] =>
      rewrite (IH s i f Hgood Hbad)
    end.
    f_equal. unfold after, adding. cbn. now rewrite <- app_assoc.
Qed.

Lemma file_keys fs localFiles : forall index,
  map fst (file_parts fs index localFiles) =
  map (fun i => "file-" ++ Str.of_nat i) (seq index (List.length localFiles)).
Proof.
  induction localFiles as [|p rest IH]; intros index; [reflexivity|].
  cbn [file_parts map List.length seq fst]. f_equal.
  rewrite IH. now replace (index + 1) with (S index) by lia.
Qed.

Lemma file_key_inj a b :
  "file-" ++ Str.of_nat a = "file-" ++ Str.of_nat b -> a = b.
Proof.
  intros H. apply Stamp.of_nat_inj.
  exact (proj2 (TextFacts.append_inj _ _ _ _ eq_refl H)).
Qed.

Lemma map_injective_NoDup {A B} (f : A -> B) (l : list A) :
  (forall a b, f a = f b -> a = b) -> NoDup l -> NoDup (map f l).
Proof.
  intros Hf Hl. induction Hl as [|a l Hin _ IH]; cbn; constructor; [|exact IH].
  intros H. apply in_map_iff in H as [b [Hb Hinb]].
  apply Hf in Hb. now subst b.
Qed.

Lemma keys_distinct fs remoteDir localFiles :
  NoDup (map fst (upload_form fs remoteDir localFiles)).
Proof.
  unfold upload_form. cbn [map fst]. rewrite file_keys. constructor.
  - intros Hin. apply in_map_iff in Hin as [i [Hi _]]. discriminate Hi.
  - apply map_injective_NoDup; [|apply seq_NoDup].
    intros a b. apply file_key_inj.
Qed.

End Attach.

(** ** Relations every step of the script keeps *)

Module Invariant.

Section Relation.

Variable R : state -> state -> Prop.
Hypothesis R_trans : forall a b c, R a b -> R b c -> R a c.
Hypothesis R_quiet : forall st st',
  sent st' = sent st -> files st' = files st -> dirs st' = dirs st -> R st st'.

Lemma bind_kept {A B} (m : M A) (k : A -> M B) E :
  (forall st, R st (snd (m E st))) ->
  (forall a st, R st (snd (k a E st))) ->
  forall st, R st (snd (bind m k E st)).
Proof.
  intros Hm Hk st. unfold bind. specialize (Hm st).
  destruct (m E st) as [[a|e|c] st1]; cbn [snd] in *; [|exact Hm|exact Hm].
  eapply R_trans; [exact Hm|apply Hk].
Qed.

Lemma try_catch_kept {A} (body : M A) handler E :
  (forall st, R st (snd (body E st))) ->
  (forall e st, R st (snd (handler e E st))) ->
  forall st, R st (snd (try_catch body handler E st)).
Proof.
  intros Hb Hh st. unfold try_catch. specialize (Hb st).
  destruct (body E st) as [[a|e|c] st1]; cbn [snd] in *; [exact Hb| |exact Hb].
  eapply R_trans; [exact Hb|apply Hh].
Qed.

Lemma try_catch_finally_kept {A} (body : M A) handler cleanup E :
  (forall st, R st (snd (body E st))) ->
  (forall e st, R st (snd (handler e E st))) ->
  (forall st, R st (snd (cleanup E st))) ->
  forall st, R st (snd (try_catch_finally body handler cleanup E st)).
Proof.
  intros Hb Hh Hc st. unfold try_catch_finally.
  pose proof (try_catch_kept body handler E Hb Hh st) as Ht.
  destruct (try_catch body handler E st) as [[a|e|c] st1]; cbn [snd] in *;
    [| |exact Ht];
    (eapply R_trans; [exact Ht|]); specialize (Hc st1);
    destruct (cleanup E st1) as [[u|e'|c'] st2]; exact Hc.
Qed.

Lemma print_kept l E : forall st, R st (snd (print l E st)).
Proof. intros st. now apply R_quiet. Qed.

Lemma log_kept s E : forall st, R st (snd (console_log s E st)).
Proof. apply print_kept. Qed.

Lemma error_kept s E : forall st, R st (snd (console_error s E st)).
Proof. apply print_kept. Qed.

Lemma warn_kept s E : forall st, R st (snd (console_warn s E st)).
Proof. apply print_kept. Qed.

Lemma exit_kept {A} c E : forall st, R st (snd (@process_exit A c E st)).
Proof. intros st. now apply R_quiet. Qed.

Lemma timestamp_kept E : forall st, R st (snd (getTimestamp E st)).
Proof. intros st. now apply R_quiet. Qed.

(** The timestamp that [main] binds has no slash in it. *)
Lemma timestamp_bind_kept {B} (k : string -> M B) E :
  (forall ts, slash_free ts = true -> forall st, R st (snd (k ts E st))) ->
  forall st, R st (snd (bind getTimestamp k E st)).
Proof.
  intros H st. rewrite Run.step_timestamp.
  eapply R_trans; [|apply H, Run.slash_free_timestamp].
  now apply R_quiet.
Qed.

Ltac kept_step others :=
  cbv beta zeta;
  let st := fresh "st" in
  intro st;
  lazymatch goal with
  | |- _ _ (snd (bind getTimestamp _ _ _)) =>
      revert st; apply timestamp_bind_kept; intros ? ?
  | |- _ _ (snd (bind _ _ _ _)) => revert st; apply bind_kept; [|intros ?]
  | |- _ _ (snd (console_log _ _ _)) => revert st; apply log_kept
  | |- _ _ (snd (console_error _ _ _)) => revert st; apply error_kept
  | |- _ _ (snd (console_warn _ _ _)) => revert st; apply warn_kept
  | |- _ _ (snd (process_exit _ _ _)) => revert st; apply exit_kept
  | |- _ _ (snd (getTimestamp _ _)) => revert st; apply timestamp_kept
  | |- _ => revert st; others
  end.

Lemma main_catch_kept e E : forall st, R st (snd (main_catch e E st)).
Proof. unfold main_catch. repeat kept_step fail. Qed.

(** The script keeps a relation that its calls of the client and of the
    file system keep. *)
Lemma script_kept E :
  (forall remoteDir localFiles st, R st (snd (uploadFiles remoteDir localFiles E st))) ->
  (forall parent dirName st, R st (snd (ensureRemoteDirectory parent dirName E st))) ->
  (forall name body st,
      plain_name name = true ->
      R st (snd (fs_writeFile (Str.join (tempDir E) name) body E st))) ->
  (forall st, R st (snd (fs_mkdir_recursive (tempDir E) E st))) ->
  (forall st, R st (snd (fs_rm_recursive_force (tempDir E) E st))) ->
  forall st, R st (snd (script E st)).
Proof.
  intros Hup Hmk Hw Hd Hrm.
  assert (Htry : forall ts, slash_free ts = true ->
                 forall st, R st (snd (main_try ts E st))).
  { intros ts Hts. unfold main_try.
    repeat kept_step ltac:(first
      [ apply Hup | apply Hmk
      | intros ?; apply Hw; apply Run.plain_suffixed;
        [exact Hts|reflexivity|simpl; lia] ]). }
  assert (Hfin : forall st, R st (snd (main_finally E st))).
  { unfold main_finally. cbv beta. apply try_catch_kept.
    - repeat kept_step ltac:(apply Hrm).
    - intros e. apply warn_kept. }
  unfold script. cbv beta. destruct (missing_configuration E).
  - repeat kept_step fail.
  - unfold main.
    repeat kept_step ltac:(first
      [ apply Hd
      | apply try_catch_finally_kept;
        [ apply Htry; assumption
        | intros ?; apply main_catch_kept
        | apply Hfin ] ]).
Qed.

End Relation.

End Invariant.

(** ** Local files outside the working directory *)

Module Outside.




Lemma lookup_cons path p c fs :
  lookup path ((p, c) :: fs) = if String.eqb p path then Some c else lookup path fs.
Proof. reflexivity. Qed.


Lemma lookup_filter_none keep path fs :
  (forall f, fst f = path -> keep f = false) ->
  lookup path (filter keep fs) = None.
Proof.
  intros Hk. induction fs as [|[p c] fs IH]; [reflexivity|].
  cbn [filter]. destruct (keep (p, c)) eqn:K; [|exact IH].
  rewrite lookup_cons, IH. destruct (String.eqb p path) eqn:Heq; [|reflexivity].
  apply String.eqb_eq in Heq. rewrite (Hk (p, c) Heq) in K. discriminate.
Qed.








Lemma run_state E st : snd (run E st) = snd (script E st).
Proof. unfold run. now destruct (script E st). Qed.



End Outside.

(** ** The requests of a run *)

Module Sends.

Lemma sends_trans E a b c :
  issues_authorised E a b -> issues_authorised E b c -> issues_authorised E a c.
Proof.
  intros [r1 [S1 A1]] [r2 [S2 A2]]. exists (r1 ++ r2)%list. split.
  - now rewrite S2, S1, app_assoc.
  - apply Forall_app. now split.
Qed.

Lemma silent E st st' : sent st' = sent st -> issues_authorised E st st'.
Proof. intros H. exists []. split; [now rewrite app_nil_r|constructor]. Qed.

Lemma sends_quiet E st st' :
  sent st' = sent st -> files st' = files st -> dirs st' = dirs st ->
  issues_authorised E st st'.
Proof. intros H _ _. now apply silent. Qed.

Lemma host_prefix E path :
  prefix ("https://" ++ template (process_env E "SUBDOMAINNAME")
            ++ ".mybluehost.me:2083/") (CPANEL_HOST E ++ String "/" path) = true.
Proof.
  apply StrFacts.prefix_append. exists path. unfold CPANEL_HOST.
  rewrite !TextFacts.append_assoc. reflexivity.
Qed.

Lemma upload_sends remoteDir localFiles E :
  forall st, issues_authorised E st (snd (uploadFiles remoteDir localFiles E st)).
Proof.
  intros st. destruct (forallb (readable E (files st)) localFiles) eqn:Hr.
  - destruct (Client.uploadFiles_run E st remoteDir localFiles Hr) as [lines ->].
    eexists. split; [reflexivity|]. constructor; [|constructor].
    split; [reflexivity|]. apply host_prefix.
  - destruct (Client.uploadFiles_unreadable E st remoteDir localFiles Hr)
      as [e [lines ->]].
    apply silent. cbn. apply app_nil_r.
Qed.

Lemma ensure_sends parent dirName E :
  forall st, issues_authorised E st (snd (ensureRemoteDirectory parent dirName E st)).
Proof.
  intros st. destruct (Client.ensureRemoteDirectory_run E st parent dirName) as [lines ->].
  eexists. split; [reflexivity|]. constructor; [|constructor].
  split; [reflexivity|]. apply host_prefix.
Qed.

Lemma run_sends E st : issues_authorised E st (snd (run E st)).
Proof.
  rewrite Outside.run_state. revert st.
  apply (Invariant.script_kept _ (sends_trans E) (sends_quiet E)); intros.
  - apply upload_sends.
  - apply ensure_sends.
  - apply silent. unfold fs_writeFile, failing. now destruct (fs_fault E _).
  - apply silent. unfold fs_mkdir_recursive, failing. now destruct (fs_fault E _).
  - apply silent. unfold fs_rm_recursive_force. now destruct (fs_fault E _).
Qed.

End Sends.

(** ** The blocks of [main] *)

Module Blocks.
Import Run.

Lemma main_prepared E st :
  fs_fault E (Mkdir (tempDir E)) = None ->
  main E st =
  try_catch_finally (main_try (timestamp_of (clock E (ticks st)))) main_catch main_finally
    E (prepared E st).
Proof.
  intros Hmk. unfold main.
  logs. rewrite step_timestamp. tidy. logs. rewrite step_mkdir, Hmk. tidy.
  reflexivity.
Qed.

Lemma main_unprepared E st m :
  fs_fault E (Mkdir (tempDir E)) = Some m ->
  main E st =
  (Throw (Error m),
   {| console := console st ++ header E (timestamp_of (clock E (ticks st)));
      sent := sent st; ticks := S (ticks st); files := files st; dirs := dirs st |}).
Proof.
  intros Hmk. unfold main.
  logs. rewrite step_timestamp. tidy. logs. rewrite step_mkdir, Hmk.
  reflexivity.
Qed.

End Blocks.

(** * Further properties *)

(** ** loadEnv *)

(** X1.  When the [.env] file can be read, the last line that assigns a
    variable decides its value, whatever the process inherited for it.
    The lines are those of the decoded file, and what a line assigns is
    what [process.env] keeps of it: the name and the value up to their
    first NUL. *)
Theorem loadEnv_last_assignment_wins E st envContent before line later name text :
  fs_fault E (ReadFile (dotenv_path E)) = None ->
  lookup (dotenv_path E) (files st) = Some envContent ->
  lines_of envContent = (before ++ line :: later)%list ->
  assignment line = Some (name, text) ->
  Forall (leaves name) later ->
  fst (loadEnv E st) name = Some text.
Proof.
  intros Hf Hl Hlines Ha Hlater.
  rewrite (Dotenv.loadEnv_read E st envContent Hf Hl). cbn [fst]. rewrite Hlines.
  now apply Dotenv.last_line_wins.
Qed.

Lemma loadEnv_last_assignment_wins_witness :
  let E := Demo.env Demo.fileman in
  let second := "USERNAME = amy" ++ String "000" "bel " in
  let envContent := "USERNAME=bob" ++ String "010" second ++ String "010" "# end" in
  let st := initial [(dotenv_path E, envContent)] [] in
  process_env E "USERNAME" = Some "acct"
  /\ lines_of envContent = ["USERNAME=bob"; second; "# end"]
  /\ fst (loadEnv E st) "USERNAME" = Some "amy".
Proof.
  intros E second envContent st. split; [reflexivity|]. split; [reflexivity|].
  apply (loadEnv_last_assignment_wins E st envContent
           ["USERNAME=bob"] second ["# end"] "USERNAME" "amy");
    try reflexivity.
  constructor; [|constructor]. intros text H. discriminate H.
Defined.

(** X2.  A variable that no line of the decoded file assigns keeps the
    value the process inherited, and so does every variable when the file
    cannot be read.  A line assigns the name [process.env] keeps of its
    key, the part before the first NUL. *)
Theorem loadEnv_unassigned_inherited E st name :
  (forall envContent,
      fs_fault E (ReadFile (dotenv_path E)) = None ->
      lookup (dotenv_path E) (files st) = Some envContent ->
      Forall (leaves name) (lines_of envContent)) ->
  fst (loadEnv E st) name = process_env E name.
Proof.
  intros H. unfold loadEnv, fs_readFile, failing.
  destruct (fs_fault E (ReadFile (dotenv_path E))) as [m|] eqn:Hf; [reflexivity|].
  destruct (lookup (dotenv_path E) (files st)) as [envContent|] eqn:Hl; [|reflexivity].
  cbn [fst]. apply Dotenv.lines_leave. now apply H.
Qed.

Lemma loadEnv_unassigned_inherited_witness :
  let E := Demo.env Demo.fileman in
  let st := initial [(dotenv_path E, "HOME_BASE=/home3")] [] in
  (forall envContent,
      fs_fault E (ReadFile (dotenv_path E)) = None ->
      lookup (dotenv_path E) (files st) = Some envContent ->
      Forall (leaves "USERNAME") (lines_of envContent))
  /\ fst (loadEnv E st) "USERNAME" = Some "acct".
Proof.
  intros E st.
  assert (H : forall envContent,
             fs_fault E (ReadFile (dotenv_path E)) = None ->
             lookup (dotenv_path E) (files st) = Some envContent ->
             Forall (leaves "USERNAME") (lines_of envContent)).
  { intros envContent _ Hl. vm_compute in Hl. injection Hl as <-.
    constructor; [|constructor]. intros text Ha. discriminate Ha. }
  split; [exact H|]. exact (loadEnv_unassigned_inherited E st "USERNAME" H).
Defined.

(** X3.  On a line whose trimmed text is [key=rest], with a key that is not
    empty, holds no [=] and does not start a comment, the trimmed [rest],
    everything after the first [=] with further [=] included, is assigned
    to the trimmed key.  Unless the line starts with NUL, [process.env]
    then holds the value under the name, each up to its first NUL; with no
    NUL in the line these are the trimmed key and the trimmed [rest]
    themselves. *)
Theorem loadEnv_line_value_after_first_equals vars line key rest :
  Text.trim line = key ++ "=" ++ rest ->
  free_of "=" key = true ->
  key <> "" ->
  prefix "#" key = false ->
  loadEnv_line vars line = assign vars (Text.trim key) (Text.trim rest)
  /\ (prefix (String "000" "") (Text.trim line) = false ->
      loadEnv_line vars line (c_string (Text.trim key))
      = Some (c_string (Text.trim rest)))
  /\ (free_of "000" (Text.trim line) = true ->
      loadEnv_line vars line (Text.trim key) = Some (Text.trim rest)).
Proof.
  intros Ht Hfree Hkey Hcomment.
  pose proof (Dotenv.line_assigns vars line key rest Ht Hfree Hkey Hcomment) as Hrun.
  assert (Hcut : prefix (String "000" "") (Text.trim line) = false ->
                 loadEnv_line vars line (c_string (Text.trim key))
                 = Some (c_string (Text.trim rest))).
  { intros Hnul. rewrite Hrun, Dotenv.assign_update.
    - apply Dotenv.update_same.
    - exact (Dotenv.key_c_string line key _ Ht Hkey Hnul). }
  split; [exact Hrun|]. split; [exact Hcut|].
  intros Hclean.
  assert (Hparts : free_of "000" key = true /\ free_of "000" rest = true).
  { rewrite Ht, !TextFacts.free_of_append in Hclean.
    apply andb_true_iff in Hclean as [Hk Hr].
    apply andb_true_iff in Hr as [_ Hr]. now split. }
  destruct Hparts as [Hk Hr].
  rewrite <- (Dotenv.c_string_free _ (TextFacts.free_of_trim _ _ Hk)) at 1.
  rewrite <- (Dotenv.c_string_free _ (TextFacts.free_of_trim _ _ Hr)) at 1.
  apply Hcut, Dotenv.free_not_prefixed; [exact Hclean|].
  rewrite Ht. destruct key; [now elim Hkey|discriminate].
Qed.

Lemma loadEnv_line_value_after_first_equals_witness :
  let line := "  BLUEHOSTAPI = a=b==  " in
  Text.trim line = "BLUEHOSTAPI " ++ "=" ++ " a=b=="
  /\ free_of "000" (Text.trim line) = true
  /\ loadEnv_line (fun _ => None) line "BLUEHOSTAPI" = Some "a=b==".
Proof.
  intros line. split; [reflexivity|]. split; [reflexivity|].
  apply (loadEnv_line_value_after_first_equals (fun _ => None) line
           "BLUEHOSTAPI " " a=b==");
    [reflexivity|reflexivity|discriminate|reflexivity|reflexivity].
Defined.

(** X4.  A line is skipped, leaving [process.env] as it is, when its
    trimmed text is empty, starts with [#], starts with [=], or holds no
    [=]. *)
Theorem loadEnv_line_skips vars line :
  Text.trim line = ""
  \/ prefix "#" (Text.trim line) = true
  \/ prefix "=" (Text.trim line) = true
  \/ free_of "=" (Text.trim line) = true ->
  loadEnv_line vars line = vars.
Proof.
  intros H. unfold loadEnv_line.
  destruct (String.eqb_spec (Text.trim line) "") as [E|E]; [reflexivity|].
  destruct (prefix "#" (Text.trim line)) eqn:Hc; [reflexivity|]. cbn [negb andb].
  destruct H as [H|[H|[H|H]]]; [contradiction|discriminate H| |].
  - apply StrFacts.prefix_append in H as [rest ->].
    change ("=" ++ rest) with ("" ++ String "=" rest).
    now rewrite (TextFacts.split_first "=" "" rest eq_refl).
  - rewrite (TextFacts.split_free "=" _ H). cbn [List.length Nat.eqb negb].
    now rewrite andb_false_r.
Qed.

Lemma loadEnv_line_skips_witness :
  Text.trim "   # USERNAME=bob" <> ""
  /\ loadEnv_line (fun _ => None) "   # USERNAME=bob" = (fun _ => None)
  /\ loadEnv_line (fun _ => None) "USERNAME" = (fun _ => None)
  /\ loadEnv_line (fun _ => None) "=bob" = (fun _ => None).
Proof.
  split; [discriminate|]. split; [|split].
  - apply loadEnv_line_skips. right. left. reflexivity.
  - apply loadEnv_line_skips. right. right. right. reflexivity.
  - apply loadEnv_line_skips. right. right. left. reflexivity.
Defined.

(** X5.  Every other line that does not start with NUL sets exactly one
    variable, whose name is not empty, and touches no other. *)
Theorem loadEnv_line_assigns line :
  Text.trim line <> "" ->
  prefix "#" (Text.trim line) = false ->
  prefix "=" (Text.trim line) = false ->
  free_of "=" (Text.trim line) = false ->
  prefix (String "000" "") (Text.trim line) = false ->
  exists name text,
    name <> ""
    /\ forall vars other,
         loadEnv_line vars line other
         = if String.eqb other name then Some text else vars other.
Proof.
  intros Hne Hc He Hf Hnul.
  destruct (TextFacts.split_cases "=" (Text.trim line)) as [H|[key [rest [Ht Hk]]]];
    [congruence|].
  assert (Hkey : key <> "").
  { intros ->. rewrite Ht in He.
    change ("" ++ String "=" rest) with (String "=" rest) in He.
    simpl in He. rewrite StrFacts.prefix_nil in He. discriminate He. }
  pose proof (Dotenv.key_c_string line key _ Ht Hkey Hnul) as Hname.
  exists (c_string (Text.trim key)), (c_string (Text.trim rest)).
  split; [exact Hname|]. intros vars other.
  rewrite (Dotenv.line_assigns vars line key rest); [|exact Ht|exact Hk|exact Hkey|].
  - now rewrite (Dotenv.assign_update _ _ _ Hname).
  - rewrite Ht, (Dotenv.prefix_first "#" key _ Hkey) in Hc. exact Hc.
Qed.

Lemma loadEnv_line_assigns_witness :
  Text.trim " HOME_BASE=/home3 " <> ""
  /\ free_of "=" (Text.trim " HOME_BASE=/home3 ") = false
  /\ exists name text,
       name <> ""
       /\ forall vars other,
            loadEnv_line vars " HOME_BASE=/home3 " other
            = if String.eqb other name then Some text else vars other.
Proof.
  split; [discriminate|]. split; [reflexivity|].
  apply (loadEnv_line_assigns " HOME_BASE=/home3 "); [discriminate|reflexivity..].
Defined.

(** X6.  A carriage return at the end of a line changes nothing: a line
    of a file with CRLF line ends does what the same line does in a file
    with LF line ends. *)
Theorem loadEnv_line_ignores_carriage_return vars line :
  loadEnv_line vars (line ++ String "013" "") = loadEnv_line vars line.
Proof.
  unfold loadEnv_line. now rewrite (TextFacts.trim_snoc line "013" eq_refl).
Qed.

(** X7.  When the [.env] file is missing or cannot be read, the module runs
    on the inherited variables, after one line that says so; the failure
    to read is not an error of the process. *)
Theorem program_without_dotenv E st :
  readable E (files st) (dotenv_path E) = false ->
  program E st =
  run E (after st [log "No .env file found, using environment variables"] []).
Proof.
  intros H. unfold program, loadEnv, fs_readFile, failing, readable in *.
  destruct (fs_fault E (ReadFile (dotenv_path E))) as [m|].
  - rewrite Dotenv.loaded_same. unfold after, console_log, print. cbn [snd].
    now rewrite app_nil_r.
  - destruct (lookup (dotenv_path E) (files st)); [discriminate H|].
    rewrite Dotenv.loaded_same. unfold after, console_log, print. cbn [snd].
    now rewrite app_nil_r.
Qed.

Lemma program_without_dotenv_witness :
  let E := Demo.env Demo.fileman in
  readable E (files (initial [] [])) (dotenv_path E) = false
  /\ program E (initial [] []) =
     run E (after (initial [] [])
              [log "No .env file found, using environment variables"] []).
Proof.
  intros E. split; [reflexivity|]. apply (program_without_dotenv E). reflexivity.
Defined.

(** X8.  The file overrides the inherited variables also with nothing: when
    the last line that assigns one of the three required variables leaves
    it empty in [process.env] (its value is empty, or starts with NUL), the
    process stops with code 1 before any request, even if it inherited a
    value for it. *)
Theorem program_stops_on_emptied_variable E st envContent before line later name :
  fs_fault E (ReadFile (dotenv_path E)) = None ->
  lookup (dotenv_path E) (files st) = Some envContent ->
  lines_of envContent = (before ++ line :: later)%list ->
  assignment line = Some (name, "") ->
  Forall (leaves name) later ->
  In name ["USERNAME"; "SUBDOMAINNAME"; "BLUEHOSTAPI"] ->
  fst (program E st) = 1%Z
  /\ sent (snd (program E st)) = sent st
  /\ files (snd (program E st)) = files st
  /\ ticks (snd (program E st)) = ticks st.
Proof.
  intros Hf Hl Hlines Ha Hlater Hname. unfold program.
  rewrite (Dotenv.loadEnv_read E st envContent Hf Hl), Hlines.
  pose proof (Dotenv.last_line_wins name "" line before later (process_env E)
                Ha Hlater) as Hv.
  rewrite Whole.run_unconfigured.
  - cbn [fst snd after sent files ticks]. now rewrite app_nil_r.
  - unfold missing_configuration, CPANEL_USER, AUTH_TOKEN. cbn [loaded process_env].
    destruct Hname as [<-|[<-|[<-|[]]]]; rewrite Hv; cbn [falsy String.eqb];
      now rewrite ?orb_true_r.
Qed.

Lemma program_stops_on_emptied_variable_witness :
  let E := Demo.env Demo.fileman in
  let st := initial [(dotenv_path E, "BLUEHOSTAPI=" ++ String "000" "")] [] in
  process_env E "BLUEHOSTAPI" = Some "TOKEN"
  /\ fst (program E st) = 1%Z
  /\ sent (snd (program E st)) = sent st
  /\ files (snd (program E st)) = files st
  /\ ticks (snd (program E st)) = ticks st.
Proof.
  intros E st. split; [reflexivity|].
  apply (program_stops_on_emptied_variable E st
           ("BLUEHOSTAPI=" ++ String "000" "") [] ("BLUEHOSTAPI=" ++ String "000" "") []
           "BLUEHOSTAPI");
    [reflexivity|reflexivity|reflexivity|reflexivity|constructor|].
  right. right. left. reflexivity.
Defined.

(** ** getTimestamp *)

(** X9.  Two dates with the same timestamp are the same second of the same
    day: the names a run derives from its timestamp are not shared with a
    run started at another second. *)
Theorem timestamp_injective d1 d2 :
  valid_Date d1 -> valid_Date d2 ->
  timestamp_of d1 = timestamp_of d2 -> d1 = d2.
Proof.
  intros (Hm1 & Hd1 & Hh1 & Hn1 & Hs1) (Hm2 & Hd2 & Hh2 & Hn2 & Hs2) H.
  unfold timestamp_of in H.
  destruct (Stamp.two_digits_shape (getMonth d1 + 1)) as [Lm1 _]; [lia|].
  destruct (Stamp.two_digits_shape (getMonth d2 + 1)) as [Lm2 _]; [lia|].
  destruct (Stamp.two_digits_shape (getDate d1)) as [Ld1 _]; [lia|].
  destruct (Stamp.two_digits_shape (getDate d2)) as [Ld2 _]; [lia|].
  destruct (Stamp.two_digits_shape (getHours d1)) as [Lh1 _]; [lia|].
  destruct (Stamp.two_digits_shape (getHours d2)) as [Lh2 _]; [lia|].
  destruct (Stamp.two_digits_shape (getMinutes d1)) as [Ln1 _]; [lia|].
  destruct (Stamp.two_digits_shape (getMinutes d2)) as [Ln2 _]; [lia|].
  destruct (Stamp.two_digits_shape (getSeconds d1)) as [Ls1 _]; [lia|].
  destruct (Stamp.two_digits_shape (getSeconds d2)) as [Ls2 _]; [lia|].
  assert (Hy : String.length (Str.of_Z (getFullYear d1))
               = String.length (Str.of_Z (getFullYear d2))).
  { apply (f_equal String.length) in H.
    rewrite !TextFacts.length_append in H. lia. }
  destruct (TextFacts.append_inj _ _ _ _ Hy H) as [Ey H1].
  destruct (TextFacts.append_inj _ _ _ _ (eq_trans Lm1 (eq_sym Lm2)) H1) as [Em H2].
  destruct (TextFacts.append_inj _ _ _ _ (eq_trans Ld1 (eq_sym Ld2)) H2) as [Ed H3].
  destruct (TextFacts.append_inj _ _ _ _ (eq_trans Lh1 (eq_sym Lh2)) H3) as [Eh H4].
  destruct (TextFacts.append_inj _ _ _ _ (eq_trans Ln1 (eq_sym Ln2)) H4) as [En Es].
  apply Stamp.of_Z_inj in Ey.
  apply Stamp.two_digits_inj in Em; [|lia|lia].
  apply Stamp.two_digits_inj in Ed; [|lia|lia].
  apply Stamp.two_digits_inj in Eh; [|lia|lia].
  apply Stamp.two_digits_inj in En; [|lia|lia].
  apply Stamp.two_digits_inj in Es; [|lia|lia].
  destruct d1, d2; cbn in *. f_equal; lia.
Qed.

Lemma timestamp_injective_witness :
  valid_Date Demo.now
  /\ (timestamp_of Demo.now = timestamp_of Demo.now -> Demo.now = Demo.now).
Proof.
  assert (H : valid_Date Demo.now) by (unfold valid_Date; cbn; lia).
  split; [exact H|]. exact (timestamp_injective Demo.now Demo.now H H).
Defined.

(** X10.  For a year of four digits the timestamp is fourteen decimal
    digits, YYYYMMDDHHMMSS, every field but the year padded to two. *)
Theorem timestamp_format d :
  valid_Date d ->
  (1000 <= getFullYear d <= 9999)%Z ->
  String.length (timestamp_of d) = 14 /\ digits_only (timestamp_of d) = true.
Proof.
  intros (Hm & Hd & Hh & Hn & Hs) Hy. unfold timestamp_of.
  destruct (Stamp.two_digits_shape (getMonth d + 1)) as [Lm Dm]; [lia|].
  destruct (Stamp.two_digits_shape (getDate d)) as [Ld Dd]; [lia|].
  destruct (Stamp.two_digits_shape (getHours d)) as [Lh Dh]; [lia|].
  destruct (Stamp.two_digits_shape (getMinutes d)) as [Ln Dn]; [lia|].
  destruct (Stamp.two_digits_shape (getSeconds d)) as [Ls Ds]; [lia|].
  split.
  - rewrite !TextFacts.length_append, (Stamp.four_digit_year _ Hy). lia.
  - rewrite !Stamp.digits_append, Dm, Dd, Dh, Dn, Ds, Stamp.digits_of_Z by lia.
    reflexivity.
Qed.

Lemma timestamp_format_witness :
  valid_Date Demo.now
  /\ String.length (timestamp_of Demo.now) = 14
  /\ digits_only (timestamp_of Demo.now) = true.
Proof.
  assert (H : valid_Date Demo.now) by (unfold valid_Date; cbn; lia).
  split; [exact H|]. apply (timestamp_format Demo.now H). cbn. lia.
Defined.

(** ** uploadFiles and ensureRemoteDirectory *)

(** X11.  [uploadFiles] reads every file before it sends anything: at the
    first file it cannot read, it throws the error of [fs.readFile]
    unchanged, having announced the files before that one, and no request
    is issued. *)
Theorem uploadFiles_first_unreadable_file E st remoteDir good bad rest :
  forallb (readable E (files st)) good = true ->
  readable E (files st) bad = false ->
  uploadFiles remoteDir (good ++ bad :: rest) E st =
  (Throw (Error (read_error E bad)),
   after st (upload_greeting remoteDir (good ++ bad :: rest) :: map adding good) []).
Proof.
  intros Hgood Hbad. unfold uploadFiles. rewrite Run.step_log.
  match goal with |- context [bind (attach _ ?i ?f) _ E ?s] =>
    rewrite (Run.step_outcome _ _ _ _ _ _
               (Attach.attach_first_unreadable E good bad rest s i f Hgood Hbad))
  end.
  unfold after, upload_greeting. cbn. now rewrite <- app_assoc.
Qed.

Lemma uploadFiles_first_unreadable_file_witness :
  let E := Demo.env Demo.fileman in
  let st := initial [("/tmp/a.txt", "A")] [] in
  uploadFiles "public_html" ["/tmp/a.txt"; "/tmp/b.txt"; "/tmp/c.txt"] E st =
  (Throw (Error "ENOENT: no such file or directory, open '/tmp/b.txt'"),
   after st [log "Uploading 3 file(s) to public_html"; log "  - Adding file: a.txt"] []).
Proof.
  intros E st.
  apply (uploadFiles_first_unreadable_file E st "public_html"
           ["/tmp/a.txt"] "/tmp/b.txt" ["/tmp/c.txt"]); reflexivity.
Defined.

(** X12.  The keys of the form [uploadFiles] sends are pairwise distinct:
    no file part shadows another one or the [dir] field, however many
    files there are. *)
Theorem uploadFiles_keys_distinct E st remoteDir localFiles :
  forallb (readable E (files st)) localFiles = true ->
  exists form,
    sent (snd (uploadFiles remoteDir localFiles E st)) =
    (sent st ++ [POST (upload_url E) (headers E) form])%list
    /\ NoDup (map fst form).
Proof.
  intros Hr. destruct (Client.uploadFiles_run E st remoteDir localFiles Hr) as [lines Hrun].
  rewrite Hrun. eexists. split; [reflexivity|]. apply Attach.keys_distinct.
Qed.

Lemma uploadFiles_keys_distinct_witness :
  let E := Demo.env Demo.fileman in
  let st := initial [("/tmp/a.txt", "A"); ("/tmp/b.txt", "B")] [] in
  exists form,
    sent (snd (uploadFiles "public_html" ["/tmp/a.txt"; "/tmp/b.txt"; "/tmp/a.txt"] E st)) =
    (sent st ++ [POST (upload_url E) (headers E) form])%list
    /\ NoDup (map fst form).
Proof.
  intros E st.
  apply (uploadFiles_keys_distinct E st "public_html"
           ["/tmp/a.txt"; "/tmp/b.txt"; "/tmp/a.txt"]).
  reflexivity.
Defined.

(** X13.  A 2xx answer whose body is not JSON: both operations let the
    error of [response.json()] through unchanged.  Nothing is printed
    after the greeting, and the request has been issued. *)
Theorem undecodable_body_rethrown E st r e :
  ok r = true ->
  json_body r = Raised e ->
  (forall parentAbsolutePath dirName,
      provider E (sent st) (mkdir_request E parentAbsolutePath dirName) = Resolves r ->
      ensureRemoteDirectory parentAbsolutePath dirName E st =
      (Throw e, after st [mkdir_greeting parentAbsolutePath dirName]
                         [mkdir_request E parentAbsolutePath dirName]))
  /\ (forall remoteDir localFiles,
      forallb (readable E (files st)) localFiles = true ->
      let request := upload_request E (upload_form (files st) remoteDir localFiles) in
      provider E (sent st) request = Resolves r ->
      uploadFiles remoteDir localFiles E st =
      (Throw e, after st (upload_greeting remoteDir localFiles :: map adding localFiles)
                         [request])).
Proof.
  intros Hok Hbody. split.
  - intros parent dirName Hp.
    unfold ensureRemoteDirectory. rewrite Run.step_log.
    unfold mkdir_request in Hp. unfold_M. cbn [console sent ticks files dirs].
    rewrite Hp, Hok. cbn [negb]. rewrite Hbody. reflexivity.
  - intros remoteDir localFiles Hr request Hp. subst request.
    unfold uploadFiles. rewrite Run.step_log.
    match goal with |- context [bind (attach _ ?i ?f) _ E ?s] =>
      rewrite (Run.step_outcome _ _ _ _ _ _ (Attach.attach_exact E localFiles s i f Hr))
    end.
    unfold upload_request, upload_form in Hp. unfold_M.
    unfold after. cbn [console sent ticks files dirs form_set existsb app].
    rewrite app_nil_r, Hp, Hok. cbn [negb]. rewrite Hbody.
    unfold upload_greeting. now rewrite <- app_assoc.
Qed.

Lemma undecodable_body_rethrown_witness :
  let html :=
    {| status := 200; statusText := "OK";
       json_body := Raised (SyntaxError "Unexpected token '<'");
       text := Some "<html>" |} in
  let E := Demo.env (fun _ _ => Resolves html) in
  let st := initial [] [] in
  ensureRemoteDirectory "/home2/acct/public_html" "site" E st =
  (Throw (SyntaxError "Unexpected token '<'"),
   after st [mkdir_greeting "/home2/acct/public_html" "site"]
            [mkdir_request E "/home2/acct/public_html" "site"]).
Proof.
  intros html E st.
  apply (proj1 (undecodable_body_rethrown E st html
                  (SyntaxError "Unexpected token '<'") eq_refl eq_refl)).
  reflexivity.
Defined.

(** X14.  A call of the client touches nothing local: the files, the
    directories and the clock are as before.  [ensureRemoteDirectory]
    issues exactly one request, [uploadFiles] one or none. *)
Theorem client_calls_leave_local_state E st :
  (forall parentAbsolutePath dirName,
      let st' := snd (ensureRemoteDirectory parentAbsolutePath dirName E st) in
      files st' = files st /\ dirs st' = dirs st /\ ticks st' = ticks st
      /\ sent st' = (sent st ++ [mkdir_request E parentAbsolutePath dirName])%list)
  /\ (forall remoteDir localFiles,
      let st' := snd (uploadFiles remoteDir localFiles E st) in
      files st' = files st /\ dirs st' = dirs st /\ ticks st' = ticks st
      /\ (sent st' = sent st
          \/ sent st' =
             (sent st ++ [upload_request E (upload_form (files st) remoteDir localFiles)])%list)).
Proof.
  split.
  - intros parent dirName.
    destruct (Client.ensureRemoteDirectory_run E st parent dirName) as [lines ->].
    cbn. auto.
  - intros remoteDir localFiles.
    destruct (forallb (readable E (files st)) localFiles) eqn:Hr.
    + destruct (Client.uploadFiles_run E st remoteDir localFiles Hr) as [lines ->].
      cbn. auto.
    + destruct (Client.uploadFiles_unreadable E st remoteDir localFiles Hr)
        as [e [lines ->]].
      cbn. rewrite app_nil_r. auto.
Qed.

(** X15.  A rejected [fetch]: both operations print the same three lines,
    the address without the query of the request, and throw
    [Fetch failed: ] followed by the message of the rejection. *)
Theorem rejected_fetch_diagnostics E st m :
  (forall parentAbsolutePath dirName,
      provider E (sent st) (mkdir_request E parentAbsolutePath dirName) = Rejects m ->
      ensureRemoteDirectory parentAbsolutePath dirName E st =
      (Throw (Error ("Fetch failed: " ++ m)),
       after st (mkdir_greeting parentAbsolutePath dirName
                 :: network_diagnostics (CPANEL_HOST E ++ "/json-api/cpanel") m)
                [mkdir_request E parentAbsolutePath dirName]))
  /\ (forall remoteDir localFiles,
      forallb (readable E (files st)) localFiles = true ->
      let request := upload_request E (upload_form (files st) remoteDir localFiles) in
      provider E (sent st) request = Rejects m ->
      uploadFiles remoteDir localFiles E st =
      (Throw (Error ("Fetch failed: " ++ m)),
       after st (upload_greeting remoteDir localFiles :: map adding localFiles
                 ++ network_diagnostics (CPANEL_HOST E ++ "/execute/Fileman/upload_files") m)
                [request])).
Proof.
  split.
  - intros parent dirName Hp.
    unfold ensureRemoteDirectory. rewrite Run.step_log.
    unfold mkdir_request in Hp. unfold_M. cbn [console sent ticks files dirs].
    rewrite Hp. unfold after, network_diagnostics, mkdir_greeting, mkdir_url.
    cbn [console sent ticks files dirs message]. now rewrite <- !app_assoc.
  - intros remoteDir localFiles Hr request Hp. subst request.
    unfold uploadFiles. rewrite Run.step_log.
    match goal with |- context [bind (attach _ ?i ?f) _ E ?s] =>
      rewrite (Run.step_outcome _ _ _ _ _ _ (Attach.attach_exact E localFiles s i f Hr))
    end.
    unfold upload_request, upload_form in Hp. unfold_M.
    unfold after. cbn [console sent ticks files dirs form_set existsb app].
    rewrite app_nil_r, Hp.
    unfold network_diagnostics, upload_greeting, upload_url.
    cbn [console sent ticks files dirs message]. now rewrite <- !app_assoc.
Qed.

Lemma rejected_fetch_diagnostics_witness :
  let E := Demo.env (fun _ _ => Rejects "fetch failed") in
  let st := initial [] [] in
  ensureRemoteDirectory "/home2/acct/public_html" "site" E st =
  (Throw (Error "Fetch failed: fetch failed"),
   after st [log "Creating directory: site in /home2/acct/public_html";
             error "✗ Network error during fetch:";
             error "  URL: https://box123.mybluehost.me:2083/json-api/cpanel";
             error "  Error: fetch failed"]
            [mkdir_request E "/home2/acct/public_html" "site"]).
Proof.
  intros E st.
  apply (proj1 (rejected_fetch_diagnostics E st "fetch failed")). reflexivity.
Defined.

(** X16.  A status outside 200-299: [uploadFiles] prints the status line
    and the body of the answer, or [Unable to read response] when the body
    cannot be read, and throws the status and its phrase;
    [ensureRemoteDirectory] prints the status line only.  Neither decodes
    the body. *)
Theorem http_error_diagnostics E st r :
  ok r = false ->
  (forall parentAbsolutePath dirName,
      provider E (sent st) (mkdir_request E parentAbsolutePath dirName) = Resolves r ->
      ensureRemoteDirectory parentAbsolutePath dirName E st =
      (Throw (Error (http_reason r)),
       after st [mkdir_greeting parentAbsolutePath dirName; http_line r]
                [mkdir_request E parentAbsolutePath dirName]))
  /\ (forall remoteDir localFiles,
      forallb (readable E (files st)) localFiles = true ->
      let request := upload_request E (upload_form (files st) remoteDir localFiles) in
      let body := match text r with
                  | Some t => t
                  | None => "Unable to read response"
                  end in
      provider E (sent st) request = Resolves r ->
      uploadFiles remoteDir localFiles E st =
      (Throw (Error (http_reason r)),
       after st (upload_greeting remoteDir localFiles :: map adding localFiles
                 ++ [http_line r; error ("  Response: " ++ body)])
                [request])).
Proof.
  intros Hok. split.
  - intros parent dirName Hp.
    unfold ensureRemoteDirectory. rewrite Run.step_log.
    unfold mkdir_request in Hp. unfold_M. cbn [console sent ticks files dirs].
    rewrite Hp, Hok. cbn [negb].
    unfold after, mkdir_greeting, http_line.
    cbn [console sent ticks files dirs]. now rewrite <- !app_assoc.
  - intros remoteDir localFiles Hr request body Hp. subst request body.
    unfold uploadFiles. rewrite Run.step_log.
    match goal with |- context [bind (attach _ ?i ?f) _ E ?s] =>
      rewrite (Run.step_outcome _ _ _ _ _ _ (Attach.attach_exact E localFiles s i f Hr))
    end.
    unfold upload_request, upload_form in Hp. unfold_M.
    unfold after. cbn [console sent ticks files dirs form_set existsb app].
    rewrite app_nil_r, Hp, Hok. cbn [negb].
    unfold upload_greeting, http_line.
    cbn [console sent ticks files dirs]. now rewrite <- !app_assoc.
Qed.

Lemma http_error_diagnostics_witness :
  let gone :=
    {| status := 503; statusText := "Service Unavailable";
       json_body := Raised (SyntaxError "Unexpected end of JSON input");
       text := None |} in
  let E := Demo.env (fun _ _ => Resolves gone) in
  let st := initial [("/tmp/a.txt", "A")] [] in
  uploadFiles "public_html" ["/tmp/a.txt"] E st =
  (Throw (Error "HTTP 503: Service Unavailable"),
   after st [log "Uploading 1 file(s) to public_html"; log "  - Adding file: a.txt";
             error "✗ HTTP error: 503 Service Unavailable";
             error "  Response: Unable to read response"]
            [upload_request E (upload_form (files st) "public_html" ["/tmp/a.txt"])]).
Proof.
  intros gone E st.
  apply (proj2 (http_error_diagnostics E st gone eq_refl) "public_html" ["/tmp/a.txt"]);
    reflexivity.
Defined.

(** ** main *)



(** X18.  Every request of a run goes to the configured host over https
    and carries the credentials of the configuration: nothing is sent
    anywhere else, and nothing without the [Authorization] header. *)
Theorem run_requests_authorised E st :
  exists requests,
    sent (snd (run E st)) = (sent st ++ requests)%list
    /\ Forall (authorised E) requests.
Proof. exact (Sends.run_sends E st). Qed.

(** X19.  The exit code 0 can be trusted: it is returned only after the
    three requests of the plan were issued and the [finally] block has
    run; and when the removal works, nothing of the working directory is
    left. *)
Theorem exit_code_zero_means_complete E st :
  fst (run E st) = 0%Z ->
  let st' := snd (run E st) in
  sent st' = (sent st ++ plan E (timestamp_of (clock E (ticks st))))%list
  /\ (exists lines, console st' = (console st ++ lines ++ [cleanup_line E])%list)
  /\ (fs_fault E (Rm (tempDir E)) = None ->
      forall path, inside (tempDir E) path = true ->
        lookup path (files st') = None /\ ~ In path (dirs st')).
Proof.
  intros Hzero.
  destruct (Whole.run_zero E st Hzero) as [lines [fs' Hrun]].
  rewrite Hrun. cbn [snd sent console files dirs]. split; [reflexivity|].
  split; [now exists lines|].
  intros Hrm path Hin. rewrite Hrm. split.
  - apply Outside.lookup_filter_none. intros f Hf. now rewrite Hf, Hin.
  - intros Hd. apply filter_In in Hd as [_ Hd]. now rewrite Hin in Hd.
Qed.

Lemma exit_code_zero_means_complete_witness :
  let E := Demo.env Demo.fileman in
  let st' := snd (run E (initial [] [])) in
  sent st' = plan E "20240105093007"
  /\ (exists lines, console st' = (lines ++ [log "Cleaned up temporary files"])%list)
  /\ (fs_fault E (Rm (tempDir E)) = None ->
      forall path, inside (tempDir E) path = true ->
        lookup path (files st') = None /\ ~ In path (dirs st')).
Proof.
  intros E st'.
  exact (exit_code_zero_means_complete E (initial [] []) eq_refl).
Defined.

(** X20.  When the working directory cannot be made, [main] is rejected
    before its [try] block: the exit code is 1, no request is issued, no
    file is written, and neither the [catch] nor the [finally] block
    prints anything. *)
Theorem run_without_working_directory E st m :
  missing_configuration E = false ->
  fs_fault E (Mkdir (tempDir E)) = Some m ->
  run E st =
  (1%Z,
   {| console := console st ++ header E (timestamp_of (clock E (ticks st)));
      sent := sent st; ticks := S (ticks st); files := files st; dirs := dirs st |}).
Proof.
  intros Hcfg Hmk.
  now rewrite (Whole.run_main _ _ Hcfg), (Blocks.main_unprepared E st m Hmk).
Qed.

Lemma run_without_working_directory_witness :
  let E :=
    {| process_env := Demo.env_vars; __dirname := "/srv/app";
       clock := fun _ => Demo.now; provider := Demo.fileman;
       fs_fault := fun op =>
         match op with
         | Mkdir _ => Some "EACCES: permission denied, mkdir '/srv/app/temp_upload'"
         | _ => None
         end |} in
  let st := initial [] [] in
  run E st =
  (1%Z,
   {| console := console st ++ header E "20240105093007";
      sent := []; ticks := 1; files := []; dirs := [] |}).
Proof.
  intros E st.
  apply (run_without_working_directory E st
           "EACCES: permission denied, mkdir '/srv/app/temp_upload'");
    reflexivity.
Defined.

(** X21.  Whatever is thrown inside the [try] block of [main] is reported
    by the [catch] block with its message between two rules, and the
    process exits with code 1 on the spot: the state is the one the [try]
    block left, so the [finally] block has not run. *)
Theorem failure_in_try_is_reported E st e st1 :
  missing_configuration E = false ->
  fs_fault E (Mkdir (tempDir E)) = None ->
  main_try (timestamp_of (clock E (ticks st))) E (prepared E st) = (Throw e, st1) ->
  run E st = (1%Z, after st1 (banner (message e)) []).
Proof.
  intros Hcfg Hmk Htry.
  rewrite (Whole.run_main _ _ Hcfg), (Blocks.main_prepared E st Hmk).
  unfold try_catch_finally, try_catch. rewrite Htry, Run.main_catch_run.
  reflexivity.
Qed.

Lemma failure_in_try_is_reported_witness :
  let E := Demo.env Demo.unavailable in
  let st := initial [] [] in
  let st1 := snd (main_try "20240105093007" E (prepared E st)) in
  run E st = (1%Z, after st1 (banner "HTTP 503: Service Unavailable") []).
Proof.
  intros E st st1.
  apply (failure_in_try_is_reported E st (Error "HTTP 503: Service Unavailable") st1);
    reflexivity.
Defined.
